(** * BTP LLM GitHub pull analyzer: a shallow embedding of its pipeline

    The development follows [program/providers.py] and [program/report.py]:
    the issue-search pagination, the conversation fetcher, the completion
    client with its retry loop, the [asyncio.gather] fan-out of completions
    and the two report phases.

    Values that travel through the program are decoded JSON documents, so
    the Python operations the source applies to them (subscripting, [in],
    [len], iteration, truthiness, [==]) are embedded on a JSON value type
    with the errors Python raises.  An answer of the completion endpoint
    is decoded by the completion call itself, before its status is read,
    and the exception of the decoder is part of the embedding.  Time
    matters at one place, [time.sleep] in the retry loop: the event loop
    is modelled with the order in which answers arrive and, where the
    time at which they are handled is at stake, with a clock.  Calls to
    the logger are left out: they change no value of the program.

    The file has three parts: the embedding of the source, class by
    class; the vocabulary of the statements and some sample data; the
    lemmas and theorems. *)

From Stdlib Require Import ZArith Lia Bool.
From Stdlib Require Import Floats.SpecFloat.
From stdpp Require Import base list strings pretty.

Local Set Warnings "-register-all".
Local Open Scope string_scope.
Local Open Scope Z_scope.
Local Open Scope list_scope.

(* ===================================================================== *)
(** ** JSON values as [json.load] produces them *)
(* ===================================================================== *)

(** A JSON number is a Python [int] (unbounded) or a [float] (IEEE double,
    kept as its specification value: the program never computes with it). *)
Inductive number :=
| NInt (z : Z)
| NFloat (f : spec_float).

(** A decoded document.  A Python [dict] keeps its keys in insertion order,
    which [json.dumps] and [.items()] follow, so an object is an association
    list; [json.load] never yields a repeated key. *)
Inductive json :=
| JNull
| JBool (b : bool)
| JNum (n : number)
| JStr (s : string)
| JArr (items : list json)
| JObj (fields : list (string * json)).

(** The exceptions the embedded code can raise. *)
Inductive py_error :=
| KeyError (key : json)
| IndexError
| TypeError
| RuntimeError (msg : string)
| ContentTypeError
| JSONDecodeError.

(** [Ok] is normal completion of an expression, [Err] a raised exception. *)
Inductive result (A : Type) :=
| Ok (a : A)
| Err (e : py_error).
Arguments Ok {A} a.
Arguments Err {A} e.

Definition result_bind {A B} (r : result A) (f : A -> result B) : result B :=
  match r with
  | Ok a => f a
  | Err e => Err e
  end.

Declare Scope result_scope.
Delimit Scope result_scope with result.
Notation "x <-? r ; k" := (result_bind r (fun x => k))
  (at level 100, r at next level, right associativity) : result_scope.

(** Sequencing of a fallible function over a list, leftmost error first. *)
Fixpoint result_map {A B} (f : A -> result B) (l : list A) : result (list B) :=
  match l with
  | [] => Ok []
  | x :: l' =>
      match f x with
      | Err e => Err e
      | Ok y =>
          match result_map f l' with
          | Err e => Err e
          | Ok ys => Ok (y :: ys)
          end
      end
  end.

(* --------------------------------------------------------------------- *)
(** *** Dictionaries *)

Section Dict.
Context {V : Type}.

(** [d.get(k)]: the first binding of [k]. *)
Fixpoint dict_get (d : list (string * V)) (k : string) : option V :=
  match d with
  | [] => None
  | (k', v) :: d' => if String.eqb k' k then Some v else dict_get d' k
  end.

(** [d[k] = v]: an existing key keeps its position and takes the new
    value, a new key goes last. *)
Fixpoint dict_set (d : list (string * V)) (k : string) (v : V)
  : list (string * V) :=
  match d with
  | [] => [(k, v)]
  | (k', v') :: d' =>
      if String.eqb k' k then (k, v) :: d' else (k', v') :: dict_set d' k v
  end.

Definition dict_keys (d : list (string * V)) : list string := map fst d.

End Dict.

(* --------------------------------------------------------------------- *)
(** *** Python operators on decoded JSON *)

(** The exact value of a finite float compared with an integer. *)
Definition float_eq_int (f : spec_float) (z : Z) : bool :=
  match f with
  | S754_zero _ => z =? 0
  | S754_finite s m e =>
      let v := if s then Z.neg m else Z.pos m in
      if 0 <=? e then z =? v * 2 ^ e else v =? z * 2 ^ (- e)
  | S754_infinity _ | S754_nan => false
  end.

Definition number_eqb (a b : number) : bool :=
  match a, b with
  | NInt x, NInt y => x =? y
  | NFloat f, NFloat g => SFeqb f g
  | NInt x, NFloat g => float_eq_int g x
  | NFloat f, NInt y => float_eq_int f y
  end.

(** [bool] is a subclass of [int]: [True == 1]. *)
Definition as_number (j : json) : option number :=
  match j with
  | JBool b => Some (NInt (if b then 1 else 0))
  | JNum n => Some n
  | _ => None
  end.

(** [a == b].  Lists compare element by element, dictionaries key by key
    whatever the order of their keys. *)
Fixpoint py_eq (a b : json) {struct a} : bool :=
  match a with
  | JNull => match b with JNull => true | _ => false end
  | JBool x =>
      match as_number b with
      | Some n => number_eqb (NInt (if x then 1 else 0)) n
      | None => false
      end
  | JNum x =>
      match as_number b with
      | Some n => number_eqb x n
      | None => false
      end
  | JStr s => match b with JStr t => String.eqb s t | _ => false end
  | JArr xs =>
      match b with
      | JArr ys =>
          (fix all2 (xs ys : list json) {struct xs} : bool :=
             match xs, ys with
             | [], [] => true
             | x :: xs', y :: ys' => py_eq x y && all2 xs' ys'
             | _, _ => false
             end) xs ys
      | _ => false
      end
  | JObj fs =>
      match b with
      | JObj gs =>
          (length fs =? length gs)%nat &&
          (fix every (fs : list (string * json)) {struct fs} : bool :=
             match fs with
             | [] => true
             | (k, v) :: fs' =>
                 match dict_get gs k with
                 | Some w => py_eq v w && every fs'
                 | None => false
                 end
             end) fs
      | _ => false
      end
  end.

(** [bool(x)], the test behind [if not x]. *)
Definition py_truthy (j : json) : bool :=
  match j with
  | JNull => false
  | JBool b => b
  | JNum (NInt z) => negb (z =? 0)
  | JNum (NFloat f) => negb (SFeqb f (S754_zero false))
  | JStr s => negb (String.eqb s "")
  | JArr xs => match xs with [] => false | _ => true end
  | JObj fs => match fs with [] => false | _ => true end
  end.

(** [x[key]] with a string key. *)
Definition py_getitem (x : json) (key : string) : result json :=
  match x with
  | JObj fs =>
      match dict_get fs key with
      | Some v => Ok v
      | None => Err (KeyError (JStr key))
      end
  | _ => Err TypeError
  end.

(** [x[0]]. *)
Definition py_getitem_0 (x : json) : result json :=
  match x with
  | JArr xs => match xs with v :: _ => Ok v | [] => Err IndexError end
  | JStr s =>
      match s with
      | String c _ => Ok (JStr (String c ""))
      | EmptyString => Err IndexError
      end
  | JObj _ => Err (KeyError (JNum (NInt 0)))
  | _ => Err TypeError
  end.

(** [x[key] = v]: only a dictionary takes a string key. *)
Definition py_setitem (x : json) (key : string) (v : json) : result json :=
  match x with
  | JObj fs => Ok (JObj (dict_set fs key v))
  | _ => Err TypeError
  end.

(** [s in t] on strings: [s] occurs in [t]. *)
Fixpoint is_substring (s t : string) : bool :=
  String.prefix s t ||
  match t with
  | EmptyString => false
  | String _ t' => is_substring s t'
  end.

(** [key in x] for a string [key]. *)
Definition py_contains (key : string) (x : json) : result bool :=
  match x with
  | JObj fs => Ok (match dict_get fs key with Some _ => true | None => false end)
  | JArr xs => Ok (existsb (py_eq (JStr key)) xs)
  | JStr t => Ok (is_substring key t)
  | _ => Err TypeError
  end.

(** [len(x)]. *)
Definition py_len (x : json) : result Z :=
  match x with
  | JArr xs => Ok (Z.of_nat (length xs))
  | JObj fs => Ok (Z.of_nat (length fs))
  | JStr s => Ok (Z.of_nat (String.length s))
  | _ => Err TypeError
  end.

Fixpoint string_chars (s : string) : list json :=
  match s with
  | EmptyString => []
  | String c s' => JStr (String c "") :: string_chars s'
  end.

(** The elements [for e in x] visits: the items of a list, the keys of a
    dictionary, the characters of a string. *)
Definition py_iter (x : json) : result (list json) :=
  match x with
  | JArr xs => Ok xs
  | JObj fs => Ok (map (fun kv => JStr (fst kv)) fs)
  | JStr s => Ok (string_chars s)
  | _ => Err TypeError
  end.

(** [json.loads(json.dumps(x))]: the document is written out and read back,
    which rebuilds every node of a value that came from [json.load]. *)
Fixpoint json_roundtrip (x : json) : json :=
  match x with
  | JNull => JNull
  | JBool b => JBool b
  | JNum n => JNum n
  | JStr s => JStr s
  | JArr xs => JArr (map json_roundtrip xs)
  | JObj fs => JObj (map (fun kv => (fst kv, json_roundtrip (snd kv))) fs)
  end.

(* ===================================================================== *)
(** ** The world the program runs in *)
(* ===================================================================== *)

(** What [requests.get] hands back to the issue search: the status code
    and the body as [response.json()] decodes it.  (A transport failure,
    or a body that is not JSON, raises inside the HTTP library and is not
    part of the embedding.) *)
Record http_response := { status : Z; body : json }.

(** What [session.post] hands back to a completion call: the status code,
    and what [await response.json()] comes to, the decoded body or the
    exception of the decoder ([ContentTypeError] when the answer is not
    declared as JSON, [JSONDecodeError] when its text is not JSON). *)
Record client_response := {
  response_status : Z;
  response_body : result json
}.

(** The observable actions of a run, in program order. *)
Inductive event :=
| EvGet (url : string) (page : Z)
| EvPost (url : string) (authorization : string) (payload : json)
| EvSleep (seconds : Z).

(** Objects that are shared by reference live in a store; a reference is an
    index into it.  [trace] records the actions performed so far. *)
Definition loc := nat.
Record world := { heap : list json; trace : list event }.

(** How far a computation got: it returned, it raised, or it is still
    waiting for an answer that never comes. *)
Inductive outcome (A : Type) :=
| Returned (a : A)
| Raised (e : py_error)
| Pending.
Arguments Returned {A} a.
Arguments Raised {A} e.
Arguments Pending {A}.

Definition prog (A : Type) : Type := world -> world * outcome A.

Definition ret {A} (a : A) : prog A := fun w => (w, Returned a).
Definition raise {A} (e : py_error) : prog A := fun w => (w, Raised e).
Definition pending {A} : prog A := fun w => (w, Pending).

Definition bind {A B} (m : prog A) (k : A -> prog B) : prog B :=
  fun w =>
    match m w with
    | (w1, Returned a) => k a w1
    | (w1, Raised e) => (w1, Raised e)
    | (w1, Pending) => (w1, Pending)
    end.

Declare Scope prog_scope.
Delimit Scope prog_scope with prog.
Notation "x <- m ;; k" := (bind m (fun x => k))
  (at level 100, m at next level, right associativity) : prog_scope.
Notation "m ;; k" := (bind m (fun _ => k))
  (at level 100, right associativity) : prog_scope.

Definition lift {A} (r : result A) : prog A :=
  match r with
  | Ok a => ret a
  | Err e => raise e
  end.

Definition emit (e : event) : prog unit :=
  fun w => ({| heap := heap w; trace := trace w ++ [e] |}, Returned tt).

(** A new object: it takes the next free index. *)
Definition heap_alloc (v : json) : prog loc :=
  fun w => ({| heap := heap w ++ [v]; trace := trace w |},
            Returned (length (heap w))).

(** Reading through a reference.  Every reference the program holds is
    allocated; outside the store the read yields [JNull]. *)
Definition heap_load (l : loc) : prog json :=
  fun w => (w, Returned (default JNull (heap w !! l))).

(** [obj[key] = v] on the object behind a reference: it is updated in
    place, so every holder of the reference sees the change. *)
Definition heap_setitem (l : loc) (key : string) (v : json) : prog unit :=
  fun w =>
    match py_setitem (default JNull (heap w !! l)) key v with
    | Ok x => ({| heap := <[l := x]> (heap w); trace := trace w |}, Returned tt)
    | Err e => (w, Raised e)
    end.

(* ===================================================================== *)
(** ** Messages, conversations, results *)
(* ===================================================================== *)

Inductive role := user | assistant | system.

Definition role_name (r : role) : string :=
  match r with
  | user => "user"
  | assistant => "assistant"
  | system => "system"
  end.

(** [{'role': ..., 'content': ...}] *)
Record message := { msg_role : role; content : json }.

Definition message_json (m : message) : json :=
  JObj [("role", JStr (role_name (msg_role m))); ("content", content m)].

Definition messages_json (ms : list message) : json :=
  JArr (map message_json ms).

(** [{'url': ..., 'messages': [...]}] *)
Record pull := { pull_url : string; messages : list message }.

(** [{'group_name': ..., 'completion': ...}] *)
Record completion_result := { group_name : string; completion : json }.

(** [{'url': ..., 'analysis': ...}] *)
Record pull_analysis := { url : string; analysis : json }.

(** [for x in xs: ...] in [prog], leftmost effect first. *)
Fixpoint prog_map {A B} (f : A -> prog B) (l : list A) : prog (list B) :=
  match l with
  | [] => ret []
  | x :: l' => (y <- f x ;; ys <- prog_map f l' ;; ret (y :: ys))%prog
  end.

(* ===================================================================== *)
(** ** [program/config.py] *)
(* ===================================================================== *)

Record GitHubConfiguration := {
  org_name : string;
  repo_name : string;
  api_url : string;
  api_token : string;
  search_label : string
}.

(** [data_template] is the dictionary decoded from the manifest; the
    configuration object holds a reference to it. *)
Record OpenAiConfiguration := {
  completions_url : string;
  uaa_url : string;
  client_id : string;
  client_secret : string;
  data_template : loc
}.

Record ReportConfiguration := {
  grounding_prompt : json;
  pull_prompt : json;
  overview_prompt : json
}.

(* ===================================================================== *)
(** ** [program/providers.py]: [GitHubProvider] *)
(* ===================================================================== *)

Module GitHubProvider.

Record t := { config : GitHubConfiguration }.

(** What one pass of the [while True] body of [get_pull_requests] does
    with a decoded page: leave the loop, or append these URLs. *)
Inductive page_step :=
| PageBreak
| PageUrls (urls : list json).

(** The body of [for issue_record in data['items']]. *)
Definition issue_pull_request_url (issue_record : json) : result json :=
  (issue_url <-? py_getitem issue_record "url";
   pull_request <-? py_getitem issue_record "pull_request";
   py_getitem pull_request "url")%result.

Definition read_page (data : json) : result page_step :=
  (has_items <-? py_contains "items" data;
   if negb has_items then Ok PageBreak else
   items <-? py_getitem data "items";
   n <-? py_len items;
   if n =? 0 then Ok PageBreak else
   issue_records <-? py_iter items;
   urls <-? result_map issue_pull_request_url issue_records;
   Ok (PageUrls urls))%result.

(** [get_pull_requests]: [script] is what the search endpoint answers to
    the successive [requests.get] calls.  The status of a response is
    never read. *)
Fixpoint get_pull_requests_loop (url : string) (page : Z)
    (pull_request_urls : list json) (script : list http_response)
  : prog (list json) :=
  (emit (EvGet url page) ;;
   match script with
   | [] => pending
   | response :: script' =>
       step <- lift (read_page (body response)) ;;
       match step with
       | PageBreak => ret pull_request_urls
       | PageUrls urls =>
           get_pull_requests_loop url (page + 1)
             (pull_request_urls ++ urls) script'
       end
   end)%prog.

Definition get_pull_requests (url : string) (script : list http_response)
  : prog (list json) :=
  get_pull_requests_loop url 1 [] script.

Section Session.
(** The document behind each URL of the GitHub API, as [session.get]
    followed by [response.json()] yields it. *)
Variable github : string -> json.

(** [session.get] accepts only a string for the URL. *)
Definition session_get (data_url : json) : result json :=
  match data_url with
  | JStr u => Ok (github u)
  | _ => Err TypeError
  end.

(** The body of [for comment in comments_json]: the message to append,
    or [None] where the source says [continue]. *)
Definition comment_message (student_login comment : json)
  : result (option message) :=
  (comment_user <-? py_getitem comment "user";
   author_login <-? py_getitem comment_user "login";
   let role_name :=
     if py_eq author_login student_login then user else assistant in
   content <-? py_getitem comment "body";
   if negb (py_truthy content) then Ok None
   else Ok (Some {| msg_role := role_name; content := content |}))%result.

Fixpoint get_comments_loop (student_login : json)
    (comments_json : list json) (comments : list message)
  : result (list message) :=
  match comments_json with
  | [] => Ok comments
  | comment :: rest =>
      (m <-? comment_message student_login comment;
       get_comments_loop student_login rest
         (match m with
          | Some msg => comments ++ [msg]
          | None => comments
          end))%result
  end.

Definition get_comments (data_url student_login : json)
  : result (list message) :=
  (comments_json <-? session_get data_url;
   items <-? py_iter comments_json;
   get_comments_loop student_login items [])%result.

Definition get_pull_request_pull (url : json) : result pull :=
  (pull_request <-? session_get url;
   pull_user <-? py_getitem pull_request "user";
   student_login <-? py_getitem pull_user "login";
   pull_body <-? py_getitem pull_request "body";
   let messages0 :=
     if negb (py_truthy pull_body) then []
     else [{| msg_role := user; content := pull_body |}] in
   comments_url <-? py_getitem pull_request "comments_url";
   comments <-? get_comments comments_url student_login;
   let messages1 := messages0 ++ comments in
   review_comments_url <-? py_getitem pull_request "review_comments_url";
   review_comments <-? get_comments review_comments_url student_login;
   let messages2 := messages1 ++ review_comments in
   match url with
   | JStr u => Ok {| pull_url := u; messages := messages2 |}
   | _ => Err TypeError
   end)%result.

Definition search_url (self : t) : string :=
  api_url (config self) +:+ "/search/issues?q=type:pr+state:closed+"
  +:+ "label:" +:+ search_label (config self) +:+ "+"
  +:+ "repo:" +:+ org_name (config self) +:+ "/"
  +:+ repo_name (config self).

(** [asyncio.gather] over the fetches.  The fetches only read [github],
    so their interleaving does not show in the pulls, which come back in
    the order of the URLs.  When fetches fail, the join raises the
    exception of the fetch that fails first in time: [finished_at i] is
    the time at which the fetch of the [i]-th URL ends; of two fetches
    that end at the same time the one started first is served first. *)
Variable finished_at : nat -> nat.

(** The failed fetch that ends first among [fetched], the fetches from
    the [i]-th on, with the time at which it ends. *)
Fixpoint first_failure (i : nat) (fetched : list (result pull))
  : option (nat * py_error) :=
  match fetched with
  | [] => None
  | Ok _ :: rest => first_failure (S i) rest
  | Err e :: rest =>
      match first_failure (S i) rest with
      | Some (time, e') =>
          if (time <? finished_at i)%nat then Some (time, e')
          else Some (finished_at i, e)
      | None => Some (finished_at i, e)
      end
  end.

Definition gather_pulls (fetched : list (result pull)) : result (list pull) :=
  match first_failure 0 fetched with
  | Some (_, e) => Err e
  | None => result_map (fun r => r) fetched
  end.

Definition get_pull_request_pulls (self : t)
    (search_script : list http_response) : prog (list pull) :=
  (pull_request_urls <- get_pull_requests (search_url self) search_script ;;
   result_pulls <- lift (gather_pulls
                           (map get_pull_request_pull pull_request_urls)) ;;
   ret result_pulls)%prog.
End Session.

End GitHubProvider.

(* ===================================================================== *)
(** ** [program/providers.py]: [OpenAiProvider] *)
(* ===================================================================== *)

Module OpenAiProvider.

(** [access_token] is fetched once, when the provider is built. *)
Record t := { config : OpenAiConfiguration; access_token : string }.

(** How one pass of the [while True] body of [get_completion] ends. *)
Inductive iteration :=
| Completed (r : completion_result)
| Retry.

(** The lines of [get_completion] before the loop: the template is
    copied and the copy receives the messages. *)
Definition build_request_data (self : t) (messages : list message)
  : prog loc :=
  (template <- heap_load (data_template (config self)) ;;
   data <- heap_alloc (json_roundtrip template) ;;
   heap_setitem data "messages" (messages_json messages) ;;
   ret data)%prog.

(** [session.post(completions_url, headers=headers, json=data)]: the
    payload is the object behind [data] at the time of the call. *)
Definition post_completion (self : t) (data : loc) : prog unit :=
  (payload <- heap_load data ;;
   emit (EvPost (completions_url (config self))
                ("Bearer " +:+ access_token self) payload))%prog.

(** The body of the loop after the post: the answer is decoded, then its
    status is read and put to the three-way test.  [EvSleep 1] is
    [time.sleep(1)], a call that blocks. *)
Definition handle_response (group_name : string) (response : client_response)
  : prog iteration :=
  (response_json <- lift (response_body response) ;;
   let status_code := response_status response in
   if status_code =? 200 then
     ret (Completed {| group_name := group_name;
                       completion := response_json |})
   else if status_code =? 500 then
     emit (EvSleep 1) ;; ret Retry
   else
     raise (RuntimeError
              ("unexpected status code: " +:+ pretty status_code)))%prog.

(** The [while True] loop; [script] is what the endpoint answers to the
    successive posts of this call.  With no answer left the call stays
    suspended on its last post. *)
Fixpoint completion_loop (self : t) (group_name : string) (data : loc)
    (script : list client_response) : prog completion_result :=
  (post_completion self data ;;
   match script with
   | [] => pending
   | response :: script' =>
       it <- handle_response group_name response ;;
       match it with
       | Completed r => ret r
       | Retry => completion_loop self group_name data script'
       end
   end)%prog.

Definition get_completion (self : t) (group_name : string)
    (messages : list message) (script : list client_response)
  : prog completion_result :=
  (data <- build_request_data self messages ;;
   completion_loop self group_name data script)%prog.

(** *** The fan-out of [get_completions]

    [asyncio.gather] turns every [get_completion] coroutine into a task.
    A task runs until it awaits the answer to a post; it is resumed when
    the answer arrives.  A suspended task is the data its continuation
    needs: the group name, the request object and the answers still to
    come for it. *)
Inductive task :=
| Awaiting (group_name : string) (data : loc) (script : list client_response)
| Done (r : completion_result).

(** The first run of a task: up to its first post.  It raises before
    posting when the template cannot take the messages; the template is
    the same for every task, so the first task to start decides. *)
Definition start_task (self : t) (endpoint : string -> list client_response)
    (item : string * list message) : prog task :=
  (data <- build_request_data self (snd item) ;;
   post_completion self data ;;
   ret (Awaiting (fst item) data (endpoint (fst item))))%prog.

(** The results of the tasks in the order of the tasks, once all are
    done. *)
Fixpoint results_of (tasks : list task) : option (list completion_result) :=
  match tasks with
  | [] => Some []
  | Done r :: tasks' =>
      match results_of tasks' with
      | Some rs => Some (r :: rs)
      | None => None
      end
  | Awaiting _ _ _ :: _ => None
  end.

(** The task [i] is resumed with its next answer and runs to its next
    suspension: it decodes the answer, then finishes, or sleeps and posts
    again, or raises.  A task that is done, or whose answers are used up,
    is left as it is. *)
Definition resume (self : t) (i : nat) (tasks : list task)
  : prog (list task) :=
  match tasks !! i with
  | Some (Awaiting group_name data (response :: script')) =>
      (it <- handle_response group_name response ;;
       match it with
       | Completed r => ret (<[i := Done r]> tasks)
       | Retry =>
           post_completion self data ;;
           ret (<[i := Awaiting group_name data script']> tasks)
       end)%prog
  | _ => ret tasks
  end.

(** The event loop under [asyncio.gather].  [arrivals] names, one after
    the other, the task whose next answer arrives.  The first exception
    of a task ends the [gather]; it returns the results, in the order of
    the tasks, as soon as every task is done. *)
Fixpoint gather (self : t) (arrivals : list nat) (tasks : list task)
  : prog (list completion_result) :=
  match results_of tasks with
  | Some results => ret results
  | None =>
      match arrivals with
      | [] => pending
      | i :: arrivals' =>
          (tasks' <- resume self i tasks ;;
           gather self arrivals' tasks')%prog
      end
  end.

(** [get_completions]: one task per item of the dictionary, in the order
    of [message_groups.items()].  [endpoint g] is what the endpoint
    answers to the posts of group [g]. *)
Definition get_completions (self : t)
    (endpoint : string -> list client_response) (arrivals : list nat)
    (message_groups : list (string * list message))
  : prog (list completion_result) :=
  (tasks <- prog_map (start_task self endpoint) message_groups ;;
   gather self arrivals tasks)%prog.

End OpenAiProvider.

(* ===================================================================== *)
(** ** [program/report.py]: [ReportGenerator] *)
(* ===================================================================== *)

(** [{'prompts': {...}, 'summary': ..., 'pulls': [...]}] *)
Record report := {
  prompt_grounding : json;
  prompt_pull : json;
  prompt_overview : json;
  summary : json;
  pulls : list pull_analysis
}.

(** What the outside answers during one run: the search pages, the GitHub
    documents and the times at which their fetches end, and for each of
    the two completion phases the answers of the endpoint per group and
    the order in which answers arrive. *)
Record environment := {
  search_script : list http_response;
  github : string -> json;
  fetch_times : nat -> nat;
  pulls_endpoint : string -> list client_response;
  pulls_arrivals : list nat;
  summary_endpoint : string -> list client_response;
  summary_arrivals : list nat
}.

Module ReportGenerator.

Record t := {
  config : ReportConfiguration;
  github_provider : GitHubProvider.t;
  openai_provider : OpenAiProvider.t
}.

(** [x['choices'][0]['message']['content']] *)
Definition first_choice_content (completion : json) : result json :=
  (choices <-? py_getitem completion "choices";
   choice <-? py_getitem_0 choices;
   choice_message <-? py_getitem choice "message";
   py_getitem choice_message "content")%result.

(** [completions[0]] on the list [get_completions] returns. *)
Definition first_completion (completions : list completion_result)
  : result completion_result :=
  match completions with
  | c :: _ => Ok c
  | [] => Err IndexError
  end.

(** The messages of the summary request. *)
Definition summary_messages (self : t) (pulls : list pull_analysis)
  : list message :=
  [{| msg_role := system; content := grounding_prompt (config self) |}]
  ++ map (fun pull => {| msg_role := assistant; content := analysis pull |})
         pulls
  ++ [{| msg_role := user; content := overview_prompt (config self) |}].

Definition generate_summary_report (self : t) (env : environment)
    (pulls : list pull_analysis) : prog report :=
  (let messages := summary_messages self pulls in
   let message_groups := dict_set [] "summary" messages in
   completions <- OpenAiProvider.get_completions (openai_provider self)
                    (summary_endpoint env) (summary_arrivals env)
                    message_groups ;;
   first <- lift (first_completion completions) ;;
   summary_text <- lift (first_choice_content (completion first)) ;;
   ret {| prompt_grounding := grounding_prompt (config self);
          prompt_pull := pull_prompt (config self);
          prompt_overview := overview_prompt (config self);
          summary := summary_text;
          pulls := pulls |})%prog.

(** The messages of the request for one pull. *)
Definition pull_messages (self : t) (p : pull) : list message :=
  [{| msg_role := system; content := grounding_prompt (config self) |}]
  ++ messages p
  ++ [{| msg_role := user; content := pull_prompt (config self) |}].

(** The first loop of [generate_pulls_report]:
    [message_groups[pull_url] = messages] for each pull in turn. *)
Definition build_message_groups (self : t) (pulls : list pull)
  : list (string * list message) :=
  fold_left (fun message_groups p =>
               dict_set message_groups (pull_url p) (pull_messages self p))
            pulls [].

(** The body of [for completion_info in completions]. *)
Definition project_analysis (completion_info : completion_result)
  : result pull_analysis :=
  (text <-? first_choice_content (completion completion_info);
   Ok {| url := group_name completion_info; analysis := text |})%result.

Definition generate_pulls_report (self : t) (env : environment)
  : prog (list pull_analysis) :=
  (pulls <- GitHubProvider.get_pull_request_pulls (github env)
              (fetch_times env) (github_provider self) (search_script env) ;;
   let message_groups := build_message_groups self pulls in
   completions <- OpenAiProvider.get_completions (openai_provider self)
                    (pulls_endpoint env) (pulls_arrivals env)
                    message_groups ;;
   resulting_pulls <- lift (result_map project_analysis completions) ;;
   ret resulting_pulls)%prog.

Definition generate_report (self : t) (env : environment) : prog report :=
  (pulls_report <- generate_pulls_report self env ;;
   summary_report <- generate_summary_report self env pulls_report ;;
   ret summary_report)%prog.

End ReportGenerator.

(* ===================================================================== *)
(** ** Vocabulary of the statements *)
(* ===================================================================== *)

(** The world after some more actions. *)
Definition emitted (w : world) (evs : list event) : world :=
  {| heap := heap w; trace := trace w ++ evs |}.

(** The world after one more object. *)
Definition allocated (w : world) (v : json) : world :=
  {| heap := heap w ++ [v]; trace := trace w |}.

(** The post of a completion request whose payload is [payload]. *)
Definition post_event (self : OpenAiProvider.t) (payload : json) : event :=
  EvPost (completions_url (OpenAiProvider.config self))
         ("Bearer " +:+ OpenAiProvider.access_token self) payload.

(** What an answer is to the loop: a success with its decoded body, the
    overloaded signal, or a failure with the exception raised.  An answer
    that does not decode is a failure whatever its status. *)
Inductive reading :=
| Success (completion : json)
| Overloaded
| Failure (e : py_error).

Definition read_answer (response : client_response) : reading :=
  match response_body response with
  | Err e => Failure e
  | Ok response_json =>
      if response_status response =? 200 then Success response_json
      else if response_status response =? 500 then Overloaded
      else Failure (RuntimeError
                      ("unexpected status code: "
                       +:+ pretty (response_status response)))
  end.

(** The number of overloaded answers at the head of a script. *)
Fixpoint leading_overloads (script : list client_response) : nat :=
  match script with
  | response :: script' =>
      match read_answer response with
      | Overloaded => S (leading_overloads script')
      | _ => O
      end
  | [] => O
  end.

(** What a call comes to on the first answer that is not overloaded. *)
Definition verdict (group_name : string) (script : list client_response)
  : outcome completion_result :=
  match script with
  | [] => Pending
  | response :: _ =>
      match read_answer response with
      | Success response_json =>
          Returned {| group_name := group_name; completion := response_json |}
      | Overloaded => Pending
      | Failure e => Raised e
      end
  end.

(** The actions of a call that retries [k] times: each attempt posts, each
    overloaded answer is followed by a sleep of one second. *)
Fixpoint retry_trace (post : event) (k : nat) : list event :=
  match k with
  | O => [post]
  | S k' => post :: EvSleep 1 :: retry_trace post k'
  end.

(** The payload of a completion request, spelled out: the fields of the
    template with [messages] replaced. *)
Definition request_payload (template_fields : list (string * json))
    (ms : list message) : json :=
  JObj (dict_set template_fields "messages" (messages_json ms)).

(** The outcome of a computation with its result, if any, transformed. *)
Definition outcome_map {A B} (f : A -> B) (o : outcome A) : outcome B :=
  match o with
  | Returned a => Returned (f a)
  | Raised e => Raised e
  | Pending => Pending
  end.

(** What the group [g] comes to, by the answers the endpoint has for it. *)
Definition expected (endpoint : string -> list client_response) (g : string)
  : outcome completion_result :=
  verdict g (drop (leading_overloads (endpoint g)) (endpoint g)).

(** The group a task works for. *)
Definition task_name (t : OpenAiProvider.task) : string :=
  match t with
  | OpenAiProvider.Awaiting g _ _ => g
  | OpenAiProvider.Done r => group_name r
  end.

(** What a task comes to, by the answers still to come for it. *)
Definition task_verdict (t : OpenAiProvider.task)
  : outcome completion_result :=
  match t with
  | OpenAiProvider.Awaiting g _ script =>
      verdict g (drop (leading_overloads script) script)
  | OpenAiProvider.Done r => Returned r
  end.

(** The number of answers a task still has to receive before it is done,
    when its answers lead to a success. *)
Definition task_needs (t : OpenAiProvider.task) : nat :=
  match t with
  | OpenAiProvider.Awaiting _ _ script => S (leading_overloads script)
  | OpenAiProvider.Done _ => O
  end.

(** The request object a suspended task posts. *)
Definition task_data (t : OpenAiProvider.task) : option loc :=
  match t with
  | OpenAiProvider.Awaiting _ data _ => Some data
  | OpenAiProvider.Done _ => None
  end.

(** The tasks as [get_completions] starts them, the request objects
    taking the indices from [base] on. *)
Fixpoint initial_tasks (endpoint : string -> list client_response) (base : nat)
    (message_groups : list (string * list message))
  : list OpenAiProvider.task :=
  match message_groups with
  | [] => []
  | item :: rest =>
      OpenAiProvider.Awaiting (fst item) base (endpoint (fst item))
      :: initial_tasks endpoint (S base) rest
  end.


(** The number of times [i] occurs in [arrivals]. *)
Definition turns (i : nat) (arrivals : list nat) : nat :=
  length (filter (fun j => j = i) arrivals).

(** What may occur among the actions of the event loop: a sleep of one
    second, or the post of the request object of one of the tasks. *)
Definition loop_event (self : OpenAiProvider.t) (h : list json)
    (tasks : list OpenAiProvider.task) (ev : event) : Prop :=
  ev = EvSleep 1
  \/ exists t d, t ∈ tasks /\ task_data t = Some d
                 /\ ev = post_event self (default JNull (h !! d)).

(** A task after [n] of its answers have arrived, as long as none of them
    makes it raise. *)
Fixpoint advance (n : nat) (t : OpenAiProvider.task) : OpenAiProvider.task :=
  match n with
  | O => t
  | S n' =>
      match t with
      | OpenAiProvider.Awaiting g d (r :: script') =>
          match read_answer r with
          | Success response_json =>
              OpenAiProvider.Done
                {| group_name := g; completion := response_json |}
          | Overloaded => advance n' (OpenAiProvider.Awaiting g d script')
          | Failure _ => t
          end
      | _ => t
      end
  end.

(** A comment as the conversation fetcher reads it: the login of its
    author and its body. *)
Record comment := { author : json; text : json }.

(** The document [j] is a comment with this author and this body: the two
    paths [j['user']['login']] and [j['body']] resolve. *)
Definition is_comment (j : json) (c : comment) : Prop :=
  exists u, py_getitem j "user" = Ok u
            /\ py_getitem u "login" = Ok (author c)
            /\ py_getitem j "body" = Ok (text c).

(** The messages a list of comments gives, in the words of the
    specification: comments without a body are dropped, the others keep
    their order; the requester speaks as [user], anyone else as
    [assistant]. *)
Definition comment_messages (student_login : json) (cs : list comment)
  : list message :=
  map (fun c => {| msg_role := if py_eq (author c) student_login
                               then user else assistant;
                   content := text c |})
      (filter (fun c => py_truthy (text c) = true) cs).

(** The message [m] is the one of the comment [c] in a conversation
    whose requester has the login [student_login]: it says what the
    comment says, as [user] exactly when the author of the comment is the
    requester, as [assistant] exactly when not. *)
Definition speaks_for (student_login : json) (c : comment) (m : message)
  : Prop :=
  content m = text c
  /\ (msg_role m = user <-> py_eq (author c) student_login = true)
  /\ (msg_role m = assistant <-> py_eq (author c) student_login = false).

(** The comments that have something to say. *)
Definition with_body (cs : list comment) : list comment :=
  filter (fun c => py_truthy (text c) = true) cs.

(** The message of the pull body: none when the body is empty. *)
Definition body_messages (pull_body : json) : list message :=
  if py_truthy pull_body
  then [{| msg_role := user; content := pull_body |}]
  else [].

(** A message that has something to say. *)
Definition nonempty (m : message) : Prop :=
  py_truthy (content m) = true
  /\ content m <> JStr "" /\ content m <> JNull.

(** The document [j] is an issue record paired with this pull-request
    URL: [j['url']] and [j['pull_request']['url']] resolve. *)
Definition is_issue_record (j : json) (pull_request_url : json) : Prop :=
  exists issue_url pr,
    py_getitem j "url" = Ok issue_url
    /\ py_getitem j "pull_request" = Ok pr
    /\ py_getitem pr "url" = Ok pull_request_url.

(** A page of results: its body has a non-empty list of issue records
    under [items]. *)
Definition full_page (r : http_response) (urls : list json) : Prop :=
  exists records,
    py_getitem (body r) "items" = Ok (JArr records)
    /\ records <> []
    /\ Forall2 is_issue_record records urls.

(** A page that ends the search, by the two tests of the loop:
    ['items' not in data], or [len(data['items']) == 0]. *)
Definition last_page (r : http_response) : Prop :=
  py_contains "items" (body r) = Ok false
  \/ exists items,
       py_getitem (body r) "items" = Ok items /\ py_len items = Ok 0.

(** The requests for [n] successive pages from page [first] on. *)
Fixpoint page_requests (url : string) (first : Z) (n : nat) : list event :=
  match n with
  | O => []
  | S n' => EvGet url first :: page_requests url (first + 1) n'
  end.

(* ===================================================================== *)
(** ** Sample data *)
(* ===================================================================== *)

Definition demo_template : list (string * json) :=
  [("deployment_id", JStr "gpt-mock-deployment-id");
   ("messages", JArr []);
   ("max_tokens", JNum (NInt 4000));
   ("stop", JNull)].

Definition demo_world : world :=
  {| heap := [JObj demo_template]; trace := [] |}.

Definition demo_openai : OpenAiProvider.t :=
  {| OpenAiProvider.config :=
       {| completions_url := "https://azure-openai.mock/chat/completions";
          uaa_url := "https://mock-openai.authentication.mock";
          client_id := "mock-client-id";
          client_secret := "mock-client-secret";
          data_template := 0%nat |};
     OpenAiProvider.access_token := "mock-access_token" |}.


Definition overloaded_answer : client_response :=
  {| response_status := 500;
     response_body := Ok (JObj [("error", JStr "rate limit exceeded")]) |}.

Definition completion_body (text : string) : json :=
  JObj [("choices",
         JArr [JObj [("message", JObj [("content", JStr text)])]])].

Definition completion_answer (text : string) : client_response :=
  {| response_status := 200; response_body := Ok (completion_body text) |}.

(** The error page of a gateway: status 500 and a body that is not JSON. *)
Definition gateway_error : client_response :=
  {| response_status := 500; response_body := Err ContentTypeError |}.

Definition demo_groups : list (string * list message) :=
  [("mock_url_a", [{| msg_role := user; content := JStr "mock_comment" |}]);
   ("mock_url_b", [])].

(** The endpoint is overloaded once for the first group. *)
Definition demo_endpoint (g : string) : list client_response :=
  if String.eqb g "mock_url_a"
  then [overloaded_answer; completion_answer "analysis a"]
  else [completion_answer "analysis b"].

Definition demo_results : list completion_result :=
  [{| group_name := "mock_url_a"; completion := completion_body "analysis a" |};
   {| group_name := "mock_url_b";
      completion := completion_body "analysis b" |}].

(** The endpoint is overloaded for good for the first group. *)
Definition stuck_endpoint (g : string) : list client_response :=
  if String.eqb g "mock_url_a"
  then [overloaded_answer; overloaded_answer; overloaded_answer]
  else [completion_answer "analysis b"].


Definition demo_result_b : completion_result :=
  {| group_name := "mock_url_b"; completion := completion_body "analysis b" |}.

Definition issue_record (issue_url pull_request_url : string) : json :=
  JObj [("url", JStr issue_url);
        ("pull_request", JObj [("url", JStr pull_request_url)])].

Definition search_page_1 : http_response :=
  {| status := 200;
     body := JObj [("total_count", JNum (NInt 2));
                   ("items",
                    JArr [issue_record "https://api.mock/issues/1"
                                       "https://api.mock/pulls/1";
                          issue_record "https://api.mock/issues/2"
                                       "https://api.mock/pulls/2"])] |}.

(** The answer of the search endpoint once the rate limit is reached. *)
Definition rate_limited_page : http_response :=
  {| status := 403;
     body := JObj [("message", JStr "API rate limit exceeded");
                   ("documentation_url", JStr "https://docs.mock")] |}.

(** A page whose issue record has no [pull_request]. *)
Definition malformed_page : http_response :=
  {| status := 200;
     body := JObj [("items",
                    JArr [JObj [("url", JStr "https://api.mock/issues/3")]])] |}.

(** The payload of [test_get_pull_requests]: a list, not a dictionary. *)
Definition test_page : http_response :=
  {| status := 200; body := JArr [] |}.

(** Scenario B of the specification, and more: a pull with a body, one
    comment by someone else than its requester, one comment without a
    body, and one review comment by the requester; and a second pull
    without body nor comments. *)
Definition demo_github (u : string) : json :=
  if String.eqb u "https://api.mock/pulls/1" then
    JObj [("user", JObj [("login", JStr "mock_student_login")]);
          ("body", JStr "mock_body");
          ("comments_url", JStr "https://api.mock/issues/1/comments");
          ("review_comments_url", JStr "https://api.mock/pulls/1/comments")]
  else if String.eqb u "https://api.mock/issues/1/comments" then
    JArr [JObj [("user", JObj [("login", JStr "mock_reviewer_login")]);
                ("body", JStr "mock_comment")];
          JObj [("user", JObj [("login", JStr "mock_student_login")]);
                ("body", JStr "")]]
  else if String.eqb u "https://api.mock/pulls/1/comments" then
    JArr [JObj [("user", JObj [("login", JStr "mock_student_login")]);
                ("body", JStr "mock_reply")]]
  else if String.eqb u "https://api.mock/pulls/2" then
    JObj [("user", JObj [("login", JStr "mock_other_login")]);
          ("body", JNull);
          ("comments_url", JStr "https://api.mock/issues/2/comments");
          ("review_comments_url", JStr "https://api.mock/pulls/2/comments")]
  else
    JArr [].

Definition demo_conversation : list message :=
  [{| msg_role := user; content := JStr "mock_body" |};
   {| msg_role := assistant; content := JStr "mock_comment" |};
   {| msg_role := user; content := JStr "mock_reply" |}].

Definition demo_generator : ReportGenerator.t :=
  {| ReportGenerator.config :=
       {| grounding_prompt := JStr "test-grounding-prompt";
          pull_prompt := JStr "test-pull-prompt";
          overview_prompt := JStr "test-overview-prompt" |};
     ReportGenerator.github_provider :=
       {| GitHubProvider.config :=
            {| org_name := "mock-org-name";
               repo_name := "mock-repo-name";
               api_url := "https://api.mock";
               api_token := "mock-api-token";
               search_label := "mock-search-label" |} |};
     ReportGenerator.openai_provider := demo_openai |}.

(** A run with two pulls; the endpoint is overloaded once for the first
    of them, and the answer for the second arrives first. *)
Definition demo_env : environment :=
  {| search_script := [search_page_1; rate_limited_page];
     github := demo_github;
     fetch_times := fun i => i;
     pulls_endpoint := fun g =>
       if String.eqb g "https://api.mock/pulls/1"
       then [overloaded_answer; completion_answer "analysis 1"]
       else [completion_answer "analysis 2"];
     pulls_arrivals := [1; 0; 0]%nat;
     summary_endpoint := fun _ => [completion_answer "mock_summary"];
     summary_arrivals := [0]%nat |}.

Definition demo_analyses : list pull_analysis :=
  [{| url := "https://api.mock/pulls/1"; analysis := JStr "analysis 1" |};
   {| url := "https://api.mock/pulls/2"; analysis := JStr "analysis 2" |}].

(** A search that lists the same pull on two pages. *)
Definition repeated_page : http_response :=
  {| status := 200;
     body := JObj [("items",
                    JArr [issue_record "https://api.mock/issues/1"
                                       "https://api.mock/pulls/1"])] |}.

Definition repeating_env : environment :=
  {| search_script := [repeated_page; repeated_page; rate_limited_page];
     github := demo_github;
     fetch_times := fun i => i;
     pulls_endpoint := fun _ => [completion_answer "analysis 1"];
     pulls_arrivals := [0]%nat;
     summary_endpoint := fun _ => [completion_answer "mock_summary"];
     summary_arrivals := [0]%nat |}.

Definition repeated_conversations : list pull :=
  [{| pull_url := "https://api.mock/pulls/1"; messages := demo_conversation |};
   {| pull_url := "https://api.mock/pulls/1"; messages := demo_conversation |}].

(* ===================================================================== *)
(** ** More vocabulary *)
(* ===================================================================== *)

(** *** The clock of the event loop

    [time.sleep] does not suspend the task that calls it: it keeps the
    thread on which the event loop runs every task, so that no task is
    resumed while it lasts.  Everything else a resumed task does takes no
    time on the scale of the sleeps. *)

(** The seconds these actions spend in [time.sleep]. *)
Fixpoint seconds_slept (evs : list event) : Z :=
  match evs with
  | [] => 0
  | EvSleep seconds :: evs' => seconds + seconds_slept evs'
  | _ :: evs' => seconds_slept evs'
  end.

(** The seconds the run has slept so far. *)
Definition slept : prog Z :=
  fun w => (w, Returned (seconds_slept (trace w))).

(** An answer for the task [arrival_task], which arrives [arrival_time]
    seconds after the fan-out has started. *)
Record arrival := { arrival_task : nat; arrival_time : Z }.

(** The event loop with its clock, without the join.  The loop takes the
    answers in the order of [arrivals].  It resumes the task of an answer
    when the answer has arrived and the loop is free, which it is from
    [free] on; it is free again when the resumed task suspends, that is
    after the seconds this task has slept.  The result is the time at
    which each answer is handled, and the tasks at the end. *)
Fixpoint run_clocked (self : OpenAiProvider.t) (free : Z)
    (arrivals : list arrival) (tasks : list OpenAiProvider.task)
  : prog (list Z * list OpenAiProvider.task) :=
  match arrivals with
  | [] => ret ([], tasks)
  | a :: arrivals' =>
      let handled := Z.max free (arrival_time a) in
      (before <- slept ;;
       tasks' <- OpenAiProvider.resume self (arrival_task a) tasks ;;
       after <- slept ;;
       rest <- run_clocked self (handled + (after - before)) arrivals' tasks' ;;
       ret (handled :: fst rest, snd rest))%prog
  end.

(** The fan-out of [get_completions] with its clock: the tasks are
    started, the loop is free at once. *)
Definition get_completions_clocked (self : OpenAiProvider.t)
    (endpoint : string -> list client_response) (arrivals : list arrival)
    (message_groups : list (string * list message))
  : prog (list Z * list OpenAiProvider.task) :=
  (tasks <- prog_map (OpenAiProvider.start_task self endpoint)
              message_groups ;;
   run_clocked self 0 arrivals tasks)%prog.

(** The actions of [retries] retries in a fan-out: each is a sleep of one
    second followed at once by the post of the payload retried. *)
Definition retry_blocks (self : OpenAiProvider.t) (retries : list json)
  : list event :=
  concat (map (fun payload => [EvSleep 1; post_event self payload]) retries).

(** The elements of a list in the order of their first occurrence. *)
Fixpoint first_occurrences (l : list string) : list string :=
  match l with
  | [] => []
  | x :: l' => x :: filter (fun y => y <> x) (first_occurrences l')
  end.

(* ===================================================================== *)
(** ** [program/config.py] *)
(* ===================================================================== *)

(** The classes of [config.py] as their constructors fill them: every
    attribute holds the value the manifest has under its key, whatever
    that value is.  (The providers above take a configuration whose
    attributes are the strings they concatenate.)  [manifest_json] is the
    document as [json.load] decodes it. *)
Module config.

Record GitHubConfiguration := {
  org_name : json;
  repo_name : json;
  api_url : json;
  api_token : json;
  search_label : json
}.

Record OpenAiConfiguration := {
  completions_url : json;
  uaa_url : json;
  client_id : json;
  client_secret : json;
  data_template : json
}.

(** [GitHubConfiguration.__init__] *)
Definition GitHubConfiguration_init (config : json)
  : result GitHubConfiguration :=
  (org_name <-? py_getitem config "org_name";
   repo_name <-? py_getitem config "repo_name";
   api_url <-? py_getitem config "api_url";
   api_token <-? py_getitem config "api_token";
   search_label <-? py_getitem config "search_label";
   Ok {| org_name := org_name; repo_name := repo_name; api_url := api_url;
         api_token := api_token; search_label := search_label |})%result.

(** [OpenAiConfiguration.__init__] *)
Definition OpenAiConfiguration_init (config : json)
  : result OpenAiConfiguration :=
  (completions_url <-? py_getitem config "completions_url";
   uaa_url <-? py_getitem config "uaa_url";
   client_id <-? py_getitem config "client_id";
   client_secret <-? py_getitem config "client_secret";
   data_template <-? py_getitem config "data_template";
   Ok {| completions_url := completions_url; uaa_url := uaa_url;
         client_id := client_id; client_secret := client_secret;
         data_template := data_template |})%result.

(** [ReportConfiguration.__init__] *)
Definition ReportConfiguration_init (config : json)
  : result ReportConfiguration :=
  (grounding_prompt <-? py_getitem config "grounding_prompt";
   pull_prompt <-? py_getitem config "pull_prompt";
   overview_prompt <-? py_getitem config "overview_prompt";
   Ok {| grounding_prompt := grounding_prompt; pull_prompt := pull_prompt;
         overview_prompt := overview_prompt |})%result.

(** The attributes of a [Manifest]; [None] is Python's [None]. *)
Record Manifest := {
  github : option GitHubConfiguration;
  openai : option OpenAiConfiguration;
  report : option ReportConfiguration
}.

(** [Manifest.__init__] *)
Definition Manifest_init : Manifest :=
  {| github := None; openai := None; report := None |}.

(** [Manifest.load] after [json.load]: the three assignments in turn.
    An assignment whose right-hand side raises is not done, and nothing
    after it is; the manifest object is returned as the call leaves it. *)
Definition load (self : Manifest) (manifest_json : json)
  : Manifest * result unit :=
  match (section <-? py_getitem manifest_json "github";
         GitHubConfiguration_init section)%result with
  | Err e => (self, Err e)
  | Ok g =>
      let self := {| github := Some g; openai := openai self;
                     report := report self |} in
      match (section <-? py_getitem manifest_json "openai";
             OpenAiConfiguration_init section)%result with
      | Err e => (self, Err e)
      | Ok o =>
          let self := {| github := github self; openai := Some o;
                         report := report self |} in
          match (section <-? py_getitem manifest_json "report";
                 ReportConfiguration_init section)%result with
          | Err e => (self, Err e)
          | Ok r =>
              ({| github := github self; openai := openai self;
                  report := Some r |}, Ok tt)
          end
      end
  end.

End config.

(** The value a manifest has under [key] of its section [name]:
    [manifest_json[name][key]]. *)
Definition manifest_value (manifest_json : json) (name key : string)
  : result json :=
  (section <-? py_getitem manifest_json name; py_getitem section key)%result.

(** Case analysis on the keys a constructor reads in [section]. *)
Ltac read_keys section :=
  repeat match goal with
         | |- context [py_getitem section ?k] =>
             destruct (py_getitem section k); cbn [result_bind]; [|done]
         end.

(** The keys the three constructors read, in the order they read them. *)
Definition github_keys : list string :=
  ["org_name"; "repo_name"; "api_url"; "api_token"; "search_label"].

Definition openai_keys : list string :=
  ["completions_url"; "uaa_url"; "client_id"; "client_secret";
   "data_template"].

Definition report_keys : list string :=
  ["grounding_prompt"; "pull_prompt"; "overview_prompt"].

Definition github_values (g : config.GitHubConfiguration) : list json :=
  [config.org_name g; config.repo_name g; config.api_url g;
   config.api_token g; config.search_label g].

Definition openai_values (o : config.OpenAiConfiguration) : list json :=
  [config.completions_url o; config.uaa_url o; config.client_id o;
   config.client_secret o; config.data_template o].

Definition report_values (r : ReportConfiguration) : list json :=
  [grounding_prompt r; pull_prompt r; overview_prompt r].

(** A manifest like that of the tests, with its sections in another
    order, one more key and a prompt that is not a string. *)
Definition demo_manifest : json :=
  JObj [("report",
         JObj [("grounding_prompt", JStr "test-grounding-prompt");
               ("pull_prompt", JStr "test-pull-prompt");
               ("overview_prompt", JNull)]);
        ("github",
         JObj [("org_name", JStr "mock-org-name");
               ("repo_name", JStr "mock-repo-name");
               ("api_url", JStr "https://api.mock");
               ("api_token", JStr "mock-api-token");
               ("search_label", JStr "mock-search-label");
               ("comment", JStr "not read")]);
        ("openai",
         JObj [("completions_url", JStr "https://llm.mock/completions");
               ("uaa_url", JStr "https://uaa.mock");
               ("client_id", JStr "mock-client-id");
               ("client_secret", JStr "mock-client-secret");
               ("data_template", JObj demo_template)])].

(** A manifest whose [openai] section lacks [client_secret]. *)
Definition partial_manifest : json :=
  JObj [("github",
         JObj [("org_name", JStr "mock-org-name");
               ("repo_name", JStr "mock-repo-name");
               ("api_url", JStr "https://api.mock");
               ("api_token", JStr "mock-api-token");
               ("search_label", JStr "mock-search-label")]);
        ("openai",
         JObj [("completions_url", JStr "https://llm.mock/completions");
               ("uaa_url", JStr "https://uaa.mock");
               ("client_id", JStr "mock-client-id");
               ("data_template", JObj demo_template)]);
        ("report",
         JObj [("grounding_prompt", JStr "test-grounding-prompt");
               ("pull_prompt", JStr "test-pull-prompt");
               ("overview_prompt", JStr "test-overview-prompt")])].

(** A completion endpoint that answers the second pull with a 200 whose
    body has no [choices]. *)
Definition unreadable_answer : client_response :=
  {| response_status := 200;
     response_body := Ok (JObj [("error", JStr "content filtered")]) |}.

Definition unreadable_env : environment :=
  {| search_script := [search_page_1; rate_limited_page];
     github := demo_github;
     fetch_times := fun i => i;
     pulls_endpoint := fun g =>
       if String.eqb g "https://api.mock/pulls/1"
       then [completion_answer "analysis 1"]
       else [unreadable_answer];
     pulls_arrivals := [0; 1]%nat;
     summary_endpoint := fun _ => [completion_answer "mock_summary"];
     summary_arrivals := [0]%nat |}.

(* ===================================================================== *)
(** ** Basic facts *)
(* ===================================================================== *)

Lemma emitted_nil w : emitted w [] = w.
Proof. destruct w; unfold emitted; simpl. by rewrite app_nil_r. Qed.

Lemma emitted_app w evs1 evs2 :
  emitted (emitted w evs1) evs2 = emitted w (evs1 ++ evs2).
Proof. unfold emitted; simpl. by rewrite app_assoc. Qed.

Lemma emit_run e w : emit e w = (emitted w [e], Returned tt).
Proof. reflexivity. Qed.

Lemma post_completion_run self data w :
  OpenAiProvider.post_completion self data w
  = (emitted w [post_event self (default JNull (heap w !! data))], Returned tt).
Proof. reflexivity. Qed.

Lemma json_roundtrip_id : forall x, json_roundtrip x = x.
Proof.
  fix IH 1. intros [ | b | n | s | xs | fs]; simpl; try reflexivity.
  - f_equal. induction xs as [|x xs IHxs]; simpl; [done|].
    by rewrite IH, IHxs.
  - f_equal. induction fs as [|[k v] fs IHfs]; simpl; [done|].
    by rewrite IH, IHfs.
Qed.

Lemma dict_get_set_eq {V} (d : list (string * V)) k v :
  dict_get (dict_set d k v) k = Some v.
Proof.
  induction d as [|[k' v'] d IH]; simpl.
  - by rewrite String.eqb_refl.
  - destruct (String.eqb k' k) eqn:E; simpl.
    + by rewrite String.eqb_refl.
    + by rewrite E.
Qed.

Lemma dict_get_set_ne {V} (d : list (string * V)) k k' v :
  k <> k' -> dict_get (dict_set d k v) k' = dict_get d k'.
Proof.
  intros Hne. induction d as [|[k0 v0] d IH]; simpl.
  - destruct (String.eqb_spec k k'); [done|done].
  - destruct (String.eqb_spec k0 k) as [->|Hk]; simpl.
    + destruct (String.eqb_spec k k'); [done|done].
    + destruct (String.eqb_spec k0 k'); [done|apply IH].
Qed.

Lemma bind_returned {A B} (m : prog A) (k : A -> prog B) w w1 a :
  m w = (w1, Returned a) -> bind m k w = k a w1.
Proof. unfold bind. by intros ->. Qed.

Lemma bind_raised {A B} (m : prog A) (k : A -> prog B) w w1 e :
  m w = (w1, Raised e) -> bind m k w = (w1, Raised e).
Proof. unfold bind. by intros ->. Qed.

Lemma bind_pending {A B} (m : prog A) (k : A -> prog B) w w1 :
  m w = (w1, Pending) -> bind m k w = (w1, Pending).
Proof. unfold bind. by intros ->. Qed.

(** Every way a sequenced computation can return. *)
Lemma bind_returned_inv {A B} (m : prog A) (k : A -> prog B) w w2 b :
  bind m k w = (w2, Returned b) ->
  exists w1 a, m w = (w1, Returned a) /\ k a w1 = (w2, Returned b).
Proof.
  unfold bind. destruct (m w) as [w1 [a|e|]]; intros H; [eauto|done|done].
Qed.

(** What one pass of the loop does with an answer. *)
Lemma handle_response_run g r w :
  OpenAiProvider.handle_response g r w =
  match read_answer r with
  | Success response_json =>
      (w, Returned (OpenAiProvider.Completed
                      {| group_name := g; completion := response_json |}))
  | Overloaded => (emitted w [EvSleep 1], Returned OpenAiProvider.Retry)
  | Failure e => (w, Raised e)
  end.
Proof.
  unfold OpenAiProvider.handle_response, read_answer.
  destruct (response_body r) as [b|e]; [|done].
  cbn [lift]. erewrite bind_returned by reflexivity.
  destruct (response_status r =? 200); [done|].
  by destruct (response_status r =? 500).
Qed.

(** How an answer is read, by its body and its status. *)
Lemma read_answer_failure r e :
  response_body r = Err e -> read_answer r = Failure e.
Proof. unfold read_answer. by intros ->. Qed.

Lemma read_answer_success r b :
  response_body r = Ok b -> response_status r = 200 ->
  read_answer r = Success b.
Proof. unfold read_answer. by intros -> ->. Qed.

Lemma read_answer_overloaded r b :
  response_body r = Ok b -> response_status r = 500 ->
  read_answer r = Overloaded.
Proof. unfold read_answer. by intros -> ->. Qed.

Lemma read_answer_unexpected r b :
  response_body r = Ok b ->
  response_status r <> 200 -> response_status r <> 500 ->
  read_answer r
  = Failure (RuntimeError
               ("unexpected status code: " +:+ pretty (response_status r))).
Proof.
  unfold read_answer. intros -> H200 H500.
  assert ((response_status r =? 200) = false) as -> by lia.
  by assert ((response_status r =? 500) = false) as -> by lia.
Qed.

(** Every way an answer can be a failure. *)
Lemma read_answer_failure_inv r e :
  read_answer r = Failure e ->
  response_body r = Err e
  \/ exists b,
       response_body r = Ok b
       /\ response_status r <> 200 /\ response_status r <> 500
       /\ e = RuntimeError
                ("unexpected status code: " +:+ pretty (response_status r)).
Proof.
  unfold read_answer. destruct (response_body r) as [b|e'].
  - destruct (response_status r =? 200) eqn:E200; [done|].
    destruct (response_status r =? 500) eqn:E500; [done|].
    intros [= <-]. right. exists b. split; [done|].
    split; [lia|]. split; [lia|done].
  - intros [= <-]. by left.
Qed.

Lemma read_answer_overloaded_inv r :
  read_answer r = Overloaded ->
  response_status r = 500 /\ exists b, response_body r = Ok b.
Proof.
  unfold read_answer. destruct (response_body r) as [b|e']; [|done].
  destruct (response_status r =? 200) eqn:E200; [done|].
  destruct (response_status r =? 500) eqn:E500; [|done].
  intros _. split; [lia|by exists b].
Qed.

Lemma read_answer_success_inv r b :
  read_answer r = Success b ->
  response_status r = 200 /\ response_body r = Ok b.
Proof.
  unfold read_answer. destruct (response_body r) as [b'|e']; [|done].
  destruct (response_status r =? 200) eqn:E200.
  - intros [= <-]. split; [lia|done].
  - by destruct (response_status r =? 500).
Qed.

(** The whole run of the retry loop: the attempts it makes and what it
    comes to. *)
Lemma completion_loop_run self g data script w :
  OpenAiProvider.completion_loop self g data script w
  = (emitted w (retry_trace (post_event self (default JNull (heap w !! data)))
                            (leading_overloads script)),
     verdict g (drop (leading_overloads script) script)).
Proof.
  revert w. induction script as [|r script IH]; intros w; [done|].
  cbn [OpenAiProvider.completion_loop].
  erewrite bind_returned by apply post_completion_run.
  unfold bind at 1. rewrite handle_response_run.
  cbn [leading_overloads verdict].
  destruct (read_answer r) as [b| |e] eqn:Hr.
  - cbn. by rewrite Hr.
  - rewrite IH, !emitted_app. reflexivity.
  - cbn. by rewrite Hr.
Qed.

Lemma leading_overloads_le script :
  (leading_overloads script <= length script)%nat.
Proof.
  induction script as [|r script IH]; simpl; [lia|].
  destruct (read_answer r); lia.
Qed.

(** The first answer after the leading overloaded ones is not overloaded. *)
Lemma leading_overloads_stop script r rest :
  drop (leading_overloads script) script = r :: rest ->
  read_answer r <> Overloaded /\ r ∈ script.
Proof.
  induction script as [|r0 script IH]; simpl; [done|].
  destruct (read_answer r0) eqn:E; simpl.
  - intros [= -> ->]. split; [by rewrite E|by left].
  - intros H. destruct (IH H) as [? ?]. split; [done|by right].
  - intros [= -> ->]. split; [by rewrite E|by left].
Qed.

Lemma leading_overloads_busy (busy script : list client_response) :
  Forall (fun r => read_answer r = Overloaded) busy ->
  leading_overloads (busy ++ script)
  = (length busy + leading_overloads script)%nat.
Proof.
  induction 1 as [|r busy Hr _ IH]; simpl; [done|]. by rewrite Hr, IH.
Qed.

(** The lines before the loop, when the template is a dictionary: one new
    object, the copy with its [messages] replaced. *)
Lemma build_request_data_run self ms w fields :
  heap w !! data_template (OpenAiProvider.config self) = Some (JObj fields) ->
  OpenAiProvider.build_request_data self ms w
  = (allocated w (request_payload fields ms), Returned (length (heap w))).
Proof.
  intros Ht. unfold OpenAiProvider.build_request_data.
  unfold bind at 1, heap_load at 1. rewrite Ht. cbn [default].
  unfold bind at 1, heap_alloc at 1.
  unfold bind at 1, heap_setitem at 1. cbn [heap trace].
  rewrite json_roundtrip_id.
  rewrite (lookup_app_r (heap w) _ (length (heap w))) by lia.
  rewrite Nat.sub_diag. cbn [lookup list_lookup default py_setitem].
  unfold ret, allocated, request_payload. do 2 f_equal.
  rewrite insert_app_r_alt by lia. by rewrite Nat.sub_diag.
Qed.

(** A template that is not a dictionary cannot take the messages: the
    copy is made, the assignment raises. *)
Lemma build_request_data_raises self ms w template :
  heap w !! data_template (OpenAiProvider.config self) = Some template ->
  (forall fields, template <> JObj fields) ->
  OpenAiProvider.build_request_data self ms w
  = (allocated w template, Raised TypeError).
Proof.
  intros Ht Hnd. unfold OpenAiProvider.build_request_data.
  unfold bind at 1, heap_load at 1. rewrite Ht. cbn [default].
  unfold bind at 1, heap_alloc at 1.
  unfold bind at 1, heap_setitem at 1. cbn [heap trace].
  rewrite json_roundtrip_id.
  rewrite (lookup_app_r (heap w) _ (length (heap w))) by lia.
  rewrite Nat.sub_diag. cbn [lookup list_lookup default].
  destruct template; try reflexivity. by destruct (Hnd fields).
Qed.

Lemma get_completion_run self g ms script w fields :
  heap w !! data_template (OpenAiProvider.config self) = Some (JObj fields) ->
  OpenAiProvider.get_completion self g ms script w
  = (emitted (allocated w (request_payload fields ms))
       (retry_trace (post_event self (request_payload fields ms))
                    (leading_overloads script)),
     verdict g (drop (leading_overloads script) script)).
Proof.
  intros Ht. unfold OpenAiProvider.get_completion.
  erewrite bind_returned by (by apply build_request_data_run).
  rewrite completion_loop_run. cbn [allocated heap].
  rewrite (lookup_app_r (heap w) _ (length (heap w))) by lia.
  by rewrite Nat.sub_diag.
Qed.

Lemma get_completion_raises self g ms script w template :
  heap w !! data_template (OpenAiProvider.config self) = Some template ->
  (forall fields, template <> JObj fields) ->
  OpenAiProvider.get_completion self g ms script w
  = (allocated w template, Raised TypeError).
Proof.
  intros Ht Hnd. unfold OpenAiProvider.get_completion.
  by erewrite bind_raised by (by apply build_request_data_raises).
Qed.

(* ===================================================================== *)
(** ** The completion client *)
(* ===================================================================== *)

(** Claim C3, in the form the code satisfies.  A call whose template is a
    dictionary posts its request and decides on every answer in two
    steps.  First the answer is decoded: when that raises, the call raises
    the exception of the decoder, whatever the status.  Then the status is
    read: on 200 the call returns the result named after the group with
    the decoded body; on 500 it sleeps one second and goes round the loop
    again, on the same request object, with the answers that follow; on
    any other status it raises [RuntimeError "unexpected status code:
    <status>"].  The call raises nothing else: whenever it raises, some
    answer did not decode, or decoded with a status other than 200 and
    500.  With a template that is not a dictionary the call raises
    [TypeError] before any request. *)
Theorem get_completion_status_policy
    (self : OpenAiProvider.t) (g : string) (ms : list message)
    (response : client_response) (script : list client_response) (w : world)
    (template : json) :
  heap w !! data_template (OpenAiProvider.config self) = Some template ->
  let run := OpenAiProvider.get_completion self g ms (response :: script) w in
  match template with
  | JObj fields =>
      let payload := request_payload fields ms in
      let posted := emitted (allocated w payload) [post_event self payload] in
      (forall e, response_body response = Err e -> run = (posted, Raised e))
      /\ (forall b,
            response_body response = Ok b -> response_status response = 200 ->
            run = (posted, Returned {| group_name := g; completion := b |}))
      /\ (forall b,
            response_body response = Ok b -> response_status response = 500 ->
            run = OpenAiProvider.completion_loop self g (length (heap w))
                    script (emitted posted [EvSleep 1]))
      /\ (forall b,
            response_body response = Ok b ->
            response_status response <> 200 ->
            response_status response <> 500 ->
            run = (posted,
                   Raised (RuntimeError
                             ("unexpected status code: "
                              +:+ pretty (response_status response)))))
      /\ (forall e,
            snd run = Raised e ->
            exists r,
              r ∈ response :: script
              /\ (response_body r = Err e
                  \/ exists b,
                       response_body r = Ok b
                       /\ response_status r <> 200
                       /\ response_status r <> 500
                       /\ e = RuntimeError
                                ("unexpected status code: "
                                 +:+ pretty (response_status r))))
  | _ => run = (allocated w template, Raised TypeError)
  end.
Proof.
  intros Ht run. subst run.
  destruct template as [|b0|n|s0|xs|fields];
    try (by apply get_completion_raises).
  cbn zeta.
  assert (OpenAiProvider.get_completion self g ms (response :: script) w
          = OpenAiProvider.completion_loop self g (length (heap w))
              (response :: script) (allocated w (request_payload fields ms)))
    as Hcall.
  { unfold OpenAiProvider.get_completion.
    by erewrite bind_returned by (by apply build_request_data_run). }
  assert (forall reading,
             read_answer response = reading ->
             OpenAiProvider.get_completion self g ms (response :: script) w
             = match reading with
               | Success b =>
                   (emitted (allocated w (request_payload fields ms))
                      [post_event self (request_payload fields ms)],
                    Returned {| group_name := g; completion := b |})
               | Overloaded =>
                   OpenAiProvider.completion_loop self g (length (heap w))
                     script
                     (emitted
                        (emitted (allocated w (request_payload fields ms))
                           [post_event self (request_payload fields ms)])
                        [EvSleep 1])
               | Failure e =>
                   (emitted (allocated w (request_payload fields ms))
                      [post_event self (request_payload fields ms)],
                    Raised e)
               end) as Hstep.
  { intros reading Hr. rewrite Hcall.
    cbn [OpenAiProvider.completion_loop].
    erewrite bind_returned by apply post_completion_run.
    unfold bind at 1. rewrite handle_response_run, Hr.
    cbn [allocated heap].
    rewrite (lookup_app_r (heap w) _ (length (heap w))) by lia.
    rewrite Nat.sub_diag. by destruct reading. }
  split; [|split; [|split; [|split]]].
  - intros e He. exact (Hstep _ (read_answer_failure _ _ He)).
  - intros b Hb H200. exact (Hstep _ (read_answer_success _ _ Hb H200)).
  - intros b Hb H500. exact (Hstep _ (read_answer_overloaded _ _ Hb H500)).
  - intros b Hb H200 H500.
    exact (Hstep _ (read_answer_unexpected _ _ Hb H200 H500)).
  - intros e. rewrite (get_completion_run _ _ _ _ _ _ Ht). cbn [snd].
    destruct (drop _ (response :: script)) as [|r rest] eqn:Hd; [done|].
    apply leading_overloads_stop in Hd as [Hno Hin].
    cbn [verdict]. destruct (read_answer r) as [b| |e'] eqn:Hr; try done.
    intros [= <-]. exists r. split; [done|].
    by apply read_answer_failure_inv.
Qed.

Lemma get_completion_status_policy_witness :
  heap demo_world !! 0%nat = Some (JObj demo_template)
  /\ OpenAiProvider.get_completion demo_openai "mock_group_name" []
       [{| response_status := 404; response_body := Ok JNull |}] demo_world
     = (emitted (allocated demo_world (request_payload demo_template []))
          [post_event demo_openai (request_payload demo_template [])],
        Raised (RuntimeError "unexpected status code: 404")).
Proof.
  split; [reflexivity|].
  apply (proj1 (proj2 (proj2 (proj2
           (get_completion_status_policy demo_openai "mock_group_name" []
              {| response_status := 404; response_body := Ok JNull |} []
              demo_world (JObj demo_template) eq_refl)))) JNull);
    [reflexivity|discriminate|discriminate].
Defined.

(** Claim C3 as written fails where it lets the status alone decide and
    lets only an unexpected status raise.  An answer with status 200
    whose body is not JSON gives no result: the call raises the exception
    of the decoder.  An answer with status 500 whose body is not JSON is
    not retried: the call raises at once, having posted once and slept
    never, and the success that would have followed is never asked for.
    And with a template that is not a dictionary the call raises
    [TypeError], posting nothing, though the endpoint would answer 200. *)
Lemma get_completion_raises_without_unexpected_status :
  snd (OpenAiProvider.get_completion demo_openai "mock_group_name" []
         [{| response_status := 200; response_body := Err JSONDecodeError |}]
         demo_world)
  = Raised JSONDecodeError
  /\ response_status gateway_error = 500
  /\ OpenAiProvider.get_completion demo_openai "mock_group_name" []
       [gateway_error; completion_answer "mock_completion"] demo_world
     = (emitted (allocated demo_world (request_payload demo_template []))
          [post_event demo_openai (request_payload demo_template [])],
        Raised ContentTypeError)
  /\ OpenAiProvider.get_completion demo_openai "mock_group_name" []
       [completion_answer "mock_completion"]
       {| heap := [JArr []]; trace := [] |}
     = ({| heap := [JArr []; JArr []]; trace := [] |}, Raised TypeError).
Proof. repeat split; reflexivity. Qed.

(** Claim C4, in the form the code satisfies.  When the endpoint answers
    any number of times with status 500 and a body that decodes as JSON,
    and then with status 200 and a body that decodes as JSON, a call whose
    template is a dictionary returns one result, named after the group,
    whose completion is the decoded body of that successful answer: the
    result of the call that succeeds at once.  It has posted the same
    payload once per answer, has slept one second per overloaded answer,
    and does not depend on the answers past the successful one. *)
Theorem get_completion_retry_then_success
    (self : OpenAiProvider.t) (g : string) (ms : list message)
    (busy : list client_response) (success : client_response) (ok : json)
    (rest : list client_response) (w : world)
    (fields : list (string * json)) :
  heap w !! data_template (OpenAiProvider.config self) = Some (JObj fields) ->
  Forall (fun r => response_status r = 500
                   /\ exists b, response_body r = Ok b) busy ->
  response_status success = 200 ->
  response_body success = Ok ok ->
  let run :=
    OpenAiProvider.get_completion self g ms (busy ++ success :: rest) w in
  let payload := request_payload fields ms in
  snd run = Returned {| group_name := g; completion := ok |}
  /\ snd run
     = snd (OpenAiProvider.get_completion self g ms (success :: rest) w)
  /\ fst run
     = emitted (allocated w payload)
         (retry_trace (post_event self payload) (length busy))
  /\ (forall rest',
        snd (OpenAiProvider.get_completion self g ms
               (busy ++ success :: rest') w)
        = snd run).
Proof.
  intros Ht Hbusy H200 Hok run payload. subst run payload.
  assert (Forall (fun r => read_answer r = Overloaded) busy) as Hover.
  { eapply Forall_impl; [exact Hbusy|].
    intros r [H500 [b Hb]]. by eapply read_answer_overloaded. }
  pose proof (read_answer_success _ _ Hok H200) as Hsuccess.
  assert (forall rest',
             leading_overloads (busy ++ success :: rest') = length busy)
    as Hk.
  { intros rest'. rewrite (leading_overloads_busy _ _ Hover).
    cbn [leading_overloads]. rewrite Hsuccess. lia. }
  assert (forall rest',
             OpenAiProvider.get_completion self g ms
               (busy ++ success :: rest') w
             = (emitted (allocated w (request_payload fields ms))
                  (retry_trace (post_event self (request_payload fields ms))
                               (length busy)),
                Returned {| group_name := g; completion := ok |})) as Hrun.
  { intros rest'. rewrite (get_completion_run _ _ _ _ _ _ Ht), Hk.
    rewrite drop_app_length. cbn [verdict]. by rewrite Hsuccess. }
  split; [by rewrite Hrun|]. split; [|split].
  - rewrite Hrun, (get_completion_run _ _ _ _ _ _ Ht). cbn [snd].
    cbn [leading_overloads]. rewrite Hsuccess. cbn [drop verdict].
    by rewrite Hsuccess.
  - by rewrite Hrun.
  - intros rest'. by rewrite !Hrun.
Qed.

Lemma get_completion_retry_then_success_witness :
  heap demo_world !! 0%nat = Some (JObj demo_template)
  /\ snd (OpenAiProvider.get_completion demo_openai "mock_group_name" []
            [overloaded_answer; completion_answer "mock_completion"]
            demo_world)
     = Returned {| group_name := "mock_group_name";
                   completion := completion_body "mock_completion" |}.
Proof.
  split; [reflexivity|].
  refine (proj1
    (get_completion_retry_then_success demo_openai "mock_group_name" []
       [overloaded_answer] (completion_answer "mock_completion")
       (completion_body "mock_completion") [] demo_world demo_template
       eq_refl _ eq_refl eq_refl)).
  constructor; [|constructor]. split; [reflexivity|]. by eexists.
Defined.

(** Claim C4 as written fails on an overloaded answer whose body is not
    JSON, the error page of a gateway: the call does not retry, it raises
    the exception of the decoder, having posted once and slept never, and
    the success that follows is never asked for. *)
Lemma get_completion_no_retry_on_undecodable_overload :
  response_status gateway_error = 500
  /\ response_status (completion_answer "mock_completion") = 200
  /\ OpenAiProvider.get_completion demo_openai "mock_group_name" []
       [gateway_error; completion_answer "mock_completion"] demo_world
     = (emitted (allocated demo_world (request_payload demo_template []))
          [post_event demo_openai (request_payload demo_template [])],
        Raised ContentTypeError)
  /\ ~ (exists r,
          snd (OpenAiProvider.get_completion demo_openai "mock_group_name" []
                 [gateway_error; completion_answer "mock_completion"]
                 demo_world)
          = Returned r).
Proof.
  split; [reflexivity|]. split; [reflexivity|]. split; [reflexivity|].
  intros [r Hr]. vm_compute in Hr. discriminate Hr.
Qed.

(* ===================================================================== *)
(** ** The request body and the stored template *)
(* ===================================================================== *)

(** Claim C9.  Let the configuration hold a template in the store.  A call
    leaves the template as it was, and every other object the store had.
    When the template is a dictionary, every post of the call carries that
    dictionary with [messages] replaced by the submitted messages and its
    other keys as they were; the store gains one object, the copy the
    request was made on, and the call does nothing else than post and
    sleep.  When the template is not a dictionary, the assignment of the
    messages raises [TypeError] and nothing is posted. *)
Theorem get_completion_payload_and_frame
    (self : OpenAiProvider.t) (g : string) (ms : list message)
    (script : list client_response) (w : world) (template : json) :
  heap w !! data_template (OpenAiProvider.config self) = Some template ->
  let run := OpenAiProvider.get_completion self g ms script w in
  heap (fst run) !! data_template (OpenAiProvider.config self) = Some template
  /\ (forall l v, heap w !! l = Some v -> heap (fst run) !! l = Some v)
  /\ match template with
     | JObj fields =>
         let payload :=
           JObj (dict_set fields "messages" (JArr (map message_json ms))) in
         trace (fst run)
         = trace w
           ++ retry_trace
                (EvPost (completions_url (OpenAiProvider.config self))
                        ("Bearer " +:+ OpenAiProvider.access_token self)
                        payload)
                (leading_overloads script)
         /\ heap (fst run) = heap w ++ [payload]
         /\ dict_get (dict_set fields "messages"
                        (JArr (map message_json ms))) "messages"
            = Some (JArr (map message_json ms))
         /\ (forall k, k <> "messages" ->
               dict_get (dict_set fields "messages"
                           (JArr (map message_json ms))) k
               = dict_get fields k)
     | _ => trace (fst run) = trace w /\ snd run = Raised TypeError
     end.
Proof.
  intros Ht run. subst run.
  destruct template as [|b|n|s|xs|fields];
    try (rewrite (get_completion_raises _ g _ script _ _ Ht) by done;
         cbn [fst snd allocated heap trace];
         split; [by apply lookup_app_l_Some|];
         split; [by intros l v Hl; apply lookup_app_l_Some|done]).
  rewrite (get_completion_run _ _ _ _ _ _ Ht).
  cbn [fst snd emitted allocated heap trace].
  split; [by apply lookup_app_l_Some|].
  split; [by intros l v Hl; apply lookup_app_l_Some|].
  cbn zeta. split; [done|]. split; [done|]. split.
  - apply dict_get_set_eq.
  - intros k Hk. by apply dict_get_set_ne.
Qed.

Lemma get_completion_payload_and_frame_witness :
  heap demo_world !! 0%nat = Some (JObj demo_template)
  /\ heap (fst (OpenAiProvider.get_completion demo_openai "mock_group_name"
                  [{| msg_role := user; content := JStr "message1" |}]
                  [{| response_status := 500; response_body := Ok JNull |};
                   {| response_status := 200;
                      response_body := Ok (JStr "done") |}] demo_world))
     !! 0%nat
     = Some (JObj demo_template).
Proof.
  split; [reflexivity|].
  exact (proj1
    (get_completion_payload_and_frame demo_openai "mock_group_name"
       [{| msg_role := user; content := JStr "message1" |}]
       [{| response_status := 500; response_body := Ok JNull |};
        {| response_status := 200; response_body := Ok (JStr "done") |}]
       demo_world (JObj demo_template) eq_refl)).
Defined.

(* ===================================================================== *)
(** ** The fan-out *)
(* ===================================================================== *)

(** One resumption, case by case. *)
Lemma resume_run self i tasks w :
  OpenAiProvider.resume self i tasks w =
  match tasks !! i with
  | Some (OpenAiProvider.Awaiting g d (r :: script')) =>
      match read_answer r with
      | Success response_json =>
          (w, Returned (<[i := OpenAiProvider.Done
                                {| group_name := g;
                                   completion := response_json |}]> tasks))
      | Overloaded =>
          (emitted w
             [EvSleep 1; post_event self (default JNull (heap w !! d))],
           Returned (<[i := OpenAiProvider.Awaiting g d script']> tasks))
      | Failure e => (w, Raised e)
      end
  | _ => (w, Returned tasks)
  end.
Proof.
  unfold OpenAiProvider.resume.
  destruct (tasks !! i) as [[g d [|r script']|r]|]; try reflexivity.
  unfold bind at 1. rewrite handle_response_run.
  destruct (read_answer r); [done| |done].
  erewrite bind_returned by apply post_completion_run.
  unfold ret. by rewrite emitted_app.
Qed.

(** A resumption changes neither the group of a task nor what the task
    comes to. *)
Lemma resume_verdicts self i tasks w w' tasks' :
  OpenAiProvider.resume self i tasks w = (w', Returned tasks') ->
  map task_verdict tasks' = map task_verdict tasks
  /\ map task_name tasks' = map task_name tasks.
Proof.
  rewrite resume_run.
  destruct (tasks !! i) as [[g d [|r script']|r]|] eqn:Hi;
    try (by intros [= <- <-]).
  destruct (read_answer r) as [b| |e] eqn:Hr.
  - intros [= <- <-]. rewrite !list_fmap_insert. split.
    + apply list_insert_id. rewrite list_lookup_fmap, Hi.
      cbn. rewrite Hr. cbn. by rewrite Hr.
    + apply list_insert_id. by rewrite list_lookup_fmap, Hi.
  - intros [= <- <-]. rewrite !list_fmap_insert. split.
    + apply list_insert_id. rewrite list_lookup_fmap, Hi.
      cbn. by rewrite Hr.
    + apply list_insert_id. by rewrite list_lookup_fmap, Hi.
  - done.
Qed.

Lemma results_of_done tasks rs :
  OpenAiProvider.results_of tasks = Some rs ->
  tasks = map OpenAiProvider.Done rs.
Proof.
  revert rs. induction tasks as [|[g d s|r] tasks IH]; intros rs; simpl.
  - by intros [= <-].
  - done.
  - destruct (OpenAiProvider.results_of tasks) as [rs'|]; [|done].
    intros [= <-]. simpl. by rewrite (IH rs').
Qed.

Lemma results_of_map_done rs :
  OpenAiProvider.results_of (map OpenAiProvider.Done rs) = Some rs.
Proof. induction rs as [|r rs IH]; simpl; [done|]. by rewrite IH. Qed.

(** Whatever the arrivals, the results a [gather] returns are what its
    tasks come to, in the order of the tasks. *)
Lemma gather_verdicts self arrivals tasks w w' rs :
  OpenAiProvider.gather self arrivals tasks w = (w', Returned rs) ->
  map task_verdict tasks = map Returned rs
  /\ map task_name tasks = map group_name rs.
Proof.
  revert tasks w. induction arrivals as [|i arrivals IH]; intros tasks w.
  - simpl. destruct (OpenAiProvider.results_of tasks) as [rs'|] eqn:Hr.
    + intros [= <- <-]. apply results_of_done in Hr as ->.
      by rewrite !map_map.
    + done.
  - simpl. destruct (OpenAiProvider.results_of tasks) as [rs'|] eqn:Hr.
    + intros [= <- <-]. apply results_of_done in Hr as ->.
      by rewrite !map_map.
    + intros H. apply bind_returned_inv in H as (w1 & tasks1 & H1 & H2).
      apply resume_verdicts in H1 as [<- <-]. by apply (IH _ w1).
Qed.

(** A list processed item by item returns the items' results one for
    one. *)
Lemma prog_map_returned {A B} (f : A -> prog B) l w w' ys :
  prog_map f l w = (w', Returned ys) ->
  Forall2 (fun x y => exists wa wb, f x wa = (wb, Returned y)) l ys.
Proof.
  revert w ys. induction l as [|x l IH]; intros w ys; simpl.
  - intros [= <- <-]. constructor.
  - intros H. apply bind_returned_inv in H as (w1 & y & Hy & H).
    apply bind_returned_inv in H as (w2 & ys' & Hys & H).
    injection H as <- <-. constructor; eauto.
Qed.

Lemma start_task_returned self endpoint item wa wb t :
  OpenAiProvider.start_task self endpoint item wa = (wb, Returned t) ->
  exists data,
    t = OpenAiProvider.Awaiting (fst item) data (endpoint (fst item)).
Proof.
  unfold OpenAiProvider.start_task. intros H.
  apply bind_returned_inv in H as (w1 & data & _ & H).
  apply bind_returned_inv in H as (w2 & [] & _ & H).
  injection H as <- <-. eauto.
Qed.

Lemma start_tasks_verdicts self endpoint groups w w' tasks :
  prog_map (OpenAiProvider.start_task self endpoint) groups w
  = (w', Returned tasks) ->
  map task_verdict tasks = map (fun item => expected endpoint (fst item)) groups
  /\ map task_name tasks = dict_keys groups.
Proof.
  intros H. apply prog_map_returned in H.
  unfold dict_keys.
  induction H as [|item t groups tasks (wa & wb & Ht) _ [IH1 IH2]]; [done|].
  apply start_task_returned in Ht as [data ->].
  simpl. by rewrite IH1, IH2.
Qed.

(** The results of [get_completions] are decided by the answers of the
    endpoint alone. *)
Lemma get_completions_results self endpoint arrivals groups w w' rs :
  OpenAiProvider.get_completions self endpoint arrivals groups w
  = (w', Returned rs) ->
  map Returned rs = map (fun item => expected endpoint (fst item)) groups
  /\ map group_name rs = dict_keys groups.
Proof.
  unfold OpenAiProvider.get_completions. intros H.
  apply bind_returned_inv in H as (w1 & tasks & Hs & Hg).
  apply start_tasks_verdicts in Hs as [<- <-].
  apply gather_verdicts in Hg as [-> ->]. done.
Qed.

Lemma start_task_run self endpoint item w fields :
  heap w !! data_template (OpenAiProvider.config self) = Some (JObj fields) ->
  OpenAiProvider.start_task self endpoint item w
  = (emitted (allocated w (request_payload fields (snd item)))
       [post_event self (request_payload fields (snd item))],
     Returned (OpenAiProvider.Awaiting (fst item) (length (heap w))
                 (endpoint (fst item)))).
Proof.
  intros Ht. unfold OpenAiProvider.start_task.
  erewrite bind_returned by (by apply build_request_data_run).
  erewrite bind_returned by apply post_completion_run.
  cbn [allocated heap].
  rewrite (lookup_app_r (heap w) _ (length (heap w))) by lia.
  by rewrite Nat.sub_diag.
Qed.

(** The start of the fan-out: one request object and one post per group,
    in the order of the groups. *)
Lemma start_tasks_run self endpoint groups w fields :
  heap w !! data_template (OpenAiProvider.config self) = Some (JObj fields) ->
  prog_map (OpenAiProvider.start_task self endpoint) groups w
  = ({| heap := heap w
                ++ map (fun item => request_payload fields (snd item)) groups;
        trace := trace w
                 ++ map (fun item =>
                           post_event self (request_payload fields (snd item)))
                        groups |},
     Returned (initial_tasks endpoint (length (heap w)) groups)).
Proof.
  revert w. induction groups as [|item groups IH]; intros w Ht.
  - simpl. rewrite !app_nil_r. by destruct w.
  - cbn [prog_map].
    erewrite bind_returned by (by apply start_task_run).
    erewrite bind_returned; last first.
    { apply IH. cbn [emitted allocated heap]. by apply lookup_app_l_Some. }
    unfold ret. cbn [emitted allocated heap trace initial_tasks map].
    rewrite length_app, Nat.add_1_r, <- !app_assoc. reflexivity.
Qed.

Lemma initial_tasks_lookup endpoint base groups k t :
  initial_tasks endpoint base groups !! k = Some t ->
  exists item, groups !! k = Some item
    /\ t = OpenAiProvider.Awaiting (fst item) (base + k)%nat
             (endpoint (fst item)).
Proof.
  revert base k. induction groups as [|item groups IH]; intros base k; [done|].
  destruct k as [|k]; simpl.
  - intros [= <-]. exists item. by rewrite Nat.add_0_r.
  - intros H. apply IH in H as (item' & ? & ->). exists item'.
    split; [done|]. f_equal. lia.
Qed.

Lemma insert_task_data (tasks : list OpenAiProvider.task) i t0 t' t1 d :
  tasks !! i = Some t0 ->
  (forall d', task_data t' = Some d' -> task_data t0 = Some d') ->
  t1 ∈ <[i := t']> tasks -> task_data t1 = Some d ->
  exists t, t ∈ tasks /\ task_data t = Some d.
Proof.
  intros Hi Hsub Hin Hd.
  apply list_elem_of_lookup in Hin as [j Hj].
  destruct (decide (i = j)) as [<-|Hne].
  - rewrite list_lookup_insert_eq in Hj by (by eapply lookup_lt_Some).
    injection Hj as <-. exists t0. split; [|by apply Hsub].
    apply list_elem_of_lookup. eauto.
  - rewrite list_lookup_insert_ne in Hj by done.
    exists t1. split; [|done]. apply list_elem_of_lookup. eauto.
Qed.

Lemma resume_world self i tasks w w' out :
  OpenAiProvider.resume self i tasks w = (w', out) ->
  heap w' = heap w
  /\ (exists evs, trace w' = trace w ++ evs
                  /\ Forall (loop_event self (heap w) tasks) evs)
  /\ (forall tasks', out = Returned tasks' ->
        forall t' d, t' ∈ tasks' -> task_data t' = Some d ->
                     exists t, t ∈ tasks /\ task_data t = Some d).
Proof.
  rewrite resume_run.
  assert (forall tasks', Returned tasks = Returned tasks' ->
            forall t' d, t' ∈ tasks' -> task_data t' = Some d ->
                         exists t, t ∈ tasks /\ task_data t = Some d) as Hid.
  { intros ? [= <-]. eauto. }
  assert (exists evs : list event,
             trace w = trace w ++ evs
             /\ Forall (loop_event self (heap w) tasks) evs) as Hnil.
  { exists []. by rewrite app_nil_r. }
  destruct (tasks !! i) as [[g d [|r script']|r]|] eqn:Hi;
    try (by intros [= <- <-]).
  destruct (read_answer r) as [b| |e].
  - intros [= <- <-]. split; [done|split; [exact Hnil|]].
    intros ? [= <-] t' d' Hin Hd.
    eapply insert_task_data; [exact Hi| |exact Hin|exact Hd]. done.
  - intros [= <- <-]. split; [done|split].
    + exists [EvSleep 1; post_event self (default JNull (heap w !! d))].
      split; [done|]. apply Forall_cons. split; [by left|].
      apply Forall_cons. split; [|by apply Forall_nil].
      right. exists (OpenAiProvider.Awaiting g d (r :: script')), d.
      split; [|done]. apply list_elem_of_lookup. eauto.
    + intros ? [= <-] t' d' Hin Hd.
      eapply insert_task_data; [exact Hi| |exact Hin|exact Hd]. done.
  - intros [= <- <-]. split; [done|split; [exact Hnil|done]].
Qed.

Lemma loop_event_mono self h tasks tasks' ev :
  (forall t' d, t' ∈ tasks' -> task_data t' = Some d ->
                exists t, t ∈ tasks /\ task_data t = Some d) ->
  loop_event self h tasks' ev -> loop_event self h tasks ev.
Proof.
  intros Hsub [->|(t' & d & Hin & Hd & ->)]; [by left|].
  destruct (Hsub _ _ Hin Hd) as (t & ? & ?). right. eauto.
Qed.

(** The event loop leaves the store as it is; it only sleeps and posts. *)
Lemma gather_world self arrivals tasks w w' out :
  OpenAiProvider.gather self arrivals tasks w = (w', out) ->
  heap w' = heap w
  /\ exists evs, trace w' = trace w ++ evs
                 /\ Forall (loop_event self (heap w) tasks) evs.
Proof.
  revert tasks w. induction arrivals as [|i arrivals IH]; intros tasks w.
  - simpl. destruct (OpenAiProvider.results_of tasks).
    + intros [= <- <-]. split; [done|]. exists []. by rewrite app_nil_r.
    + intros [= <- <-]. split; [done|]. exists []. by rewrite app_nil_r.
  - simpl. destruct (OpenAiProvider.results_of tasks).
    { intros [= <- <-]. split; [done|]. exists []. by rewrite app_nil_r. }
    unfold bind.
    destruct (OpenAiProvider.resume self i tasks w) as [w1 o1] eqn:H1.
    apply resume_world in H1 as (Hh & (evs1 & Ht1 & Hf1) & Hsub).
    destruct o1 as [tasks1|e|].
    + intros H2. apply IH in H2 as (Hh2 & evs2 & Ht2 & Hf2).
      split; [congruence|]. exists (evs1 ++ evs2). split.
      * by rewrite Ht2, Ht1, app_assoc.
      * apply Forall_app. split; [done|].
        rewrite Hh in Hf2. eapply Forall_impl; [exact Hf2|].
        intros ev. apply loop_event_mono. by apply Hsub.
    + intros [= <- <-]. eauto.
    + intros [= <- <-]. eauto.
Qed.

(** All the actions of [get_completions]: the posts that start the tasks,
    then sleeps and further posts of the same payloads; the store gains
    the request objects and nothing else changes in it. *)
Lemma get_completions_world self endpoint arrivals groups w fields w' out :
  heap w !! data_template (OpenAiProvider.config self) = Some (JObj fields) ->
  OpenAiProvider.get_completions self endpoint arrivals groups w = (w', out) ->
  heap w'
  = heap w ++ map (fun item => request_payload fields (snd item)) groups
  /\ exists evs,
       trace w'
       = trace w
         ++ map (fun item =>
                   post_event self (request_payload fields (snd item))) groups
         ++ evs
       /\ Forall (fun ev =>
                    ev = EvSleep 1
                    \/ exists item,
                         item ∈ groups
                         /\ ev = post_event self
                                   (request_payload fields (snd item))) evs.
Proof.
  intros Ht. unfold OpenAiProvider.get_completions.
  erewrite bind_returned by (by apply start_tasks_run).
  intros H. apply gather_world in H as (Hh & evs & Htr & Hf).
  cbn [heap trace] in *. split; [done|].
  exists evs. split; [by rewrite Htr, app_assoc|].
  eapply Forall_impl; [exact Hf|].
  intros ev [->|(t & d & Hin & Hd & ->)]; [by left|right].
  apply list_elem_of_lookup in Hin as [k Hk].
  apply initial_tasks_lookup in Hk as (item & Hitem & ->).
  injection Hd as <-. exists item. split.
  - apply list_elem_of_lookup. eauto.
  - rewrite lookup_app_r by lia.
    replace (length (heap w) + k - length (heap w))%nat with k by lia.
    by rewrite list_lookup_fmap, Hitem.
Qed.

Lemma turns_cons_eq i arrivals : turns i (i :: arrivals) = S (turns i arrivals).
Proof. unfold turns. rewrite filter_cons. by rewrite decide_True. Qed.

Lemma turns_cons_ne i j arrivals :
  j <> i -> turns i (j :: arrivals) = turns i arrivals.
Proof. intros H. unfold turns. rewrite filter_cons. by rewrite decide_False. Qed.



(** A resumption that does not raise moves the resumed task by one answer
    and leaves the other tasks alone. *)
Lemma resume_advance self i tasks w w' tasks' :
  OpenAiProvider.resume self i tasks w = (w', Returned tasks') ->
  forall j,
    tasks' !! j
    = (if decide (j = i) then advance 1 else advance 0) <$> tasks !! j.
Proof.
  rewrite resume_run. intros H j.
  assert (forall t : OpenAiProvider.task,
             tasks !! i = Some t -> advance 1 t = t ->
             tasks !! j
             = (if decide (j = i) then advance 1 else advance 0) <$> tasks !! j)
    as Hsame.
  { intros t Hi Ht. destruct (decide (j = i)) as [->|_].
    - rewrite Hi. cbn [fmap option_fmap option_map]. by rewrite Ht.
    - by destruct (tasks !! j). }
  destruct (tasks !! i) as [[g d [|r script']|r]|] eqn:Hi.
  - injection H as <- <-. by eapply Hsame.
  - destruct (read_answer r) as [b| |e] eqn:Hr; [| |done].
    + injection H as <- <-. destruct (decide (j = i)) as [->|Hne].
      * rewrite list_lookup_insert_eq by (by eapply lookup_lt_Some).
        rewrite Hi. cbn. by rewrite Hr.
      * rewrite list_lookup_insert_ne by done. by destruct (tasks !! j).
    + injection H as <- <-. destruct (decide (j = i)) as [->|Hne].
      * rewrite list_lookup_insert_eq by (by eapply lookup_lt_Some).
        rewrite Hi. cbn. by rewrite Hr.
      * rewrite list_lookup_insert_ne by done. by destruct (tasks !! j).
  - injection H as <- <-. by eapply Hsame.
  - injection H as <- <-. destruct (decide (j = i)) as [->|_].
    + by rewrite Hi.
    + by destruct (tasks !! j).
Qed.






Lemma map_Returned_inj {A} (xs ys : list A) :
  map Returned xs = map Returned ys -> xs = ys.
Proof.
  revert ys. induction xs as [|x xs IH]; intros [|y ys]; try done.
  intros [= -> H]. by rewrite (IH ys).
Qed.

Lemma map_lookup {A B} (f : A -> B) (l : list A) i :
  map f l !! i = f <$> l !! i.
Proof. apply list_lookup_fmap. Qed.

Lemma all_done tasks :
  (forall i t, tasks !! i = Some t -> task_needs t = O) ->
  exists rs, OpenAiProvider.results_of tasks = Some rs.
Proof.
  induction tasks as [|t tasks IH]; intros H; [by exists []|].
  destruct IH as [rs Hrs]. { intros i t' Hi. by apply (H (S i)). }
  specialize (H O t eq_refl). destruct t as [g d s|r]; [done|].
  exists (r :: rs). simpl. by rewrite Hrs.
Qed.

(** Progress of the join: when every task's answers lead to a success and
    each task gets as many turns as it has answers to go through, the
    [gather] returns. *)
Lemma gather_returns self arrivals tasks w rs :
  map task_verdict tasks = map Returned rs ->
  (forall i t, tasks !! i = Some t -> (task_needs t <= turns i arrivals)%nat) ->
  exists w', OpenAiProvider.gather self arrivals tasks w = (w', Returned rs).
Proof.
  revert tasks w. induction arrivals as [|i arrivals IH]; intros tasks w Hv Hn.
  - destruct (all_done tasks) as [rs' Hrs].
    { intros i t Hi. specialize (Hn i t Hi). unfold turns in Hn.
      cbn in Hn. lia. }
    simpl. rewrite Hrs. exists w. apply results_of_done in Hrs as ->.
    rewrite map_map in Hv. cbn in Hv.
    by apply map_Returned_inj in Hv as ->.
  - simpl. destruct (OpenAiProvider.results_of tasks) as [rs'|] eqn:Hrs.
    { exists w. apply results_of_done in Hrs as ->.
      rewrite map_map in Hv. cbn in Hv.
      by apply map_Returned_inj in Hv as ->. }
    destruct (OpenAiProvider.resume self i tasks w) as [w1 o1] eqn:H1.
    assert (exists tasks1, o1 = Returned tasks1) as [tasks1 ->].
    { revert H1. rewrite resume_run.
      destruct (tasks !! i) as [[g d [|r script']|r]|] eqn:Hi;
        try (intros [= <- <-]; eauto).
      destruct (read_answer r) as [b| |e] eqn:Hr;
        [intros [= <- <-]; eauto|intros [= <- <-]; eauto|].
      exfalso.
      pose proof (f_equal (fun l => l !! i) Hv) as Hvi.
      cbn beta in Hvi. rewrite !map_lookup in Hvi.
      rewrite Hi in Hvi. cbn in Hvi. rewrite Hr in Hvi. cbn in Hvi.
      rewrite Hr in Hvi. by destruct (rs !! i). }
    erewrite bind_returned by exact H1.
    apply IH.
    + apply resume_verdicts in H1 as [-> _]. done.
    + intros j t' Hj.
      rewrite (resume_advance _ _ _ _ _ _ H1 j) in Hj.
      destruct (tasks !! j) as [t|] eqn:Htj; [|done].
      injection Hj as <-. specialize (Hn j t Htj).
      destruct (decide (j = i)) as [->|Hne].
      * rewrite turns_cons_eq in Hn.
        destruct t as [g d [|r script']|r]; cbn; try lia.
        -- exfalso.
           pose proof (f_equal (fun l => l !! i) Hv) as Hvi.
           cbn beta in Hvi. rewrite !map_lookup in Hvi.
           rewrite Htj in Hvi. cbn in Hvi. by destruct (rs !! i).
        -- cbn in Hn. destruct (read_answer r) as [b| |e] eqn:Hr;
             [cbn; lia|cbn; lia|].
           exfalso.
           pose proof (f_equal (fun l => l !! i) Hv) as Hvi.
           cbn beta in Hvi. rewrite !map_lookup in Hvi.
           rewrite Htj in Hvi. cbn in Hvi. rewrite Hr in Hvi. cbn in Hvi.
           rewrite Hr in Hvi. by destruct (rs !! i).
      * rewrite turns_cons_ne in Hn by done. done.
Qed.

Lemma gather_stalled self g d n w :
  OpenAiProvider.gather self (replicate n O) [OpenAiProvider.Awaiting g d []] w
  = (w, Pending).
Proof. induction n as [|n IH]; [done|]. cbn. exact IH. Qed.

(** The task machine agrees with the loop it stands for: a task that runs
    alone and is given its turns acts and ends as [completion_loop]
    does. *)
Lemma gather_single self g d script :
  forall n w,
    (S (leading_overloads script) <= n)%nat ->
    OpenAiProvider.gather self (replicate n O)
      [OpenAiProvider.Awaiting g d script]
      (emitted w [post_event self (default JNull (heap w !! d))])
    = (fst (OpenAiProvider.completion_loop self g d script w),
       outcome_map (fun r => [r])
         (snd (OpenAiProvider.completion_loop self g d script w))).
Proof.
  induction script as [|r script IH]; intros n w Hn.
  - rewrite gather_stalled. by rewrite completion_loop_run.
  - rewrite completion_loop_run. cbn [fst snd].
    cbn [leading_overloads] in *.
    destruct n as [|n]; [lia|].
    cbn [replicate OpenAiProvider.gather OpenAiProvider.results_of].
    unfold bind at 1. rewrite resume_run. cbn [lookup list_lookup].
    destruct (read_answer r) as [b| |e] eqn:Hr.
    + cbn [insert list_insert drop verdict outcome_map retry_trace].
      rewrite Hr. by destruct n.
    + cbn [insert list_insert drop retry_trace emitted heap].
      rewrite emitted_app.
      change ([post_event self (default JNull (heap w !! d))]
              ++ [EvSleep 1; post_event self (default JNull (heap w !! d))])
        with ([post_event self (default JNull (heap w !! d)); EvSleep 1]
              ++ [post_event self (default JNull (heap w !! d))]).
      rewrite <- emitted_app.
      rewrite (IH n (emitted w [post_event self
                                  (default JNull (heap w !! d));
                                EvSleep 1])) by lia.
      rewrite completion_loop_run. cbn [fst snd emitted heap].
      by rewrite emitted_app.
    + cbn [drop verdict outcome_map retry_trace]. by rewrite Hr.
Qed.

(** Property X7.  A fan-out of one group, given at least as many turns as
    its answers need, is a call of [get_completion]: the same actions, the
    same store, and the result of the call as the only result. *)
Lemma get_completions_single self endpoint n g ms w :
  (S (leading_overloads (endpoint g)) <= n)%nat ->
  OpenAiProvider.get_completions self endpoint (replicate n O) [(g, ms)] w
  = (fst (OpenAiProvider.get_completion self g ms (endpoint g) w),
     outcome_map (fun r => [r])
       (snd (OpenAiProvider.get_completion self g ms (endpoint g) w))).
Proof.
  intros Hn.
  unfold OpenAiProvider.get_completions, OpenAiProvider.get_completion.
  destruct (OpenAiProvider.build_request_data self ms w)
    as [w1 [data|e|]] eqn:Hb.
  - assert (prog_map (OpenAiProvider.start_task self endpoint) [(g, ms)] w
            = (emitted w1 [post_event self (default JNull (heap w1 !! data))],
               Returned [OpenAiProvider.Awaiting g data (endpoint g)])) as Hs.
    { cbn [prog_map]. unfold OpenAiProvider.start_task. cbn [fst snd].
      unfold bind at 1 2. rewrite Hb.
      erewrite bind_returned by apply post_completion_run. done. }
    erewrite bind_returned by exact Hs.
    erewrite (bind_returned _ _ w) by exact Hb.
    by apply gather_single.
  - assert (prog_map (OpenAiProvider.start_task self endpoint) [(g, ms)] w
            = (w1, Raised e)) as Hs.
    { cbn [prog_map]. unfold OpenAiProvider.start_task. cbn [fst snd].
      unfold bind at 1 2. by rewrite Hb. }
    erewrite bind_raised by exact Hs.
    by erewrite (bind_raised _ _ w) by exact Hb.
  - assert (prog_map (OpenAiProvider.start_task self endpoint) [(g, ms)] w
            = (w1, Pending)) as Hs.
    { cbn [prog_map]. unfold OpenAiProvider.start_task. cbn [fst snd].
      unfold bind at 1 2. by rewrite Hb. }
    erewrite bind_pending by exact Hs.
    by erewrite (bind_pending _ _ w) by exact Hb.
Qed.

Lemma results_forall2 endpoint (groups : list (string * list message)) rs :
  map Returned rs = map (fun item => expected endpoint (fst item)) groups ->
  map group_name rs = dict_keys groups ->
  Forall2 (fun item r =>
             group_name r = fst item
             /\ expected endpoint (fst item) = Returned r) groups rs.
Proof.
  unfold dict_keys. revert rs.
  induction groups as [|item groups IH]; intros [|r rs]; try done.
  cbn [map]. intros [= Hr Hrs] [= Hn Hns].
  constructor; [done|by apply IH].
Qed.

Lemma initial_tasks_verdicts endpoint base groups :
  map task_verdict (initial_tasks endpoint base groups)
  = map (fun item => expected endpoint (fst item)) groups.
Proof.
  revert base. induction groups as [|item groups IH]; intros base; [done|].
  cbn [initial_tasks map]. by rewrite IH.
Qed.

(** Progress of [get_completions]: with a dictionary for template, when
    the answers for every group lead to a success and every task gets
    the turns it needs (one per overloaded answer, and one more), the
    call returns the results of all groups. *)
Lemma get_completions_returns self endpoint arrivals groups w fields rs :
  heap w !! data_template (OpenAiProvider.config self) = Some (JObj fields) ->
  map (fun item => expected endpoint (fst item)) groups = map Returned rs ->
  (forall i item, groups !! i = Some item ->
     (S (leading_overloads (endpoint (fst item))) <= turns i arrivals)%nat) ->
  exists w',
    OpenAiProvider.get_completions self endpoint arrivals groups w
    = (w', Returned rs).
Proof.
  intros Ht Hv Hn. unfold OpenAiProvider.get_completions.
  erewrite bind_returned by (by apply start_tasks_run).
  apply gather_returns.
  - rewrite <- Hv. apply initial_tasks_verdicts.
  - intros i t Hi. apply initial_tasks_lookup in Hi as (item & Hitem & ->).
    cbn. by apply Hn.
Qed.

(* ===================================================================== *)
(** ** Reassembly of the fan-out *)
(* ===================================================================== *)

Lemma expected_results endpoint (groups : list (string * list message)) rs :
  Forall2 (fun item r => expected endpoint (fst item) = Returned r) groups rs ->
  map (fun item => expected endpoint (fst item)) groups = map Returned rs.
Proof. induction 1 as [|item r groups rs Hr _ IH]; [done|]. cbn. by rewrite Hr, IH. Qed.

(** Claim C1.  Take a dictionary of groups with distinct names.  Whenever
    [get_completions] returns, in whatever order the answers arrived, the
    list it returns has one result per group, in the order of the groups:
    the result at the place of a group bears the name of that group, and
    its completion is the one the endpoint's answers for that group lead
    to; two runs that differ only in the order of arrival return the same
    list.  And the call does return: with a dictionary for template, when
    the answers for every group lead to a result (overloaded answers, then
    a success), the call returns these results, one per group and named
    after the groups, for every order of arrival that gives every task
    its turns, one per overloaded answer and one more. *)
Theorem get_completions_one_result_per_group
    (self : OpenAiProvider.t) (endpoint : string -> list client_response)
    (groups : list (string * list message)) (w : world) :
  NoDup (dict_keys groups) ->
  (forall arrivals w' results,
      OpenAiProvider.get_completions self endpoint arrivals groups w
      = (w', Returned results) ->
      length results = length groups
      /\ map group_name results = dict_keys groups
      /\ NoDup (map group_name results)
      /\ Forall2 (fun item r =>
                    group_name r = fst item
                    /\ expected endpoint (fst item) = Returned r)
                 groups results
      /\ (forall arrivals2 w2 results2,
            OpenAiProvider.get_completions self endpoint arrivals2 groups w
            = (w2, Returned results2) ->
            results2 = results))
  /\ (forall fields results arrivals,
        heap w !! data_template (OpenAiProvider.config self)
        = Some (JObj fields) ->
        Forall2 (fun item r => expected endpoint (fst item) = Returned r)
                groups results ->
        (forall i item,
            groups !! i = Some item ->
            (S (leading_overloads (endpoint (fst item)))
             <= turns i arrivals)%nat) ->
        exists w',
          OpenAiProvider.get_completions self endpoint arrivals groups w
          = (w', Returned results)
          /\ length results = length groups
          /\ map group_name results = dict_keys groups).
Proof.
  intros Hnd. split.
  - intros arrivals w' results H.
    apply get_completions_results in H as [Hv Hn].
    split; [|split; [done|split; [by rewrite Hn|split]]].
    + rewrite <- (length_map group_name results), Hn. apply length_map.
    + by apply results_forall2.
    + intros arrivals2 w2 results2 H2.
      apply get_completions_results in H2 as [Hv2 _].
      apply map_Returned_inj. by rewrite Hv, Hv2.
  - intros fields results arrivals Ht Hexp Hturns.
    destruct (get_completions_returns self endpoint arrivals groups w fields
                results Ht (expected_results _ _ _ Hexp) Hturns)
      as [w' Hrun].
    exists w'. split; [done|].
    apply get_completions_results in Hrun as [_ Hn].
    split; [|done].
    rewrite <- (length_map group_name results), Hn. apply length_map.
Qed.

Lemma get_completions_one_result_per_group_witness :
  NoDup (dict_keys demo_groups)
  /\ (exists w',
        OpenAiProvider.get_completions demo_openai demo_endpoint
          [1; 0; 0]%nat demo_groups demo_world
        = (w', Returned demo_results)
        /\ length demo_results = length demo_groups
        /\ map group_name demo_results = dict_keys demo_groups)
  /\ (exists w',
        OpenAiProvider.get_completions demo_openai demo_endpoint
          [0; 0; 1]%nat demo_groups demo_world
        = (w', Returned demo_results)
        /\ length demo_results = length demo_groups
        /\ map group_name demo_results = dict_keys demo_groups).
Proof.
  assert (NoDup (dict_keys demo_groups)) as Hnd.
  { apply NoDup_cons. split; [|apply NoDup_singleton].
    intros H. apply list_elem_of_singleton in H. discriminate H. }
  assert (Forall2 (fun item r => expected demo_endpoint (fst item) = Returned r)
            demo_groups demo_results) as Hexp.
  { constructor; [reflexivity|]. constructor; [reflexivity|constructor]. }
  split; [exact Hnd|].
  pose proof (proj2 (get_completions_one_result_per_group demo_openai
                       demo_endpoint demo_groups demo_world Hnd)) as Hreturns.
  split.
  - apply (Hreturns demo_template demo_results [1; 0; 0]%nat eq_refl Hexp).
    intros [|[|i]] item; cbn [lookup list_lookup demo_groups];
      intros [= <-]; vm_compute; lia.
  - apply (Hreturns demo_template demo_results [0; 0; 1]%nat eq_refl Hexp).
    intros [|[|i]] item; cbn [lookup list_lookup demo_groups];
      intros [= <-]; vm_compute; lia.
Defined.

(** A resumption raises only on an answer that makes its task raise. *)
Lemma resume_raised self i tasks w w' e :
  OpenAiProvider.resume self i tasks w = (w', Raised e) ->
  Raised e ∈ map task_verdict tasks.
Proof.
  rewrite resume_run.
  destruct (tasks !! i) as [[g d [|r script']|r]|] eqn:Hi; try done.
  destruct (read_answer r) as [b| |e'] eqn:Hr; [done|done|].
  intros [= <- <-]. apply list_elem_of_lookup. exists i.
  rewrite map_lookup, Hi. cbn. rewrite Hr. cbn. by rewrite Hr.
Qed.

(** The join raises only what one of its tasks comes to raise. *)
Lemma gather_raised self arrivals tasks w w' e :
  OpenAiProvider.gather self arrivals tasks w = (w', Raised e) ->
  Raised e ∈ map task_verdict tasks.
Proof.
  revert tasks w. induction arrivals as [|i arrivals IH]; intros tasks w.
  - cbn. by destruct (OpenAiProvider.results_of tasks).
  - cbn. destruct (OpenAiProvider.results_of tasks); [done|].
    unfold bind.
    destruct (OpenAiProvider.resume self i tasks w) as [w1 [tasks1|e1|]] eqn:H1.
    + intros H. apply IH in H.
      by apply resume_verdicts in H1 as [<- _].
    + intros [= <- <-]. by eapply resume_raised.
    + done.
Qed.


(* ===================================================================== *)
(** ** A group stuck in its retry loop *)
(* ===================================================================== *)

Lemma slept_run w : slept w = (w, Returned (seconds_slept (trace w))).
Proof. reflexivity. Qed.

Lemma seconds_slept_app evs1 evs2 :
  seconds_slept (evs1 ++ evs2) = seconds_slept evs1 + seconds_slept evs2.
Proof.
  induction evs1 as [|[u p|u a d|z] evs1 IH]; cbn [app seconds_slept];
    rewrite ?IH; lia.
Qed.

(** One turn of the clocked loop, by what the answer is to its task. *)
Lemma run_clocked_step self free a arrivals tasks g d r script w :
  tasks !! arrival_task a = Some (OpenAiProvider.Awaiting g d (r :: script)) ->
  run_clocked self free (a :: arrivals) tasks w
  = let handled := Z.max free (arrival_time a) in
    match read_answer r with
    | Success response_json =>
        (rest <- run_clocked self handled arrivals
                   (<[arrival_task a :=
                        OpenAiProvider.Done
                          {| group_name := g; completion := response_json |}]>
                      tasks) ;;
         ret (handled :: fst rest, snd rest))%prog w
    | Overloaded =>
        (rest <- run_clocked self (handled + 1) arrivals
                   (<[arrival_task a := OpenAiProvider.Awaiting g d script]>
                      tasks) ;;
         ret (handled :: fst rest, snd rest))%prog
          (emitted w
             [EvSleep 1; post_event self (default JNull (heap w !! d))])
    | Failure e => (w, Raised e)
    end.
Proof.
  intros Hi. cbn [run_clocked].
  erewrite bind_returned by apply slept_run.
  unfold bind at 1. rewrite resume_run, Hi.
  destruct (read_answer r) as [b| |e]; [| |done].
  - erewrite bind_returned by apply slept_run.
    by rewrite Z.sub_diag, Z.add_0_r.
  - erewrite bind_returned by apply slept_run.
    cbn [emitted trace]. rewrite seconds_slept_app.
    cbn [seconds_slept post_event].
    by replace (seconds_slept (trace w) + (1 + 0) - seconds_slept (trace w))
      with 1 by lia.
Qed.

(** Property X16.  A fan-out has two groups.  The answer for the first
    is the overloaded one, the answer for the second a success, and both
    arrive at the same time [t], the first before the second.  The task
    of the first group is resumed at [t]: it sleeps one second in
    [time.sleep], which keeps the event loop, and posts again.  So the
    answer for the second group, which has arrived at [t], is handled at
    [t + 1] only, whereas the second group alone has its answer handled
    at [t].  The result of the second group is the same in both runs: a
    retry of a group leaves the results of its siblings alone, but it
    holds them up for the second it sleeps. *)
Theorem stuck_group_blocks_siblings
    (self : OpenAiProvider.t) (endpoint : string -> list client_response)
    (stuck g : string) (ms_stuck ms : list message)
    (busy ok : client_response) (busy_body b : json)
    (more_stuck more : list client_response) (t : Z) (w : world)
    (fields : list (string * json)) :
  heap w !! data_template (OpenAiProvider.config self) = Some (JObj fields) ->
  endpoint stuck = busy :: more_stuck ->
  response_status busy = 500 -> response_body busy = Ok busy_body ->
  endpoint g = ok :: more ->
  response_status ok = 200 -> response_body ok = Ok b ->
  0 <= t ->
  snd (get_completions_clocked self endpoint
         [{| arrival_task := 0; arrival_time := t |};
          {| arrival_task := 1; arrival_time := t |}]
         [(stuck, ms_stuck); (g, ms)] w)
  = Returned ([t; t + 1],
              [OpenAiProvider.Awaiting stuck (length (heap w)) more_stuck;
               OpenAiProvider.Done {| group_name := g; completion := b |}])
  /\ snd (get_completions_clocked self endpoint
            [{| arrival_task := 0; arrival_time := t |}] [(g, ms)] w)
     = Returned ([t],
                 [OpenAiProvider.Done {| group_name := g; completion := b |}])
  /\ seconds_slept
       (trace (fst (get_completions_clocked self endpoint
                      [{| arrival_task := 0; arrival_time := t |};
                       {| arrival_task := 1; arrival_time := t |}]
                      [(stuck, ms_stuck); (g, ms)] w)))
     = seconds_slept (trace w) + 1.
Proof.
  intros Ht Hstuck H500 Hbusy Hg H200 Hok Hpos.
  pose proof (read_answer_overloaded _ _ Hbusy H500) as Hover.
  pose proof (read_answer_success _ _ Hok H200) as Hsuccess.
  assert (Z.max 0 t = t) as Hmax0 by lia.
  assert (Z.max (t + 1) t = t + 1) as Hmax1 by lia.
  assert (forall free i (a : arrival) tasks d w1,
             arrival_task a = i ->
             tasks !! i = Some (OpenAiProvider.Awaiting g d (ok :: more)) ->
             run_clocked self free [a] tasks w1
             = (w1,
                Returned ([Z.max free (arrival_time a)],
                          <[i := OpenAiProvider.Done
                                   {| group_name := g; completion := b |}]>
                            tasks))) as Hlast.
  { intros free i a tasks d w1 <- Hi.
    erewrite run_clocked_step by exact Hi. cbn zeta. by rewrite Hsuccess. }
  assert (get_completions_clocked self endpoint
            [{| arrival_task := 0; arrival_time := t |};
             {| arrival_task := 1; arrival_time := t |}]
            [(stuck, ms_stuck); (g, ms)] w
          = (emitted
               {| heap := heap w
                          ++ [request_payload fields ms_stuck;
                              request_payload fields ms];
                  trace := trace w
                           ++ [post_event self
                                 (request_payload fields ms_stuck);
                               post_event self (request_payload fields ms)] |}
               [EvSleep 1;
                post_event self (request_payload fields ms_stuck)],
             Returned ([t; t + 1],
                       [OpenAiProvider.Awaiting stuck (length (heap w))
                          more_stuck;
                        OpenAiProvider.Done
                          {| group_name := g; completion := b |}])))
    as Hboth.
  { unfold get_completions_clocked.
    erewrite bind_returned by (by apply start_tasks_run).
    cbn [initial_tasks fst snd map]. rewrite Hstuck, Hg.
    erewrite run_clocked_step by reflexivity. cbn zeta. rewrite Hover.
    cbn [arrival_task arrival_time insert list_insert heap].
    rewrite Hmax0.
    erewrite bind_returned by (by eapply (Hlast _ 1%nat)).
    cbn [arrival_time insert list_insert fst snd]. rewrite Hmax1.
    unfold ret. f_equal. f_equal. f_equal.
    rewrite lookup_app_r by lia. by rewrite Nat.sub_diag. }
  split; [by rewrite Hboth|]. split.
  - unfold get_completions_clocked.
    erewrite bind_returned by (by apply start_tasks_run).
    cbn [initial_tasks fst snd map]. rewrite Hg.
    erewrite (Hlast _ 0%nat) by reflexivity.
    cbn [arrival_time insert list_insert snd]. by rewrite Hmax0.
  - rewrite Hboth. cbn [fst emitted trace].
    rewrite !seconds_slept_app. cbn [seconds_slept post_event]. lia.
Qed.

Lemma stuck_group_blocks_siblings_witness :
  snd (get_completions_clocked demo_openai stuck_endpoint
         [{| arrival_task := 0; arrival_time := 0 |};
          {| arrival_task := 1; arrival_time := 0 |}]
         demo_groups demo_world)
  = Returned ([0; 1],
              [OpenAiProvider.Awaiting "mock_url_a" 1%nat
                 [overloaded_answer; overloaded_answer];
               OpenAiProvider.Done demo_result_b])
  /\ snd (get_completions_clocked demo_openai stuck_endpoint
            [{| arrival_task := 0; arrival_time := 0 |}]
            [("mock_url_b", [])] demo_world)
     = Returned ([0], [OpenAiProvider.Done demo_result_b]).
Proof.
  pose proof (stuck_group_blocks_siblings demo_openai stuck_endpoint
                "mock_url_a" "mock_url_b"
                [{| msg_role := user; content := JStr "mock_comment" |}] []
                overloaded_answer (completion_answer "analysis b")
                (JObj [("error", JStr "rate limit exceeded")])
                (completion_body "analysis b")
                [overloaded_answer; overloaded_answer] [] 0 demo_world
                demo_template eq_refl eq_refl eq_refl eq_refl eq_refl eq_refl
                eq_refl) as H.
  destruct H as (H1 & H2 & _); [lia|]. split; [exact H1|exact H2].
Defined.




(* ===================================================================== *)
(** ** The issue search *)
(* ===================================================================== *)

Lemma issue_pull_request_urls records urls :
  Forall2 is_issue_record records urls ->
  result_map GitHubProvider.issue_pull_request_url records = Ok urls.
Proof.
  induction 1 as [|j u records urls (iu & pr & H1 & H2 & H3) _ IH]; [done|].
  cbn [result_map]. unfold GitHubProvider.issue_pull_request_url at 1.
  rewrite H1. cbn [result_bind]. rewrite H2. cbn [result_bind].
  by rewrite H3, IH.
Qed.

Lemma read_full_page r urls :
  full_page r urls ->
  GitHubProvider.read_page (body r) = Ok (GitHubProvider.PageUrls urls).
Proof.
  intros (records & Hitems & Hne & Hrec).
  unfold GitHubProvider.read_page. rewrite Hitems.
  destruct (body r) as [| | | |xs|fs] eqn:Hb; try done.
  cbn [py_getitem] in Hitems. cbn [py_contains].
  destruct (dict_get fs "items") as [v|]; [|done].
  injection Hitems as ->. cbn [result_bind negb py_len].
  destruct records as [|rec records]; [done|].
  cbn [length]. rewrite Nat2Z.inj_succ.
  assert ((Z.succ (Z.of_nat (length records)) =? 0) = false) as ->
    by (apply Z.eqb_neq; lia).
  cbn [py_iter result_bind].
  by rewrite (issue_pull_request_urls _ _ Hrec).
Qed.

Lemma read_last_page r :
  last_page r -> GitHubProvider.read_page (body r) = Ok GitHubProvider.PageBreak.
Proof.
  intros [Hnone|(items & Hitems & Hlen)]; unfold GitHubProvider.read_page.
  - by rewrite Hnone.
  - rewrite Hitems. destruct (body r) as [| | | |xs|fs]; try done.
    cbn [py_getitem] in Hitems. cbn [py_contains].
    destruct (dict_get fs "items"); [|done].
    cbn [result_bind negb]. by rewrite Hlen.
Qed.

(** The three kinds of page: what is not a page of results nor a page
    that ends the search raises. *)
Lemma read_page_inv r step :
  GitHubProvider.read_page (body r) = Ok step ->
  match step with
  | GitHubProvider.PageBreak => last_page r
  | GitHubProvider.PageUrls urls => full_page r urls
  end.
Proof.
  unfold GitHubProvider.read_page, last_page, full_page.
  destruct (py_contains "items" (body r)) as [[|]|] eqn:Hc;
    cbn [result_bind negb];
    [|intros [= <-]; by left|done].
  destruct (py_getitem (body r) "items") as [items|] eqn:Hi; [|done].
  cbn [result_bind].
  destruct (py_len items) as [n|] eqn:Hl; [|done]. cbn [result_bind].
  destruct (n =? 0) eqn:Hn.
  - intros [= <-]. right. exists items. split; [done|].
    rewrite Hl. f_equal. lia.
  - destruct (py_iter items) as [records|] eqn:Hit; [|done].
    cbn [result_bind].
    destruct (result_map GitHubProvider.issue_pull_request_url records)
      as [urls|] eqn:Hu; [|done].
    cbn [result_bind]. intros [= <-].
    assert (Forall2 is_issue_record records urls) as Hrec.
    { clear -Hu. revert urls Hu.
      induction records as [|j records IH]; intros urls; cbn.
      - intros [= <-]. constructor.
      - unfold GitHubProvider.issue_pull_request_url at 1.
        destruct (py_getitem j "url") as [iu|] eqn:H1; [|done].
        cbn [result_bind].
        destruct (py_getitem j "pull_request") as [pr|] eqn:H2; [|done].
        cbn [result_bind].
        destruct (py_getitem pr "url") as [u|] eqn:H3; [|done].
        destruct (result_map GitHubProvider.issue_pull_request_url records)
          as [us|]; [|done].
        intros [= <-]. constructor; [by exists iu, pr|by apply IH]. }
    destruct items as [| | |str|xs|fs]; try done.
    + destruct str as [|c str]; [cbn in Hl; injection Hl as <-; done|].
      cbn in Hit. injection Hit as <-.
      apply Forall2_cons_inv_l in Hrec as (u & us & (iu & pr & H1 & _) & _ & _).
      done.
    + cbn in Hit. injection Hit as ->. exists records.
      split; [done|]. split; [|done].
      intros ->. cbn in Hl. injection Hl as <-. done.
    + destruct fs as [|[k v] fs]; [cbn in Hl; injection Hl as <-; done|].
      cbn in Hit. injection Hit as <-.
      apply Forall2_cons_inv_l in Hrec as (u & us & (iu & pr & H1 & _) & _ & _).
      done.
Qed.

Lemma page_requests_app url first n m :
  page_requests url first (n + m)
  = page_requests url first n ++ page_requests url (first + Z.of_nat n) m.
Proof.
  revert first. induction n as [|n IH]; intros first.
  - cbn. by rewrite Z.add_0_r.
  - cbn [Nat.add page_requests app]. rewrite IH. do 3 f_equal. lia.
Qed.

(** The loop over full pages: one request per page, the page number going
    up by one, the URLs gathered page after page. *)
Lemma get_pull_requests_loop_pages url pages urlss :
  Forall2 full_page pages urlss ->
  forall page acc rest w,
    GitHubProvider.get_pull_requests_loop url page acc (pages ++ rest) w
    = GitHubProvider.get_pull_requests_loop url
        (page + Z.of_nat (length pages)) (acc ++ concat urlss) rest
        (emitted w (page_requests url page (length pages))).
Proof.
  induction 1 as [|r urls pages urlss Hfull _ IH]; intros page acc rest w.
  - cbn. by rewrite Z.add_0_r, app_nil_r, emitted_nil.
  - cbn [app GitHubProvider.get_pull_requests_loop].
    erewrite bind_returned by apply emit_run.
    rewrite (read_full_page _ _ Hfull). cbn [lift].
    erewrite bind_returned by reflexivity.
    cbn match. rewrite IH, emitted_app.
    cbn [length page_requests concat app].
    rewrite <- app_assoc.
    by replace (page + Z.of_nat (S (length pages)))
      with (page + 1 + Z.of_nat (length pages)) by lia.
Qed.

(** Every search that returns went through pages of results and stopped
    at a page that ends the search. *)
Lemma get_pull_requests_loop_returned url script :
  forall page acc w w' urls,
    GitHubProvider.get_pull_requests_loop url page acc script w
    = (w', Returned urls) ->
    exists pages urlss stop rest,
      script = pages ++ stop :: rest
      /\ Forall2 full_page pages urlss
      /\ last_page stop
      /\ urls = acc ++ concat urlss.
Proof.
  induction script as [|r script IH]; intros page acc w w' urls; [done|].
  cbn [GitHubProvider.get_pull_requests_loop].
  erewrite bind_returned by apply emit_run.
  destruct (GitHubProvider.read_page (body r)) as [step|e] eqn:Hr;
    cbn [lift]; [|done].
  erewrite bind_returned by reflexivity.
  apply read_page_inv in Hr. destruct step as [|page_urls].
  - intros [= <- <-]. exists [], [], r, script.
    split; [done|]. split; [constructor|]. split; [done|].
    by rewrite app_nil_r.
  - intros H. apply IH in H as (pages & urlss & stop & rest & -> & Hp & Hs & ->).
    exists (r :: pages), (page_urls :: urlss), stop, rest.
    split; [done|]. split; [by constructor|]. split; [done|].
    cbn [concat]. by rewrite app_assoc.
Qed.

(** Claim C8, in the form the code satisfies.  The search asks for page 1,
    then page 2, and so on, one request per page.  It goes on as long as
    the body of the answer has a non-empty list of issue records under
    [items], and it stops at the first answer whose body has no [items]
    or has nothing under [items], whatever the status of that answer,
    which the search does not read.  It then returns, page after page and
    record after record, the [pull_request.url] of every issue record met
    (not its [url]).  An answer that cannot be read as a page raises, and
    then no list is returned; an answer that never comes leaves the search
    waiting.  A search that returns has always run this way. *)
Theorem get_pull_requests_pagination (url : string) (w : world) :
  (forall (pages : list http_response) (urlss : list (list json)),
      Forall2 full_page pages urlss ->
      (forall stop rest,
          last_page stop ->
          GitHubProvider.get_pull_requests url (pages ++ stop :: rest) w
          = (emitted w (page_requests url 1 (S (length pages))),
             Returned (concat urlss)))
      /\ (forall bad rest e,
            GitHubProvider.read_page (body bad) = Err e ->
            GitHubProvider.get_pull_requests url (pages ++ bad :: rest) w
            = (emitted w (page_requests url 1 (S (length pages))), Raised e))
      /\ GitHubProvider.get_pull_requests url pages w
         = (emitted w (page_requests url 1 (S (length pages))), Pending))
  /\ (forall script w' urls,
        GitHubProvider.get_pull_requests url script w = (w', Returned urls) ->
        exists pages urlss stop rest,
          script = pages ++ stop :: rest
          /\ Forall2 full_page pages urlss
          /\ last_page stop
          /\ urls = concat urlss).
Proof.
  split; [|intros script w' urls H;
           by apply get_pull_requests_loop_returned in H].
  intros pages urlss Hpages. unfold GitHubProvider.get_pull_requests.
  assert (forall n, page_requests url 1 (S n)
                    = page_requests url 1 n ++ [EvGet url (1 + Z.of_nat n)])
    as Hreq.
  { intros n. replace (S n) with (n + 1)%nat by lia.
    by rewrite page_requests_app. }
  split; [|split].
  - intros stop rest Hstop.
    rewrite (get_pull_requests_loop_pages _ _ _ Hpages).
    cbn [GitHubProvider.get_pull_requests_loop app].
    erewrite bind_returned by apply emit_run.
    rewrite (read_last_page _ Hstop). cbn [lift].
    erewrite bind_returned by reflexivity.
    unfold ret. by rewrite emitted_app, Hreq.
  - intros bad rest e Hbad.
    rewrite (get_pull_requests_loop_pages _ _ _ Hpages).
    cbn [GitHubProvider.get_pull_requests_loop app].
    erewrite bind_returned by apply emit_run.
    rewrite Hbad. cbn [lift].
    erewrite bind_raised by reflexivity.
    by rewrite emitted_app, Hreq.
  - rewrite <- (app_nil_r pages) at 1.
    rewrite (get_pull_requests_loop_pages _ _ _ Hpages).
    cbn [GitHubProvider.get_pull_requests_loop app].
    erewrite bind_returned by apply emit_run.
    unfold pending. by rewrite emitted_app, Hreq.
Qed.

Lemma get_pull_requests_pagination_witness :
  Forall2 full_page [search_page_1]
    [[JStr "https://api.mock/pulls/1"; JStr "https://api.mock/pulls/2"]]
  /\ last_page rate_limited_page
  /\ GitHubProvider.get_pull_requests "https://api.mock/search"
       [search_page_1; rate_limited_page] demo_world
     = (emitted demo_world
          [EvGet "https://api.mock/search" 1;
           EvGet "https://api.mock/search" 2],
        Returned [JStr "https://api.mock/pulls/1";
                  JStr "https://api.mock/pulls/2"])
  /\ GitHubProvider.get_pull_requests "https://api.mock/search"
       [search_page_1; malformed_page] demo_world
     = (emitted demo_world
          [EvGet "https://api.mock/search" 1;
           EvGet "https://api.mock/search" 2],
        Raised (KeyError (JStr "pull_request"))).
Proof.
  assert (Forall2 full_page [search_page_1]
            [[JStr "https://api.mock/pulls/1";
              JStr "https://api.mock/pulls/2"]]) as Hpages.
  { constructor; [|constructor].
    eexists. split; [reflexivity|]. split; [done|].
    constructor; [|constructor; [|constructor]].
    - eexists _, _. repeat split; reflexivity.
    - eexists _, _. repeat split; reflexivity. }
  assert (last_page rate_limited_page) as Hlast by (by left).
  split; [exact Hpages|]. split; [exact Hlast|].
  pose proof (proj1 (get_pull_requests_pagination "https://api.mock/search"
                       demo_world)
                [search_page_1] _ Hpages) as (Hstop & Hbad & _).
  split.
  - exact (Hstop rate_limited_page [] Hlast).
  - exact (Hbad malformed_page [] (KeyError (JStr "pull_request")) eq_refl).
Defined.

(** Claim C8 as written fails where it makes a non-success answer or a
    malformed payload fatal: after a page of results, the answer of a
    rate-limited endpoint (status 403, a dictionary without [items]) ends
    the search, which returns the URLs of the first page; and the payload
    of the repository's own test, a list instead of a dictionary, gives
    the empty list. *)
Lemma get_pull_requests_partial_on_failure :
  status rate_limited_page = 403
  /\ snd (GitHubProvider.get_pull_requests "https://api.mock/search"
            [search_page_1; rate_limited_page] demo_world)
     = Returned [JStr "https://api.mock/pulls/1";
                 JStr "https://api.mock/pulls/2"]
  /\ ~ (exists e,
          snd (GitHubProvider.get_pull_requests "https://api.mock/search"
                 [search_page_1; rate_limited_page] demo_world)
          = Raised e)
  /\ snd (GitHubProvider.get_pull_requests "mock_url" [test_page] demo_world)
     = Returned [].
Proof.
  split; [reflexivity|]. split; [reflexivity|]. split; [|reflexivity].
  intros [e He]. vm_compute in He. discriminate He.
Qed.

(* ===================================================================== *)
(** ** The conversation fetcher *)
(* ===================================================================== *)

Lemma truthy_nonempty m : py_truthy (content m) = true -> nonempty m.
Proof.
  intros H. split; [done|]. split; intros E; rewrite E in H; done.
Qed.

Lemma py_eq_strings a s : py_eq (JStr a) (JStr s) = true <-> a = s.
Proof. cbn. apply String.eqb_eq. Qed.

Lemma comment_message_run student j c :
  is_comment j c ->
  GitHubProvider.comment_message student j
  = Ok (if py_truthy (text c)
        then Some {| msg_role := if py_eq (author c) student
                                 then user else assistant;
                     content := text c |}
        else None).
Proof.
  intros (u & Hu & Ha & Hb). unfold GitHubProvider.comment_message.
  rewrite Hu. cbn [result_bind]. rewrite Ha. cbn [result_bind].
  rewrite Hb. cbn [result_bind]. by destruct (py_truthy (text c)).
Qed.

Lemma comment_message_inv student j m :
  GitHubProvider.comment_message student j = Ok (Some m) ->
  exists u a,
    py_getitem j "user" = Ok u
    /\ py_getitem u "login" = Ok a
    /\ py_getitem j "body" = Ok (content m)
    /\ py_truthy (content m) = true
    /\ msg_role m = (if py_eq a student then user else assistant).
Proof.
  unfold GitHubProvider.comment_message.
  destruct (py_getitem j "user") as [u|] eqn:Hu; [|done].
  cbn [result_bind].
  destruct (py_getitem u "login") as [a|] eqn:Ha; [|done].
  cbn [result_bind].
  destruct (py_getitem j "body") as [b|] eqn:Hb; [|done].
  cbn [result_bind].
  destruct (py_truthy b) eqn:Htruthy; [|done].
  intros [= <-]. exists u, a. done.
Qed.

Lemma get_comments_loop_run student js cs :
  Forall2 is_comment js cs ->
  forall acc,
    GitHubProvider.get_comments_loop student js acc
    = Ok (acc ++ comment_messages student cs).
Proof.
  unfold comment_messages.
  induction 1 as [|j c js cs Hc _ IH]; intros acc.
  - cbn. by rewrite app_nil_r.
  - cbn [GitHubProvider.get_comments_loop].
    rewrite (comment_message_run _ _ _ Hc). cbn [result_bind].
    rewrite IH, filter_cons.
    destruct (py_truthy (text c)) eqn:Ht.
    + rewrite decide_True by done. cbn [map]. by rewrite <- app_assoc.
    + by rewrite decide_False by done.
Qed.

Lemma get_comments_loop_inv student js :
  forall acc ms,
    GitHubProvider.get_comments_loop student js acc = Ok ms ->
    exists new,
      ms = acc ++ new
      /\ Forall (fun m => exists j,
                   j ∈ js
                   /\ GitHubProvider.comment_message student j = Ok (Some m))
                new.
Proof.
  induction js as [|j js IH]; intros acc ms.
  - intros [= <-]. exists []. by rewrite app_nil_r.
  - cbn [GitHubProvider.get_comments_loop].
    destruct (GitHubProvider.comment_message student j) as [o|] eqn:Hj; [|done].
    cbn [result_bind]. intros H. apply IH in H as (new & -> & Hnew).
    assert (Forall (fun m => exists j0,
                      j0 ∈ j :: js
                      /\ GitHubProvider.comment_message student j0
                         = Ok (Some m)) new) as Hnew'.
    { eapply Forall_impl; [exact Hnew|].
      intros m (j0 & ? & ?). exists j0. split; [by right|done]. }
    destruct o as [m|].
    + exists (m :: new). split; [by rewrite <- app_assoc|].
      apply Forall_cons. split; [|done]. exists j. split; [by left|done].
    + by exists new.
Qed.

Lemma get_comments_run github u student js cs :
  github u = JArr js ->
  Forall2 is_comment js cs ->
  GitHubProvider.get_comments github (JStr u) student
  = Ok (comment_messages student cs).
Proof.
  intros Hu Hcs. unfold GitHubProvider.get_comments.
  cbn [GitHubProvider.session_get result_bind]. rewrite Hu.
  cbn [py_iter result_bind].
  by rewrite (get_comments_loop_run _ _ _ Hcs).
Qed.

Lemma get_comments_inv github data_url student ms :
  GitHubProvider.get_comments github data_url student = Ok ms ->
  Forall (fun m => exists j,
            GitHubProvider.comment_message student j = Ok (Some m)) ms.
Proof.
  unfold GitHubProvider.get_comments.
  destruct (GitHubProvider.session_get github data_url) as [doc|]; [|done].
  cbn [result_bind]. destruct (py_iter doc) as [items|]; [|done].
  cbn [result_bind]. intros H.
  apply get_comments_loop_inv in H as (new & -> & Hnew).
  eapply Forall_impl; [exact Hnew|]. intros m (j & _ & ?). eauto.
Qed.

(** A comment that is read without error has the shape of a comment. *)
Lemma comment_message_complete student j o :
  GitHubProvider.comment_message student j = Ok o ->
  exists c,
    is_comment j c
    /\ o = (if py_truthy (text c)
            then Some {| msg_role := if py_eq (author c) student
                                     then user else assistant;
                         content := text c |}
            else None).
Proof.
  unfold GitHubProvider.comment_message.
  destruct (py_getitem j "user") as [u|] eqn:Hu; [|done].
  cbn [result_bind].
  destruct (py_getitem u "login") as [a|] eqn:Ha; [|done].
  cbn [result_bind].
  destruct (py_getitem j "body") as [b|] eqn:Hb; [|done].
  cbn [result_bind]. intros H.
  exists {| author := a; text := b |}. split; [by exists u|].
  cbn [author text]. destruct (py_truthy b); by injection H as <-.
Qed.

Lemma get_comments_loop_complete student js :
  forall acc ms,
    GitHubProvider.get_comments_loop student js acc = Ok ms ->
    exists cs,
      Forall2 is_comment js cs /\ ms = acc ++ comment_messages student cs.
Proof.
  induction js as [|j js IH]; intros acc ms.
  - intros [= <-]. exists []. split; [constructor|]. by rewrite app_nil_r.
  - cbn [GitHubProvider.get_comments_loop].
    destruct (GitHubProvider.comment_message student j) as [o|] eqn:Hj; [|done].
    cbn [result_bind]. intros H.
    apply comment_message_complete in Hj as (c & Hc & ->).
    apply IH in H as (cs & Hcs & ->).
    exists (c :: cs). split; [by constructor|].
    unfold comment_messages. rewrite filter_cons.
    destruct (py_truthy (text c)) eqn:Ht.
    + rewrite decide_True by done. cbn [map]. by rewrite <- app_assoc.
    + by rewrite decide_False by done.
Qed.

(** Every way [get_comments] can return: the document behind the URL
    iterates over comments, and the messages are theirs. *)
Lemma get_comments_complete github data_url student ms :
  GitHubProvider.get_comments github data_url student = Ok ms ->
  exists u items cs,
    data_url = JStr u
    /\ py_iter (github u) = Ok items
    /\ Forall2 is_comment items cs
    /\ ms = comment_messages student cs.
Proof.
  unfold GitHubProvider.get_comments.
  destruct data_url as [| | |u| |]; try done.
  cbn [GitHubProvider.session_get result_bind].
  destruct (py_iter (github u)) as [items|] eqn:Hi; [|done].
  cbn [result_bind]. intros H.
  apply get_comments_loop_complete in H as (cs & Hcs & ->).
  by exists u, items, cs.
Qed.

(** Every way [get_pull_request_pull] can return. *)
Lemma get_pull_request_pull_inv github url p :
  GitHubProvider.get_pull_request_pull github url = Ok p ->
  exists u pull_user student pull_body comments_url review_comments_url
         general review,
    url = JStr u
    /\ py_getitem (github u) "user" = Ok pull_user
    /\ py_getitem pull_user "login" = Ok student
    /\ py_getitem (github u) "body" = Ok pull_body
    /\ py_getitem (github u) "comments_url" = Ok comments_url
    /\ GitHubProvider.get_comments github comments_url student = Ok general
    /\ py_getitem (github u) "review_comments_url" = Ok review_comments_url
    /\ GitHubProvider.get_comments github review_comments_url student
       = Ok review
    /\ p = {| pull_url := u;
              messages := body_messages pull_body ++ general ++ review |}.
Proof.
  unfold GitHubProvider.get_pull_request_pull.
  destruct url as [| | |u| |]; try done.
  cbn [GitHubProvider.session_get result_bind].
  destruct (py_getitem (github u) "user") as [pull_user|] eqn:H1; [|done].
  cbn [result_bind].
  destruct (py_getitem pull_user "login") as [student|] eqn:H2; [|done].
  cbn [result_bind].
  destruct (py_getitem (github u) "body") as [pull_body|] eqn:H3; [|done].
  cbn [result_bind].
  destruct (py_getitem (github u) "comments_url") as [cu|] eqn:H4; [|done].
  cbn [result_bind].
  destruct (GitHubProvider.get_comments github cu student)
    as [general|] eqn:H5; [|done].
  cbn [result_bind].
  destruct (py_getitem (github u) "review_comments_url")
    as [ru|] eqn:H6; [|done].
  cbn [result_bind].
  destruct (GitHubProvider.get_comments github ru student)
    as [review|] eqn:H7; [|done].
  cbn [result_bind]. intros [= <-].
  exists u, pull_user, student, pull_body, cu, ru, general, review.
  repeat split; try done.
  unfold body_messages. destruct (py_truthy pull_body); cbn [negb];
    by rewrite <- app_assoc.
Qed.

(** Claim C5.  Whenever a conversation is fetched, none of its messages is
    empty, and its messages are: the pull body as a [user] message, present
    only when the body is not empty; then the messages of the general
    comments, in the order in which the document behind [comments_url]
    lists them; then the messages of the review comments, in the order in
    which the document behind [review_comments_url] lists them; a comment
    without a body gives no message.  Conversely, when the pull document
    and its two comment streams have the shape of the GitHub API, the
    fetch returns that conversation: an empty body or an empty comment
    raises nothing. *)
Theorem conversation_messages_in_order :
  (forall github url p,
      GitHubProvider.get_pull_request_pull github url = Ok p ->
      Forall nonempty (messages p)
      /\ exists u pull_user student pull_body cu ru general review
                (gs rs : list comment),
           url = JStr u /\ pull_url p = u
           /\ py_getitem (github u) "user" = Ok pull_user
           /\ py_getitem pull_user "login" = Ok student
           /\ py_getitem (github u) "body" = Ok pull_body
           /\ py_getitem (github u) "comments_url" = Ok (JStr cu)
           /\ py_iter (github cu) = Ok general
           /\ Forall2 is_comment general gs
           /\ py_getitem (github u) "review_comments_url" = Ok (JStr ru)
           /\ py_iter (github ru) = Ok review
           /\ Forall2 is_comment review rs
           /\ messages p
              = (if py_truthy pull_body
                 then [{| msg_role := user; content := pull_body |}]
                 else [])
                ++ comment_messages student gs
                ++ comment_messages student rs)
  /\ (forall github u pull_user student pull_body cu ru
             general review (gs rs : list comment),
        py_getitem (github u) "user" = Ok pull_user ->
        py_getitem pull_user "login" = Ok student ->
        py_getitem (github u) "body" = Ok pull_body ->
        py_getitem (github u) "comments_url" = Ok (JStr cu) ->
        py_getitem (github u) "review_comments_url" = Ok (JStr ru) ->
        github cu = JArr general -> Forall2 is_comment general gs ->
        github ru = JArr review -> Forall2 is_comment review rs ->
        GitHubProvider.get_pull_request_pull github (JStr u)
        = Ok {| pull_url := u;
                messages :=
                  (if py_truthy pull_body
                   then [{| msg_role := user; content := pull_body |}]
                   else [])
                  ++ comment_messages student gs
                  ++ comment_messages student rs |}).
Proof.
  split.
  - intros github url p H.
    apply get_pull_request_pull_inv in H
      as (u & pu & student & b & cu & ru & general & review
          & -> & H1 & H2 & H3 & H4 & Hg & H5 & Hr & ->).
    cbn [messages pull_url]. split.
    + rewrite !Forall_app. split; [|split].
      * unfold body_messages. destruct (py_truthy b) eqn:Hb; [|done].
        apply Forall_singleton. by apply truthy_nonempty.
      * apply get_comments_inv in Hg. eapply Forall_impl; [exact Hg|].
        intros m (j & Hj). apply comment_message_inv in Hj
          as (_ & _ & _ & _ & _ & Ht & _). by apply truthy_nonempty.
      * apply get_comments_inv in Hr. eapply Forall_impl; [exact Hr|].
        intros m (j & Hj). apply comment_message_inv in Hj
          as (_ & _ & _ & _ & _ & Ht & _). by apply truthy_nonempty.
    + apply get_comments_complete in Hg
        as (cu' & gitems & gs & -> & Hgi & Hgs & ->).
      apply get_comments_complete in Hr
        as (ru' & ritems & rs & -> & Hri & Hrs & ->).
      exists u, pu, student, b, cu', ru', gitems, ritems, gs, rs.
      repeat (split; [done|]). done.
  - intros github u pull_user student pull_body cu ru general review gs rs
      H1 H2 H3 H4 H5 Hg Hgs Hr Hrs.
    unfold GitHubProvider.get_pull_request_pull.
    cbn [GitHubProvider.session_get result_bind].
    rewrite H1. cbn [result_bind]. rewrite H2. cbn [result_bind].
    rewrite H3. cbn [result_bind]. rewrite H4. cbn [result_bind].
    rewrite (get_comments_run _ _ _ _ _ Hg Hgs). cbn [result_bind].
    rewrite H5. cbn [result_bind].
    rewrite (get_comments_run _ _ _ _ _ Hr Hrs). cbn [result_bind].
    destruct (py_truthy pull_body); cbn [negb]; by rewrite <- app_assoc.
Qed.

Lemma conversation_messages_in_order_witness :
  GitHubProvider.get_pull_request_pull demo_github
    (JStr "https://api.mock/pulls/1")
  = Ok {| pull_url := "https://api.mock/pulls/1";
          messages := demo_conversation |}
  /\ Forall nonempty demo_conversation.
Proof.
  split.
  - refine (proj2 conversation_messages_in_order demo_github
              "https://api.mock/pulls/1"
              (JObj [("login", JStr "mock_student_login")])
              (JStr "mock_student_login") (JStr "mock_body")
              "https://api.mock/issues/1/comments"
              "https://api.mock/pulls/1/comments"
              _ _
              [{| author := JStr "mock_reviewer_login";
                  text := JStr "mock_comment" |};
               {| author := JStr "mock_student_login"; text := JStr "" |}]
              [{| author := JStr "mock_student_login";
                  text := JStr "mock_reply" |}]
              eq_refl eq_refl eq_refl eq_refl eq_refl eq_refl _ eq_refl _).
    + constructor; [|constructor; [|constructor]].
      * eexists. repeat split; reflexivity.
      * eexists. repeat split; reflexivity.
    + constructor; [|constructor].
      eexists. repeat split; reflexivity.
  - apply (proj1 conversation_messages_in_order demo_github
             (JStr "https://api.mock/pulls/1")
             {| pull_url := "https://api.mock/pulls/1";
                messages := demo_conversation |} eq_refl).
Defined.

Lemma comment_messages_speak student cs :
  Forall2 (speaks_for student) (with_body cs) (comment_messages student cs).
Proof.
  unfold comment_messages, with_body.
  induction (filter (fun c => py_truthy (text c) = true) cs) as [|c l IH];
    [constructor|].
  cbn [map]. constructor; [|exact IH].
  unfold speaks_for. cbn [content msg_role].
  split; [done|]. by destruct (py_eq (author c) student).
Qed.

(** Claim C6.  A comment that becomes a message has role [user] exactly when
    the login of its author equals, by [==], the login of the requester
    of the pull, and role [assistant] otherwise; on strings [==] is
    equality.  In a fetched conversation the requester is the
    [user.login] of the pull document; the body message, when there is
    one, has role [user]; and the messages after it are, one for one and
    in order, those of the comments with a body that the documents behind
    [comments_url] and [review_comments_url] list, each with the role its
    author has against that requester.  Conversely, documents of this
    shape are fetched into such a conversation. *)
Theorem comment_roles :
  (forall student j m,
      GitHubProvider.comment_message student j = Ok (Some m) ->
      exists u a,
        py_getitem j "user" = Ok u
        /\ py_getitem u "login" = Ok a
        /\ py_getitem j "body" = Ok (content m)
        /\ (msg_role m = user <-> py_eq a student = true)
        /\ (msg_role m = assistant <-> py_eq a student = false))
  /\ (forall a s, py_eq (JStr a) (JStr s) = true <-> a = s)
  /\ (forall github url p,
        GitHubProvider.get_pull_request_pull github url = Ok p ->
        exists u pull_user student pull_body cu ru general review
               (gs rs : list comment) gms rms,
          url = JStr u
          /\ py_getitem (github u) "user" = Ok pull_user
          /\ py_getitem pull_user "login" = Ok student
          /\ py_getitem (github u) "body" = Ok pull_body
          /\ py_getitem (github u) "comments_url" = Ok (JStr cu)
          /\ py_iter (github cu) = Ok general
          /\ Forall2 is_comment general gs
          /\ py_getitem (github u) "review_comments_url" = Ok (JStr ru)
          /\ py_iter (github ru) = Ok review
          /\ Forall2 is_comment review rs
          /\ messages p
             = (if py_truthy pull_body
                then [{| msg_role := user; content := pull_body |}]
                else [])
               ++ gms ++ rms
          /\ Forall2 (speaks_for student) (with_body gs) gms
          /\ Forall2 (speaks_for student) (with_body rs) rms)
  /\ (forall github u pull_user student pull_body cu ru
             general review (gs rs : list comment),
        py_getitem (github u) "user" = Ok pull_user ->
        py_getitem pull_user "login" = Ok student ->
        py_getitem (github u) "body" = Ok pull_body ->
        py_getitem (github u) "comments_url" = Ok (JStr cu) ->
        py_getitem (github u) "review_comments_url" = Ok (JStr ru) ->
        github cu = JArr general -> Forall2 is_comment general gs ->
        github ru = JArr review -> Forall2 is_comment review rs ->
        exists gms rms,
          GitHubProvider.get_pull_request_pull github (JStr u)
          = Ok {| pull_url := u;
                  messages :=
                    (if py_truthy pull_body
                     then [{| msg_role := user; content := pull_body |}]
                     else [])
                    ++ gms ++ rms |}
          /\ Forall2 (speaks_for student) (with_body gs) gms
          /\ Forall2 (speaks_for student) (with_body rs) rms).
Proof.
  split; [|split; [|split]].
  - intros student j m H.
    apply comment_message_inv in H as (u & a & Hu & Ha & Hb & _ & Hrole).
    exists u, a. split; [done|]. split; [done|]. split; [done|].
    rewrite Hrole. by destruct (py_eq a student).
  - apply py_eq_strings.
  - intros github url p H.
    apply get_pull_request_pull_inv in H
      as (u & pu & student & b & cu & ru & general & review
          & -> & H1 & H2 & H3 & H4 & Hg & H5 & Hr & ->).
    apply get_comments_complete in Hg
      as (cu' & gitems & gs & -> & Hgi & Hgs & ->).
    apply get_comments_complete in Hr
      as (ru' & ritems & rs & -> & Hri & Hrs & ->).
    exists u, pu, student, b, cu', ru', gitems, ritems, gs, rs,
      (comment_messages student gs), (comment_messages student rs).
    repeat (split; [done|]).
    split; [apply comment_messages_speak|apply comment_messages_speak].
  - intros github u pull_user student pull_body cu ru general review gs rs
      H1 H2 H3 H4 H5 Hg Hgs Hr Hrs.
    exists (comment_messages student gs), (comment_messages student rs).
    split; [|split; apply comment_messages_speak].
    unfold GitHubProvider.get_pull_request_pull.
    cbn [GitHubProvider.session_get result_bind].
    rewrite H1. cbn [result_bind]. rewrite H2. cbn [result_bind].
    rewrite H3. cbn [result_bind]. rewrite H4. cbn [result_bind].
    rewrite (get_comments_run _ _ _ _ _ Hg Hgs). cbn [result_bind].
    rewrite H5. cbn [result_bind].
    rewrite (get_comments_run _ _ _ _ _ Hr Hrs). cbn [result_bind].
    destruct (py_truthy pull_body); cbn [negb]; by rewrite <- app_assoc.
Qed.

Lemma comment_roles_witness :
  exists gms rms,
    GitHubProvider.get_pull_request_pull demo_github
      (JStr "https://api.mock/pulls/1")
    = Ok {| pull_url := "https://api.mock/pulls/1";
            messages :=
              [{| msg_role := user; content := JStr "mock_body" |}]
              ++ gms ++ rms |}
    /\ Forall2 (speaks_for (JStr "mock_student_login"))
                [{| author := JStr "mock_reviewer_login";
                    text := JStr "mock_comment" |}] gms
    /\ Forall2 (speaks_for (JStr "mock_student_login"))
                [{| author := JStr "mock_student_login";
                    text := JStr "mock_reply" |}] rms.
Proof.
  refine (proj2 (proj2 (proj2 comment_roles)) demo_github
            "https://api.mock/pulls/1"
            (JObj [("login", JStr "mock_student_login")])
            (JStr "mock_student_login") (JStr "mock_body")
            "https://api.mock/issues/1/comments"
            "https://api.mock/pulls/1/comments"
            _ _
            [{| author := JStr "mock_reviewer_login";
                text := JStr "mock_comment" |};
             {| author := JStr "mock_student_login"; text := JStr "" |}]
            [{| author := JStr "mock_student_login";
                text := JStr "mock_reply" |}]
            eq_refl eq_refl eq_refl eq_refl eq_refl eq_refl _ eq_refl _).
  - constructor; [|constructor; [|constructor]].
    + eexists. repeat split; reflexivity.
    + eexists. repeat split; reflexivity.
  - constructor; [|constructor].
    eexists. repeat split; reflexivity.
Defined.

(* ===================================================================== *)
(** ** The report *)
(* ===================================================================== *)

Lemma dict_get_None {V} (d : list (string * V)) k :
  dict_get d k = None <-> k ∉ dict_keys d.
Proof.
  unfold dict_keys. induction d as [|[k' v] d IH]; cbn.
  - split; [|done]. intros _ H. by apply elem_of_nil in H.
  - destruct (String.eqb_spec k' k) as [->|Hne].
    + split; [done|]. intros H. destruct H. by left.
    + rewrite IH. rewrite not_elem_of_cons. split; [by intros ?|by intros [_ ?]].
Qed.

(** A new key goes last. *)
Lemma dict_set_new {V} (d : list (string * V)) k v :
  k ∉ dict_keys d -> dict_set d k v = d ++ [(k, v)].
Proof.
  unfold dict_keys. induction d as [|[k' v'] d IH]; cbn; [done|].
  rewrite not_elem_of_cons. intros [Hne Hnin].
  destruct (String.eqb_spec k' k) as [->|_]; [done|]. by rewrite IH.
Qed.

Lemma dict_keys_set {V} (d : list (string * V)) k v :
  dict_keys (dict_set d k v)
  = if decide (k ∈ dict_keys d) then dict_keys d else dict_keys d ++ [k].
Proof.
  unfold dict_keys. induction d as [|[k' v'] d IH]; cbn.
  - rewrite decide_False; [done|]. intros H. by apply elem_of_nil in H.
  - destruct (String.eqb_spec k' k) as [->|Hne]; cbn.
    + rewrite decide_True; [done|]. by left.
    + rewrite IH. destruct (decide (k ∈ map fst d)) as [Hin|Hnin].
      * rewrite decide_True; [done|]. by right.
      * rewrite decide_False; [done|]. by rewrite not_elem_of_cons.
Qed.

Lemma build_message_groups_snoc self pulls p :
  ReportGenerator.build_message_groups self (pulls ++ [p])
  = dict_set (ReportGenerator.build_message_groups self pulls) (pull_url p)
      (ReportGenerator.pull_messages self p).
Proof.
  unfold ReportGenerator.build_message_groups. by rewrite fold_left_app.
Qed.

(** The dictionary of the groups: its keys are the URLs of the pulls,
    each once; under a URL are the messages made for the last pull with
    that URL. *)
Lemma build_message_groups_spec self pulls :
  let groups := ReportGenerator.build_message_groups self pulls in
  NoDup (dict_keys groups)
  /\ (forall u, u ∈ dict_keys groups <-> u ∈ map pull_url pulls)
  /\ (forall u ms,
        dict_get groups u = Some ms ->
        exists before p after,
          pulls = before ++ p :: after
          /\ pull_url p = u
          /\ (u ∉ map pull_url after)
          /\ ms = ReportGenerator.pull_messages self p).
Proof.
  induction pulls as [|p pulls IH] using rev_ind.
  - cbn. split; [constructor|]. split; [done|]. done.
  - destruct IH as (Hnd & Hkeys & Hget).
    rewrite build_message_groups_snoc. cbn zeta.
    set (groups := ReportGenerator.build_message_groups self pulls) in *.
    split; [|split].
    + rewrite dict_keys_set. destruct (decide _) as [Hin|Hnin]; [done|].
      apply NoDup_app. split; [done|]. split; [|apply NoDup_singleton].
      intros x Hx Hx'. apply list_elem_of_singleton in Hx' as ->. done.
    + intros u. rewrite dict_keys_set, map_app, elem_of_app. cbn [map].
      rewrite list_elem_of_singleton, <- Hkeys.
      destruct (decide _) as [Hin|Hnin].
      * split; [by left|]. intros [?| ->]; done.
      * by rewrite elem_of_app, list_elem_of_singleton.
    + intros u ms. destruct (decide (pull_url p = u)) as [<-|Hne].
      * rewrite dict_get_set_eq. intros [= <-].
        exists pulls, p, []. split; [done|]. split; [done|]. split; [|done].
        intros H. by apply elem_of_nil in H.
      * rewrite dict_get_set_ne by done. intros H.
        apply Hget in H as (before & q & after & -> & Hq & Hnin & ->).
        exists before, q, (after ++ [p]). rewrite <- app_assoc.
        split; [done|]. split; [done|]. split; [|done].
        rewrite map_app, elem_of_app. cbn [map].
        rewrite list_elem_of_singleton. intros [?| ->]; done.
Qed.

(** With distinct URLs there is one group per pull, in the order of the
    pulls. *)
Lemma build_message_groups_distinct self pulls :
  NoDup (map pull_url pulls) ->
  ReportGenerator.build_message_groups self pulls
  = map (fun p => (pull_url p, ReportGenerator.pull_messages self p)) pulls.
Proof.
  induction pulls as [|p pulls IH] using rev_ind; [done|].
  rewrite map_app. intros Hnd. apply NoDup_app in Hnd as (Hnd & Hp & _).
  rewrite build_message_groups_snoc, (IH Hnd), map_app.
  apply dict_set_new. unfold dict_keys. rewrite map_map. cbn [fst].
  intros Hin. apply (Hp _ Hin). by left.
Qed.

Lemma result_map_forall2 {A B} (f : A -> result B) l ys :
  result_map f l = Ok ys -> Forall2 (fun x y => f x = Ok y) l ys.
Proof.
  revert ys. induction l as [|x l IH]; intros ys; cbn.
  - intros [= <-]. constructor.
  - destruct (f x) as [y|] eqn:Hx; [|done].
    destruct (result_map f l) as [ys'|]; [|done].
    intros [= <-]. constructor; [done|by apply IH].
Qed.

Lemma lift_returned_inv {A} (r : result A) w w' a :
  lift r w = (w', Returned a) -> r = Ok a /\ w' = w.
Proof. destruct r; [by intros [= <- <-]|done]. Qed.

(** Claim C7, in the form the code satisfies.  When phase 1 returns, it
    has fetched the conversations, built the dictionary of the groups from
    them and got one completion per group.  The dictionary has one group
    per distinct pull URL; the group under a URL holds the [system]
    message with the grounding prompt, then the messages of the last
    conversation fetched for that URL, then the [user] message with the
    pull prompt.  When the URLs are distinct there is one group per
    conversation, in the order of the conversations.  Every analysis has
    for [url] the name of the group of its completion and for [analysis]
    the content of the message of the first choice of that completion. *)
Theorem pulls_report_groups_and_projection
    (self : ReportGenerator.t) (env : environment) (w w' : world)
    (analyses : list pull_analysis) :
  ReportGenerator.generate_pulls_report self env w = (w', Returned analyses) ->
  exists conversations w1 completions,
    GitHubProvider.get_pull_request_pulls (github env)
      (fetch_times env)
      (ReportGenerator.github_provider self)
      (search_script env) w
    = (w1, Returned conversations)
    /\ let groups := ReportGenerator.build_message_groups self conversations in
       OpenAiProvider.get_completions (ReportGenerator.openai_provider self)
         (pulls_endpoint env) (pulls_arrivals env) groups w1
       = (w', Returned completions)
       /\ NoDup (dict_keys groups)
       /\ (forall u, u ∈ dict_keys groups <-> u ∈ map pull_url conversations)
       /\ (forall u ms,
             dict_get groups u = Some ms ->
             exists before p after,
               conversations = before ++ p :: after
               /\ pull_url p = u
               /\ (u ∉ map pull_url after)
               /\ ms = [{| msg_role := system;
                           content :=
                             grounding_prompt (ReportGenerator.config self) |}]
                       ++ messages p
                       ++ [{| msg_role := user;
                              content :=
                                pull_prompt (ReportGenerator.config self) |}])
       /\ (NoDup (map pull_url conversations) ->
           groups
           = map (fun p =>
                    (pull_url p,
                     [{| msg_role := system;
                         content :=
                           grounding_prompt (ReportGenerator.config self) |}]
                     ++ messages p
                     ++ [{| msg_role := user;
                            content :=
                              pull_prompt (ReportGenerator.config self) |}]))
                 conversations)
       /\ map url analyses = dict_keys groups
       /\ Forall2 (fun c a =>
                     url a = group_name c
                     /\ ReportGenerator.first_choice_content (completion c)
                        = Ok (analysis a)) completions analyses.
Proof.
  unfold ReportGenerator.generate_pulls_report. intros H.
  apply bind_returned_inv in H as (w1 & conversations & Hpulls & H).
  apply bind_returned_inv in H as (w2 & completions & Hcompl & H).
  apply bind_returned_inv in H as (w3 & resulting & Hproj & H).
  injection H as <- <-.
  apply lift_returned_inv in Hproj as [Hproj ->].
  exists conversations, w1, completions. split; [done|].
  destruct (build_message_groups_spec self conversations)
    as (Hnd & Hkeys & Hget).
  cbn zeta. split; [done|]. split; [done|]. split; [done|].
  split; [exact Hget|]. split; [apply build_message_groups_distinct|].
  apply result_map_forall2 in Hproj.
  assert (Forall2 (fun c a =>
                     url a = group_name c
                     /\ ReportGenerator.first_choice_content (completion c)
                        = Ok (analysis a)) completions resulting) as Hall.
  { eapply Forall2_impl; [exact Hproj|].
    intros c a. unfold ReportGenerator.project_analysis.
    destruct (ReportGenerator.first_choice_content (completion c)); [|done].
    by intros [= <-]. }
  split; [|exact Hall].
  apply get_completions_results in Hcompl as [_ <-].
  clear -Hall. induction Hall as [|c a cs rs [Hu _] _ IH]; [done|].
  cbn [map]. by rewrite Hu, IH.
Qed.

Lemma pulls_report_groups_and_projection_witness :
  snd (ReportGenerator.generate_pulls_report demo_generator demo_env demo_world)
  = Returned demo_analyses
  /\ exists conversations,
       snd (GitHubProvider.get_pull_request_pulls (github demo_env)
              (fetch_times demo_env)
              (ReportGenerator.github_provider demo_generator)
              (search_script demo_env) demo_world)
       = Returned conversations
       /\ map url demo_analyses
          = dict_keys (ReportGenerator.build_message_groups demo_generator
                         conversations).
Proof.
  split; [reflexivity|].
  destruct (pulls_report_groups_and_projection demo_generator demo_env
              demo_world
              (fst (ReportGenerator.generate_pulls_report demo_generator
                      demo_env demo_world))
              demo_analyses eq_refl)
    as (conversations & w1 & completions & Hc & _ & _ & _ & _ & _ & Hurls & _).
  exists conversations. split; [by rewrite Hc|exact Hurls].
Defined.

(** Claim C7 as written fails on a list of pull URLs with a repetition:
    when the search lists a pull twice, two conversations are fetched and
    they share one group, so that one analysis comes back for the two. *)
Lemma pulls_report_one_group_for_repeated_url :
  snd (GitHubProvider.get_pull_request_pulls (github repeating_env)
         (fetch_times repeating_env)
         (ReportGenerator.github_provider demo_generator)
         (search_script repeating_env) demo_world)
  = Returned repeated_conversations
  /\ length repeated_conversations = 2%nat
  /\ length (ReportGenerator.build_message_groups demo_generator
               repeated_conversations) = 1%nat
  /\ snd (ReportGenerator.generate_pulls_report demo_generator
            repeating_env demo_world)
     = Returned [{| url := "https://api.mock/pulls/1";
                    analysis := JStr "analysis 1" |}].
Proof. repeat split; reflexivity. Qed.

(** The join of the fetches: it returns the conversations, in the order
    of the URLs, exactly when every fetch returns; otherwise it raises
    the exception of one of the fetches that failed. *)
Lemma first_failure_in finished_at fetched :
  forall i time e,
    GitHubProvider.first_failure finished_at i fetched = Some (time, e) ->
    Err e ∈ fetched.
Proof.
  induction fetched as [|[p|e0] fetched IH]; intros i time e; [done| |].
  - cbn [GitHubProvider.first_failure]. intros H.
    apply list_elem_of_further. by eapply IH.
  - cbn [GitHubProvider.first_failure].
    destruct (GitHubProvider.first_failure finished_at (S i) fetched)
      as [[time' e']|] eqn:Hrest.
    + destruct (time' <? finished_at i)%nat.
      * intros [= <- <-]. apply list_elem_of_further. by eapply IH.
      * intros [= <- <-]. apply list_elem_of_here.
    + intros [= <- <-]. apply list_elem_of_here.
Qed.

Lemma first_failure_none finished_at fetched :
  forall i,
    GitHubProvider.first_failure finished_at i fetched = None ->
    forall e, Err e ∉ fetched.
Proof.
  induction fetched as [|[p|e0] fetched IH]; intros i H e.
  - apply not_elem_of_nil.
  - cbn [GitHubProvider.first_failure] in H.
    apply not_elem_of_cons. split; [done|]. by eapply IH.
  - cbn [GitHubProvider.first_failure] in H.
    destruct (GitHubProvider.first_failure finished_at (S i) fetched)
      as [[time' e']|]; [|done].
    by destruct (time' <? finished_at i)%nat.
Qed.

Lemma first_failure_all_ok {A} finished_at (f : A -> result pull) l ps :
  result_map f l = Ok ps ->
  forall i, GitHubProvider.first_failure finished_at i (map f l) = None.
Proof.
  revert ps. induction l as [|x l IH]; intros ps; [done|].
  cbn [result_map map]. destruct (f x) as [p|e]; [|done].
  destruct (result_map f l) as [ps'|e]; [|done].
  intros _ i. cbn [GitHubProvider.first_failure]. by eapply IH.
Qed.

Lemma result_map_id_map {A B} (f : A -> result B) l :
  result_map (fun r => r) (map f l) = result_map f l.
Proof.
  induction l as [|x l IH]; [done|].
  cbn [map result_map]. by rewrite IH.
Qed.

Lemma result_map_error_in {A B} (f : A -> result B) l e :
  result_map f l = Err e -> exists x, x ∈ l /\ f x = Err e.
Proof.
  induction l as [|x l IH]; [done|].
  cbn [result_map]. destruct (f x) as [y|e'] eqn:Hx.
  - destruct (result_map f l) as [ys|e']; [done|].
    intros [= ->]. destruct (IH eq_refl) as (x' & Hin & Hx').
    exists x'. split; [by apply list_elem_of_further|done].
  - intros [= ->]. exists x. split; [apply list_elem_of_here|done].
Qed.

Lemma gather_pulls_returned {A} finished_at (f : A -> result pull) l ps :
  GitHubProvider.gather_pulls finished_at (map f l) = Ok ps
  <-> result_map f l = Ok ps.
Proof.
  unfold GitHubProvider.gather_pulls. split.
  - destruct (GitHubProvider.first_failure finished_at 0 (map f l))
      as [[time e]|]; [done|].
    by rewrite result_map_id_map.
  - intros H. rewrite (first_failure_all_ok finished_at f l ps H).
    by rewrite result_map_id_map.
Qed.

Lemma gather_pulls_raised {A} finished_at (f : A -> result pull) l e :
  GitHubProvider.gather_pulls finished_at (map f l) = Err e ->
  exists x, x ∈ l /\ f x = Err e.
Proof.
  unfold GitHubProvider.gather_pulls.
  destruct (GitHubProvider.first_failure finished_at 0 (map f l))
    as [[time e']|] eqn:Hfirst.
  - intros [= <-]. apply first_failure_in in Hfirst.
    apply list_elem_of_fmap in Hfirst as (x & Hx & Hin). eauto.
  - rewrite result_map_id_map. apply result_map_error_in.
Qed.

Lemma gather_pulls_fails {A} finished_at (f : A -> result pull) l x e :
  x ∈ l -> f x = Err e ->
  exists e', GitHubProvider.gather_pulls finished_at (map f l) = Err e'.
Proof.
  intros Hin Hx. unfold GitHubProvider.gather_pulls.
  destruct (GitHubProvider.first_failure finished_at 0 (map f l))
    as [[time e']|] eqn:Hfirst; [by exists e'|].
  destruct (first_failure_none _ _ _ Hfirst e).
  apply list_elem_of_fmap. eauto.
Qed.

Lemma bind_ret_r {A} (m : prog A) w : bind m (fun a => ret a) w = m w.
Proof. unfold bind, ret. by destruct (m w) as [w1 [a|e|]]. Qed.

(** The search leaves the store as it is. *)
Lemma get_pull_requests_loop_heap url script :
  forall page acc w,
    heap (fst (GitHubProvider.get_pull_requests_loop url page acc script w))
    = heap w.
Proof.
  induction script as [|r script IH]; intros page acc w; [done|].
  cbn [GitHubProvider.get_pull_requests_loop].
  erewrite bind_returned by apply emit_run.
  destruct (GitHubProvider.read_page (body r)) as [[|urls]|e]; cbn [lift].
  - done.
  - erewrite bind_returned by reflexivity. cbn match. by rewrite IH.
  - done.
Qed.

Lemma get_pull_request_pulls_heap github finished_at self script w :
  heap (fst (GitHubProvider.get_pull_request_pulls github finished_at self
               script w))
  = heap w.
Proof.
  unfold GitHubProvider.get_pull_request_pulls, GitHubProvider.get_pull_requests.
  pose proof (get_pull_requests_loop_heap (GitHubProvider.search_url self)
                script 1 [] w) as Hh.
  unfold bind at 1.
  destruct (GitHubProvider.get_pull_requests_loop _ 1 [] script w)
    as [w1 [urls|e|]]; cbn [fst] in *; [|done|done].
  by destruct (GitHubProvider.gather_pulls finished_at _).
Qed.

(** Phase 1 keeps every object the store had. *)
Lemma generate_pulls_report_frame self env w fields :
  heap w !! data_template
             (OpenAiProvider.config (ReportGenerator.openai_provider self))
  = Some (JObj fields) ->
  heap (fst (ReportGenerator.generate_pulls_report self env w))
  !! data_template
       (OpenAiProvider.config (ReportGenerator.openai_provider self))
  = Some (JObj fields).
Proof.
  intros Ht. unfold ReportGenerator.generate_pulls_report.
  pose proof (get_pull_request_pulls_heap (github env) (fetch_times env)
                (ReportGenerator.github_provider self) (search_script env) w)
    as Hh.
  unfold bind at 1.
  destruct (GitHubProvider.get_pull_request_pulls _ _ _ _ w)
    as [w1 [conversations|e|]]; cbn [fst] in Hh;
    [|by cbn; rewrite Hh|by cbn; rewrite Hh].
  rewrite <- Hh in Ht.
  unfold bind at 1.
  destruct (OpenAiProvider.get_completions _ _ _ _ w1) as [w2 out] eqn:Hc.
  apply (get_completions_world _ _ _ _ _ _ _ _ Ht) in Hc as [Hh2 _].
  assert (heap w2 !! data_template
            (OpenAiProvider.config (ReportGenerator.openai_provider self))
          = Some (JObj fields)) as Ht2.
  { rewrite Hh2. by apply lookup_app_l_Some. }
  destruct out as [completions|e|]; [|done|done].
  by destruct (result_map ReportGenerator.project_analysis completions).
Qed.

(** What the messages of the summary request are as JSON. *)
Lemma summary_messages_json self analyses :
  messages_json (ReportGenerator.summary_messages self analyses)
  = JArr (JObj [("role", JStr "system");
                ("content", grounding_prompt (ReportGenerator.config self))]
          :: map (fun a => JObj [("role", JStr "assistant");
                                 ("content", analysis a)]) analyses
          ++ [JObj [("role", JStr "user");
                    ("content",
                     overview_prompt (ReportGenerator.config self))]]).
Proof.
  unfold messages_json, ReportGenerator.summary_messages.
  cbn [app map]. by rewrite map_app, map_map.
Qed.

(** The steps of [generate_summary_report] after the completion: they
    read the completion and change nothing. *)
Lemma generate_summary_report_run self env analyses w :
  ReportGenerator.generate_summary_report self env analyses w
  = let run :=
      OpenAiProvider.get_completions (ReportGenerator.openai_provider self)
        (summary_endpoint env) (summary_arrivals env)
        [("summary", ReportGenerator.summary_messages self analyses)] w in
    (fst run,
     match snd run with
     | Returned completions =>
         match ReportGenerator.first_completion completions with
         | Ok first =>
             match ReportGenerator.first_choice_content (completion first) with
             | Ok text =>
                 Returned
                   {| prompt_grounding :=
                        grounding_prompt (ReportGenerator.config self);
                      prompt_pull := pull_prompt (ReportGenerator.config self);
                      prompt_overview :=
                        overview_prompt (ReportGenerator.config self);
                      summary := text;
                      pulls := analyses |}
             | Err e => Raised e
             end
         | Err e => Raised e
         end
     | Raised e => Raised e
     | Pending => Pending
     end).
Proof.
  unfold ReportGenerator.generate_summary_report. cbn [dict_set]. cbn zeta.
  unfold bind at 1.
  destruct (OpenAiProvider.get_completions _ _ _ _ w)
    as [w2 [completions|e|]]; cbn [fst snd]; [|done|done].
  destruct (ReportGenerator.first_completion completions) as [first|e];
    cbn [lift]; [|done].
  erewrite bind_returned by reflexivity.
  by destruct (ReportGenerator.first_choice_content (completion first)).
Qed.

(* ===================================================================== *)
(** ** The two phases *)
(* ===================================================================== *)

(** Claim C2.  With a dictionary for template, the report is made in two steps
    in sequence.  When phase 1 raises or never returns, the run ends
    there, in the world phase 1 left: no summary is requested.  When
    phase 1 has returned its analyses, the run is the summary phase on
    these analyses, started in the world phase 1 left.  Its first action
    is a post whose payload is the template with [messages] replaced by:
    the [system] message with the grounding prompt, one [assistant]
    message per analysis with the text of the analysis, in the order of
    the analyses, and the [user] message with the overview prompt; any
    later action is a sleep of one second or the same post again.  When
    the run returns a report, its [pulls] are the analyses and its
    [summary] is the content of the message of the first choice of the
    completion the endpoint's answers lead to for the group named
    [summary]. *)
Theorem summary_after_all_pulls
    (self : ReportGenerator.t) (env : environment) (w : world)
    (fields : list (string * json)) :
  heap w !! data_template
             (OpenAiProvider.config (ReportGenerator.openai_provider self))
  = Some (JObj fields) ->
  match ReportGenerator.generate_pulls_report self env w with
  | (w1, Returned analyses) =>
      let payload :=
        JObj (dict_set fields "messages"
                (JArr (JObj [("role", JStr "system");
                             ("content",
                              grounding_prompt (ReportGenerator.config self))]
                       :: map (fun a => JObj [("role", JStr "assistant");
                                              ("content", analysis a)])
                              analyses
                       ++ [JObj [("role", JStr "user");
                                 ("content",
                                  overview_prompt
                                    (ReportGenerator.config self))]]))) in
      let post :=
        EvPost (completions_url
                  (OpenAiProvider.config (ReportGenerator.openai_provider self)))
               ("Bearer "
                +:+ OpenAiProvider.access_token
                      (ReportGenerator.openai_provider self))
               payload in
      let run := ReportGenerator.generate_report self env w in
      run = ReportGenerator.generate_summary_report self env analyses w1
      /\ (exists evs,
            trace (fst run) = trace w1 ++ post :: evs
            /\ Forall (fun ev => ev = EvSleep 1 \/ ev = post) evs)
      /\ (forall rep,
            snd run = Returned rep ->
            pulls rep = analyses
            /\ exists c,
                 expected (summary_endpoint env) "summary" = Returned c
                 /\ group_name c = "summary"
                 /\ ReportGenerator.first_choice_content (completion c)
                    = Ok (summary rep))
  | (w1, Raised e) =>
      ReportGenerator.generate_report self env w = (w1, Raised e)
  | (w1, Pending) =>
      ReportGenerator.generate_report self env w = (w1, Pending)
  end.
Proof.
  intros Ht.
  pose proof (generate_pulls_report_frame self env w fields Ht) as Ht1.
  unfold ReportGenerator.generate_report.
  destruct (ReportGenerator.generate_pulls_report self env w)
    as [w1 [analyses|e|]] eqn:Hp; cbn [fst] in Ht1.
  - cbn zeta. erewrite bind_returned by exact Hp. rewrite bind_ret_r.
    split; [done|].
    rewrite generate_summary_report_run. cbn zeta. cbn [fst snd].
    destruct (OpenAiProvider.get_completions _ _ _ _ w1) as [w2 out] eqn:Hc.
    cbn [fst snd]. split.
    + destruct (get_completions_world _ _ _ _ _ _ _ _ Ht1 Hc)
        as (_ & evs & Htr & Hevs).
      exists evs. split.
      * rewrite Htr. cbn [map app snd]. unfold post_event, request_payload.
        by rewrite summary_messages_json.
      * eapply Forall_impl; [exact Hevs|].
        intros ev [->|(item & Hitem & ->)]; [by left|right].
        apply list_elem_of_singleton in Hitem as ->. cbn [snd].
        unfold post_event, request_payload.
        by rewrite summary_messages_json.
    + intros rep Hrep. destruct out as [completions|e|]; [|done|done].
      apply get_completions_results in Hc as [Hv Hn].
      destruct completions as [|c [|c' completions]]; [done| |done].
      cbn in Hv, Hn. injection Hv as Hv. injection Hn as Hn.
      cbn [ReportGenerator.first_completion] in Hrep.
      destruct (ReportGenerator.first_choice_content (completion c))
        as [text|e] eqn:Htext; [|done].
      injection Hrep as <-. cbn [pulls summary]. split; [done|].
      exists c. done.
  - by erewrite bind_raised by exact Hp.
  - by erewrite bind_pending by exact Hp.
Qed.

Lemma summary_after_all_pulls_witness :
  heap demo_world !! 0%nat = Some (JObj demo_template)
  /\ snd (ReportGenerator.generate_report demo_generator demo_env demo_world)
     = Returned
         {| prompt_grounding := JStr "test-grounding-prompt";
            prompt_pull := JStr "test-pull-prompt";
            prompt_overview := JStr "test-overview-prompt";
            summary := JStr "mock_summary";
            pulls := demo_analyses |}
  /\ ReportGenerator.generate_report demo_generator demo_env demo_world
     = ReportGenerator.generate_summary_report demo_generator demo_env
         demo_analyses
         (fst (ReportGenerator.generate_pulls_report demo_generator demo_env
                 demo_world)).
Proof.
  split; [reflexivity|]. split; [reflexivity|].
  pose proof (summary_after_all_pulls demo_generator demo_env demo_world
                demo_template eq_refl) as H.
  exact (proj1 H).
Defined.

(* ===================================================================== *)
(** ** Further properties of the issue search and of the fetcher *)
(* ===================================================================== *)

Lemma get_pull_requests_loop_bodies url script :
  forall script' page acc w,
    map body script = map body script' ->
    GitHubProvider.get_pull_requests_loop url page acc script w
    = GitHubProvider.get_pull_requests_loop url page acc script' w.
Proof.
  induction script as [|r script IH]; intros [|r' script'] page acc w;
    try done.
  cbn [map]. intros [= Hb Hrest].
  cbn [GitHubProvider.get_pull_requests_loop].
  erewrite !bind_returned by apply emit_run.
  rewrite Hb. destruct (GitHubProvider.read_page (body r')) as [[|urls]|e];
    cbn [lift]; [done| |done].
  erewrite !bind_returned by reflexivity. cbn match. by apply IH.
Qed.

(** Property X1.  The search never looks at a status code: two runs
    whose answers have the same bodies, whatever their statuses, request
    the same pages and end the same way. *)
Theorem get_pull_requests_ignores_status
    (url : string) (script script' : list http_response) (w : world) :
  map body script = map body script' ->
  GitHubProvider.get_pull_requests url script w
  = GitHubProvider.get_pull_requests url script' w.
Proof. apply get_pull_requests_loop_bodies. Qed.

Lemma get_pull_requests_ignores_status_witness :
  map body [search_page_1; rate_limited_page]
  = map body [{| status := 500; body := body search_page_1 |};
              {| status := 200; body := body rate_limited_page |}]
  /\ GitHubProvider.get_pull_requests "https://api.mock/search"
       [search_page_1; rate_limited_page] demo_world
     = GitHubProvider.get_pull_requests "https://api.mock/search"
         [{| status := 500; body := body search_page_1 |};
          {| status := 200; body := body rate_limited_page |}] demo_world.
Proof.
  split; [reflexivity|].
  apply (get_pull_requests_ignores_status "https://api.mock/search"
           [search_page_1; rate_limited_page]
           [{| status := 500; body := body search_page_1 |};
            {| status := 200; body := body rate_limited_page |}] demo_world).
  reflexivity.
Defined.

Lemma get_pull_request_pull_url github url p :
  GitHubProvider.get_pull_request_pull github url = Ok p ->
  url = JStr (pull_url p).
Proof.
  intros H. apply get_pull_request_pull_inv in H
    as (u & pu & st & b & cu & ru & g & r
        & -> & _ & _ & _ & _ & _ & _ & _ & ->).
  done.
Qed.

(** Property X2.  When [get_pull_request_pulls] returns, every URL the
    search found is a string, there is one conversation per URL found, in
    the order of the search, each fetched from its URL and carrying it;
    the store is as it was and nothing was done but the page requests of
    the search.  When the fetch of one of the URLs found fails, the call
    raises the error of a failed fetch and no conversation is returned. *)
Theorem get_pull_request_pulls_in_search_order
    (github : string -> json) (finished_at : nat -> nat)
    (self : GitHubProvider.t) (script : list http_response) (w : world) :
  (forall w' conversations,
      GitHubProvider.get_pull_request_pulls github finished_at self script w
      = (w', Returned conversations) ->
      GitHubProvider.get_pull_requests (GitHubProvider.search_url self)
        script w
      = (w', Returned (map (fun p => JStr (pull_url p)) conversations))
      /\ Forall (fun p =>
                   GitHubProvider.get_pull_request_pull github
                     (JStr (pull_url p)) = Ok p) conversations
      /\ heap w' = heap w)
  /\ (forall w' found u e,
        GitHubProvider.get_pull_requests (GitHubProvider.search_url self)
          script w
        = (w', Returned found) ->
        u ∈ found ->
        GitHubProvider.get_pull_request_pull github u = Err e ->
        exists u' e',
          u' ∈ found
          /\ GitHubProvider.get_pull_request_pull github u' = Err e'
          /\ GitHubProvider.get_pull_request_pulls github finished_at self
               script w
             = (w', Raised e')).
Proof.
  split.
  - intros w' conversations H.
    pose proof (get_pull_request_pulls_heap github finished_at self script w)
      as Hh.
    rewrite H in Hh. cbn [fst] in Hh.
    unfold GitHubProvider.get_pull_request_pulls in H.
    apply bind_returned_inv in H as (w1 & found & Hsearch & H).
    apply bind_returned_inv in H as (w2 & pulls & Hfetch & H).
    injection H as <- <-.
    apply lift_returned_inv in Hfetch as [Hfetch ->].
    apply gather_pulls_returned in Hfetch.
    apply result_map_forall2 in Hfetch.
    assert (found = map (fun p => JStr (pull_url p)) pulls
            /\ Forall (fun p =>
                         GitHubProvider.get_pull_request_pull github
                           (JStr (pull_url p)) = Ok p) pulls)
      as [-> Hall].
    { clear -Hfetch.
      induction Hfetch as [|u p found pulls Hp _ [IH1 IH2]]; [done|].
      pose proof (get_pull_request_pull_url _ _ _ Hp) as ->.
      cbn [map]. rewrite <- IH1. split; [done|]. by constructor. }
    done.
  - intros w' found u e Hsearch Hin Hu.
    destruct (gather_pulls_fails finished_at _ _ _ _ Hin Hu) as [e' Hfetch].
    destruct (gather_pulls_raised _ _ _ _ Hfetch) as (u' & Hin' & Hu').
    exists u', e'. split; [done|]. split; [done|].
    unfold GitHubProvider.get_pull_request_pulls.
    erewrite bind_returned by exact Hsearch.
    rewrite Hfetch. cbn [lift]. by erewrite bind_raised by reflexivity.
Qed.

Lemma get_pull_request_pulls_in_search_order_witness :
  map pull_url
    [{| pull_url := "https://api.mock/pulls/1";
        messages := demo_conversation |};
     {| pull_url := "https://api.mock/pulls/2"; messages := [] |}]
  = ["https://api.mock/pulls/1"; "https://api.mock/pulls/2"]
  /\ GitHubProvider.get_pull_requests
       (GitHubProvider.search_url (ReportGenerator.github_provider
                                     demo_generator))
       (search_script demo_env) demo_world
     = (fst (GitHubProvider.get_pull_request_pulls demo_github
               (fetch_times demo_env)
               (ReportGenerator.github_provider demo_generator)
               (search_script demo_env) demo_world),
        Returned [JStr "https://api.mock/pulls/1";
                  JStr "https://api.mock/pulls/2"]).
Proof.
  split; [reflexivity|].
  exact (proj1
    (proj1 (get_pull_request_pulls_in_search_order demo_github
              (fetch_times demo_env)
              (ReportGenerator.github_provider demo_generator)
              (search_script demo_env) demo_world)
       _
       [{| pull_url := "https://api.mock/pulls/1";
           messages := demo_conversation |};
        {| pull_url := "https://api.mock/pulls/2"; messages := [] |}]
       eq_refl)).
Defined.

Lemma get_comments_loop_malformed student good cs bad rest e :
  Forall2 is_comment good cs ->
  GitHubProvider.comment_message student bad = Err e ->
  forall acc,
    GitHubProvider.get_comments_loop student (good ++ bad :: rest) acc = Err e.
Proof.
  intros Hgood Hbad. induction Hgood as [|j c good cs Hc _ IH]; intros acc.
  - cbn [app GitHubProvider.get_comments_loop]. by rewrite Hbad.
  - cbn [app GitHubProvider.get_comments_loop].
    rewrite (comment_message_run _ _ _ Hc). cbn [result_bind]. apply IH.
Qed.

(** Property X3.  One malformed comment makes the whole stream fail.  A
    comment is malformed when its [user], the [login] of its user or its
    [body] cannot be read; the author is read first, so a comment without
    author raises even when it has no body and would have been skipped.
    The first malformed comment of the document decides the error, and
    the messages of the comments before it are not returned. *)
Theorem get_comments_malformed_comment
    (github : string -> json) (u : string) (student : json)
    (good : list json) (bad : json) (rest : list json)
    (cs : list comment) (e : py_error) :
  github u = JArr (good ++ bad :: rest) ->
  Forall2 is_comment good cs ->
  py_getitem bad "user" = Err e
  \/ (exists usr, py_getitem bad "user" = Ok usr
                  /\ py_getitem usr "login" = Err e)
  \/ (exists usr a, py_getitem bad "user" = Ok usr
                    /\ py_getitem usr "login" = Ok a
                    /\ py_getitem bad "body" = Err e) ->
  GitHubProvider.get_comments github (JStr u) student = Err e.
Proof.
  intros Hu Hgood Hbad. unfold GitHubProvider.get_comments.
  cbn [GitHubProvider.session_get result_bind]. rewrite Hu.
  cbn [py_iter result_bind].
  apply (get_comments_loop_malformed _ _ _ _ _ _ Hgood).
  unfold GitHubProvider.comment_message.
  destruct Hbad as [H|[(usr & H1 & H2)|(usr & a & H1 & H2 & H3)]].
  - by rewrite H.
  - rewrite H1. cbn [result_bind]. by rewrite H2.
  - rewrite H1. cbn [result_bind]. rewrite H2. cbn [result_bind].
    by rewrite H3.
Qed.

Lemma get_comments_malformed_comment_witness :
  GitHubProvider.get_comments
    (fun _ => JArr [JObj [("user", JObj [("login", JStr "mock_login")]);
                          ("body", JStr "mock_comment")];
                    JObj [("user", JNull); ("body", JStr "")]])
    (JStr "mock_url") (JStr "mock_student_login")
  = Err TypeError.
Proof.
  apply (get_comments_malformed_comment _ "mock_url" _
           [JObj [("user", JObj [("login", JStr "mock_login")]);
                  ("body", JStr "mock_comment")]]
           (JObj [("user", JNull); ("body", JStr "")]) []
           [{| author := JStr "mock_login"; text := JStr "mock_comment" |}]
           TypeError eq_refl).
  - constructor; [|constructor]. eexists. repeat split; reflexivity.
  - right. left. exists JNull. split; reflexivity.
Defined.

(** Property X4.  [get_comments] needs a list of comments.  It returns
    only when the URL is a string and the document behind it is a list,
    or is an empty dictionary or an empty string, which give no message.
    On a dictionary that is not empty, such as the error object the API
    sends instead of a list, it raises [TypeError]: the error object is
    never taken for an empty list of comments. *)
Theorem get_comments_needs_a_list :
  (forall github data_url student ms,
      GitHubProvider.get_comments github data_url student = Ok ms ->
      exists u,
        data_url = JStr u
        /\ ((exists items, github u = JArr items)
            \/ ((github u = JObj [] \/ github u = JStr "") /\ ms = [])))
  /\ (forall github u student k v fields,
        github u = JObj ((k, v) :: fields) ->
        GitHubProvider.get_comments github (JStr u) student = Err TypeError).
Proof.
  split.
  - intros github data_url student ms H.
    apply get_comments_complete in H as (u & items & cs & -> & Hi & Hcs & ->).
    exists u. split; [done|].
    destruct (github u) as [| | |s|xs|fs] eqn:Hu; try done.
    + right. destruct s as [|c s]; [|exfalso].
      * cbn in Hi. injection Hi as <-.
        apply Forall2_nil_inv_l in Hcs as ->. by split; [right|].
      * cbn in Hi. injection Hi as <-.
        apply Forall2_cons_inv_l in Hcs as (c0 & cs' & (usr & H1 & _) & _ & _).
        done.
    + left. by exists xs.
    + right. destruct fs as [|[k v] fs]; [|exfalso].
      * cbn in Hi. injection Hi as <-.
        apply Forall2_nil_inv_l in Hcs as ->. by split; [left|].
      * cbn in Hi. injection Hi as <-.
        apply Forall2_cons_inv_l in Hcs as (c0 & cs' & (usr & H1 & _) & _ & _).
        done.
  - intros github u student k v fields Hu.
    unfold GitHubProvider.get_comments.
    cbn [GitHubProvider.session_get result_bind]. by rewrite Hu.
Qed.

Lemma get_comments_needs_a_list_witness :
  GitHubProvider.get_comments
    (fun _ => JObj [("message", JStr "Not Found")])
    (JStr "mock_url") (JStr "mock_student_login")
  = Err TypeError.
Proof.
  exact (proj2 get_comments_needs_a_list
           (fun _ => JObj [("message", JStr "Not Found")])
           "mock_url" (JStr "mock_student_login")
           "message" (JStr "Not Found") [] eq_refl).
Defined.

(* ===================================================================== *)
(** ** Further properties of the fan-out *)
(* ===================================================================== *)

Lemma resume_block self i tasks w w' out :
  OpenAiProvider.resume self i tasks w = (w', out) ->
  trace w' = trace w
  \/ exists t d,
       t ∈ tasks /\ task_data t = Some d
       /\ trace w'
          = trace w
            ++ [EvSleep 1; post_event self (default JNull (heap w !! d))].
Proof.
  rewrite resume_run.
  destruct (tasks !! i) as [[g d [|r script']|r]|] eqn:Hi;
    try (intros [= <- <-]; by left).
  destruct (read_answer r) as [b| |e];
    [intros [= <- <-]; by left| |intros [= <- <-]; by left].
  intros [= <- <-]. right.
  exists (OpenAiProvider.Awaiting g d (r :: script')), d.
  split; [|done]. apply list_elem_of_lookup. eauto.
Qed.

Lemma gather_blocks self arrivals :
  forall tasks w w' out,
    OpenAiProvider.gather self arrivals tasks w = (w', out) ->
    exists retries,
      trace w' = trace w ++ retry_blocks self retries
      /\ Forall (fun p => exists t d,
                   t ∈ tasks /\ task_data t = Some d
                   /\ p = default JNull (heap w !! d)) retries
      /\ (length retries <= length arrivals)%nat.
Proof.
  assert (forall w : world,
             exists retries : list json,
               trace w = trace w ++ retry_blocks self retries
               /\ Forall (fun p : json => False) retries
               /\ (length retries <= 0)%nat) as Hnone.
  { intros w. exists []. cbn. by rewrite app_nil_r. }
  induction arrivals as [|i arrivals IH]; intros tasks w w' out.
  - cbn. destruct (OpenAiProvider.results_of tasks);
      intros [= <- <-]; exists []; cbn; by rewrite app_nil_r.
  - cbn [OpenAiProvider.gather].
    destruct (OpenAiProvider.results_of tasks).
    { intros [= <- <-]. exists []. cbn. rewrite app_nil_r.
      split; [done|]. split; [done|lia]. }
    unfold bind.
    destruct (OpenAiProvider.resume self i tasks w) as [w1 o1] eqn:H1.
    pose proof (resume_block _ _ _ _ _ _ H1) as Hblock.
    pose proof (resume_world _ _ _ _ _ _ H1) as (Hh & _ & Hsub).
    assert (exists first,
               trace w1 = trace w ++ retry_blocks self first
               /\ Forall (fun p => exists t d,
                            t ∈ tasks /\ task_data t = Some d
                            /\ p = default JNull (heap w !! d)) first
               /\ (length first <= 1)%nat) as (first & Htr1 & Hf1 & Hl1).
    { destruct Hblock as [Hsame|(t & d & Hin & Hd & Htr)].
      - exists []. cbn. rewrite app_nil_r. split; [done|]. split; [done|lia].
      - exists [default JNull (heap w !! d)]. cbn. split; [done|].
        split; [|lia]. constructor; [|done]. by exists t, d. }
    destruct o1 as [tasks1|e|].
    + intros H2. apply IH in H2 as (more & Htr2 & Hf2 & Hl2).
      exists (first ++ more). split; [|split].
      * rewrite Htr2, Htr1. unfold retry_blocks.
        by rewrite map_app, concat_app, app_assoc.
      * apply Forall_app. split; [done|].
        eapply Forall_impl; [exact Hf2|].
        intros p (t1 & d & Hin & Hd & ->).
        destruct (Hsub tasks1 eq_refl t1 d Hin Hd) as (t & ? & ?).
        exists t, d. by rewrite Hh.
      * rewrite length_app. cbn [length]. lia.
    + intros [= <- <-]. exists first. split; [done|]. split; [done|].
      cbn [length]. lia.
    + intros [= <- <-]. exists first. split; [done|]. split; [done|].
      cbn [length]. lia.
Qed.

(** Property X5.  With a dictionary for template, the actions of a
    fan-out are: one post per group, in the order of the groups, each with
    the template where [messages] is replaced by the messages of the
    group; then, for every retry, a sleep of one second followed at once
    by the post of one of these payloads again.  So the fan-out posts as
    many requests as it has groups and retries, and it retries at most
    once per answer that arrives. *)
Theorem get_completions_actions
    (self : OpenAiProvider.t) (endpoint : string -> list client_response)
    (arrivals : list nat) (groups : list (string * list message))
    (w w' : world) (fields : list (string * json))
    (out : outcome (list completion_result)) :
  heap w !! data_template (OpenAiProvider.config self) = Some (JObj fields) ->
  OpenAiProvider.get_completions self endpoint arrivals groups w = (w', out) ->
  exists retries,
    trace w'
    = trace w
      ++ map (fun item =>
                post_event self (request_payload fields (snd item))) groups
      ++ retry_blocks self retries
    /\ Forall (fun p => exists item,
                 item ∈ groups /\ p = request_payload fields (snd item))
              retries
    /\ (length retries <= length arrivals)%nat.
Proof.
  intros Ht. unfold OpenAiProvider.get_completions.
  erewrite bind_returned by (by apply start_tasks_run).
  intros H. apply gather_blocks in H as (retries & Htr & Hf & Hl).
  cbn [heap trace] in *. exists retries.
  split; [by rewrite Htr, app_assoc|]. split; [|done].
  eapply Forall_impl; [exact Hf|].
  intros p (t & d & Hin & Hd & ->).
  apply list_elem_of_lookup in Hin as [k Hk].
  apply initial_tasks_lookup in Hk as (item & Hitem & ->).
  injection Hd as <-. exists item. split.
  - apply list_elem_of_lookup. eauto.
  - rewrite lookup_app_r by lia.
    replace (length (heap w) + k - length (heap w))%nat with k by lia.
    by rewrite list_lookup_fmap, Hitem.
Qed.

Lemma get_completions_actions_witness :
  heap demo_world !! 0%nat = Some (JObj demo_template)
  /\ exists retries,
       trace (fst (OpenAiProvider.get_completions demo_openai demo_endpoint
                     [1; 0; 0]%nat demo_groups demo_world))
       = trace demo_world
         ++ map (fun item =>
                   post_event demo_openai
                     (request_payload demo_template (snd item))) demo_groups
         ++ retry_blocks demo_openai retries
       /\ Forall (fun p => exists item,
                    item ∈ demo_groups
                    /\ p = request_payload demo_template (snd item)) retries
       /\ (length retries <= 3)%nat.
Proof.
  split; [reflexivity|].
  exact (get_completions_actions demo_openai demo_endpoint [1; 0; 0]%nat
           demo_groups demo_world _ demo_template _ eq_refl eq_refl).
Defined.

(** Property X6.  With a dictionary for template, a fan-out raises only
    what an answer makes one of its tasks raise: some group got an answer
    that does not decode, and the error is the exception of the decoder;
    or an answer that decodes with a status other than 200 and 500, and
    the error is the [RuntimeError] that names this status.  With a
    template that is not a dictionary, a fan-out of at least one group
    raises [TypeError] and posts nothing. *)
Theorem get_completions_raises_unexpected_status
    (self : OpenAiProvider.t) (endpoint : string -> list client_response)
    (arrivals : list nat) (w : world) :
  (forall groups fields w' e,
      heap w !! data_template (OpenAiProvider.config self)
      = Some (JObj fields) ->
      OpenAiProvider.get_completions self endpoint arrivals groups w
      = (w', Raised e) ->
      exists item r,
        item ∈ groups /\ r ∈ endpoint (fst item)
        /\ (response_body r = Err e
            \/ exists b,
                 response_body r = Ok b
                 /\ response_status r <> 200 /\ response_status r <> 500
                 /\ e = RuntimeError
                          ("unexpected status code: "
                           +:+ pretty (response_status r))))
  /\ (forall item groups template,
        heap w !! data_template (OpenAiProvider.config self)
        = Some template ->
        (forall fields, template <> JObj fields) ->
        let run :=
          OpenAiProvider.get_completions self endpoint arrivals
            (item :: groups) w in
        snd run = Raised TypeError /\ trace (fst run) = trace w).
Proof.
  split.
  - intros groups fields w' e Ht. unfold OpenAiProvider.get_completions.
    erewrite bind_returned by (by apply start_tasks_run).
    intros H. apply gather_raised in H.
    rewrite initial_tasks_verdicts in H.
    apply list_elem_of_fmap in H as (item & He & Hin).
    unfold expected in He.
    destruct (drop _ (endpoint (fst item))) as [|r rest] eqn:Hd; [done|].
    apply leading_overloads_stop in Hd as [_ Hr].
    cbn [verdict] in He.
    destruct (read_answer r) as [b| |e'] eqn:Hread; try done.
    injection He as ->. exists item, r.
    split; [done|]. split; [done|]. by apply read_answer_failure_inv.
  - intros item groups template Ht Hnd.
    assert (OpenAiProvider.get_completions self endpoint arrivals
              (item :: groups) w
            = (allocated w template, Raised TypeError)) as ->; [|done].
    unfold OpenAiProvider.get_completions. cbn [prog_map].
    unfold OpenAiProvider.start_task.
    erewrite bind_raised; [done|].
    erewrite bind_raised; [done|].
    erewrite bind_raised; [done|].
    by apply build_request_data_raises.
Qed.

Lemma get_completions_raises_unexpected_status_witness :
  exists item r,
    item ∈ demo_groups
    /\ r ∈ (fun _ : string => [gateway_error]) (fst item)
    /\ (response_body r = Err ContentTypeError
        \/ exists b,
             response_body r = Ok b
             /\ response_status r <> 200 /\ response_status r <> 500
             /\ ContentTypeError
                = RuntimeError
                    ("unexpected status code: "
                     +:+ pretty (response_status r))).
Proof.
  exact (proj1 (get_completions_raises_unexpected_status demo_openai
                  (fun _ => [gateway_error]) [0]%nat demo_world)
           demo_groups demo_template _ ContentTypeError eq_refl eq_refl).
Defined.

Lemma get_completions_single_witness :
  (S (leading_overloads (demo_endpoint "mock_url_a")) <= 2)%nat
  /\ OpenAiProvider.get_completions demo_openai demo_endpoint
       (replicate 2 O) [("mock_url_a", [])] demo_world
     = (fst (OpenAiProvider.get_completion demo_openai "mock_url_a" []
               (demo_endpoint "mock_url_a") demo_world),
        outcome_map (fun r => [r])
          (snd (OpenAiProvider.get_completion demo_openai "mock_url_a" []
                  (demo_endpoint "mock_url_a") demo_world))).
Proof.
  assert ((S (leading_overloads (demo_endpoint "mock_url_a")) <= 2)%nat)
    as Hn by (cbn; lia).
  split; [exact Hn|].
  exact (get_completions_single demo_openai demo_endpoint 2 "mock_url_a" []
           demo_world Hn).
Defined.

(* ===================================================================== *)
(** ** Further properties of the report *)
(* ===================================================================== *)

Lemma generate_pulls_report_store self env w fields :
  heap w !! data_template
             (OpenAiProvider.config (ReportGenerator.openai_provider self))
  = Some (JObj fields) ->
  exists mss,
    heap (fst (ReportGenerator.generate_pulls_report self env w))
    = heap w ++ map (request_payload fields) mss.
Proof.
  intros Ht. unfold ReportGenerator.generate_pulls_report.
  pose proof (get_pull_request_pulls_heap (github env) (fetch_times env)
                (ReportGenerator.github_provider self) (search_script env) w)
    as Hh.
  unfold bind at 1.
  destruct (GitHubProvider.get_pull_request_pulls _ _ _ _ w)
    as [w1 [conversations|e|]]; cbn [fst] in Hh;
    [|by exists []; cbn; rewrite Hh, app_nil_r
     |by exists []; cbn; rewrite Hh, app_nil_r].
  rewrite <- Hh in Ht.
  unfold bind at 1.
  destruct (OpenAiProvider.get_completions _ _ _ _ w1) as [w2 out] eqn:Hc.
  apply (get_completions_world _ _ _ _ _ _ _ _ Ht) in Hc as [Hh2 _].
  exists (map snd (ReportGenerator.build_message_groups self conversations)).
  rewrite map_map, <- Hh, <- Hh2.
  destruct out as [completions|e|]; [|done|done].
  by destruct (result_map ReportGenerator.project_analysis completions).
Qed.

(** Property X9.  With a dictionary for template, a whole run leaves
    every object of the store as it was, the template among them, and
    adds to the store nothing but payloads of completion requests: copies
    of the template in which [messages] is replaced. *)
Theorem generate_report_store
    (self : ReportGenerator.t) (env : environment) (w : world)
    (fields : list (string * json)) :
  heap w !! data_template
             (OpenAiProvider.config (ReportGenerator.openai_provider self))
  = Some (JObj fields) ->
  exists mss,
    heap (fst (ReportGenerator.generate_report self env w))
    = heap w ++ map (request_payload fields) mss.
Proof.
  intros Ht. unfold ReportGenerator.generate_report.
  destruct (generate_pulls_report_store self env w fields Ht) as [mss Hh].
  unfold bind at 1.
  destruct (ReportGenerator.generate_pulls_report self env w)
    as [w1 [analyses|e|]]; cbn [fst] in Hh;
    [|by exists mss|by exists mss].
  assert (heap w1 !! data_template
            (OpenAiProvider.config (ReportGenerator.openai_provider self))
          = Some (JObj fields)) as Ht1.
  { rewrite Hh. by apply lookup_app_l_Some. }
  rewrite bind_ret_r, generate_summary_report_run. cbn [fst].
  destruct (OpenAiProvider.get_completions _ _ _ _ w1) as [w2 out] eqn:Hc.
  apply (get_completions_world _ _ _ _ _ _ _ _ Ht1) in Hc as [Hh2 _].
  exists (mss ++ [ReportGenerator.summary_messages self analyses]).
  cbn [fst]. by rewrite Hh2, Hh, map_app, app_assoc.
Qed.

Lemma generate_report_store_witness :
  heap demo_world !! 0%nat = Some (JObj demo_template)
  /\ exists mss,
       heap (fst (ReportGenerator.generate_report demo_generator demo_env
                    demo_world))
       = heap demo_world ++ map (request_payload demo_template) mss.
Proof.
  split; [reflexivity|].
  exact (generate_report_store demo_generator demo_env demo_world
           demo_template eq_refl).
Defined.

Lemma get_completions_nil self endpoint arrivals w :
  OpenAiProvider.get_completions self endpoint arrivals [] w
  = (w, Returned []).
Proof. by destruct arrivals. Qed.

(** Property X10.  When the first page of the search ends it, phase 1
    requests that page and nothing else, and returns no analysis; the run
    goes on with the summary request, whose messages are the grounding
    prompt and the overview prompt alone. *)
Theorem generate_report_empty_search
    (self : ReportGenerator.t) (env : environment) (w : world)
    (stop : http_response) (rest : list http_response) :
  search_script env = stop :: rest ->
  last_page stop ->
  let w1 :=
    emitted w [EvGet (GitHubProvider.search_url
                        (ReportGenerator.github_provider self)) 1] in
  ReportGenerator.generate_pulls_report self env w = (w1, Returned [])
  /\ ReportGenerator.generate_report self env w
     = ReportGenerator.generate_summary_report self env [] w1
  /\ forall fields,
       heap w !! data_template
                  (OpenAiProvider.config
                     (ReportGenerator.openai_provider self))
       = Some (JObj fields) ->
       exists evs,
         let post :=
           post_event (ReportGenerator.openai_provider self)
             (request_payload fields
                [{| msg_role := system;
                    content :=
                      grounding_prompt (ReportGenerator.config self) |};
                 {| msg_role := user;
                    content :=
                      overview_prompt (ReportGenerator.config self) |}]) in
         trace (fst (ReportGenerator.generate_report self env w))
         = trace w1 ++ post :: evs
         /\ Forall (fun ev => ev = EvSleep 1 \/ ev = post) evs.
Proof.
  intros Hs Hstop w1.
  assert (ReportGenerator.generate_pulls_report self env w
          = (w1, Returned [])) as H1.
  { unfold ReportGenerator.generate_pulls_report,
      GitHubProvider.get_pull_request_pulls, GitHubProvider.get_pull_requests.
    rewrite Hs. cbn [GitHubProvider.get_pull_requests_loop].
    erewrite bind_returned; [|].
    2:{ erewrite bind_returned; [|].
        2:{ erewrite bind_returned by apply emit_run.
            rewrite (read_last_page _ Hstop). reflexivity. }
        reflexivity. }
    cbn [ReportGenerator.build_message_groups fold_left].
    erewrite bind_returned by apply get_completions_nil.
    reflexivity. }
  assert (ReportGenerator.generate_report self env w
          = ReportGenerator.generate_summary_report self env [] w1) as H2.
  { unfold ReportGenerator.generate_report.
    erewrite bind_returned by exact H1. by rewrite bind_ret_r. }
  split; [done|]. split; [done|].
  intros fields Ht. rewrite H2, generate_summary_report_run. cbn [fst].
  change (heap w) with (heap w1) in Ht.
  destruct (OpenAiProvider.get_completions _ _ _ _ w1) as [w2 out] eqn:Hc.
  apply (get_completions_world _ _ _ _ _ _ _ _ Ht) in Hc
    as [_ (evs & Htr & Hevs)].
  exists evs. cbn [fst map snd app] in *. split; [done|].
  eapply Forall_impl; [exact Hevs|].
  intros ev [->|(item & Hin & ->)]; [by left|right].
  apply list_elem_of_singleton in Hin as ->. done.
Qed.

Lemma generate_report_empty_search_witness :
  search_script
    {| search_script := [test_page]; github := demo_github;
       fetch_times := fun i => i;
       pulls_endpoint := demo_endpoint; pulls_arrivals := [];
       summary_endpoint := demo_endpoint; summary_arrivals := [O] |}
  = [test_page]
  /\ last_page test_page
  /\ ReportGenerator.generate_pulls_report demo_generator
       {| search_script := [test_page]; github := demo_github;
          fetch_times := fun i => i;
          pulls_endpoint := demo_endpoint; pulls_arrivals := [];
          summary_endpoint := demo_endpoint; summary_arrivals := [O] |}
       demo_world
     = (emitted demo_world
          [EvGet (GitHubProvider.search_url
                    (ReportGenerator.github_provider demo_generator)) 1],
        Returned []).
Proof.
  assert (last_page test_page) as Hstop by (by left).
  split; [reflexivity|]. split; [exact Hstop|].
  exact (proj1 (generate_report_empty_search demo_generator
                  {| search_script := [test_page]; github := demo_github;
                     fetch_times := fun i => i;
                     pulls_endpoint := demo_endpoint; pulls_arrivals := [];
                     summary_endpoint := demo_endpoint;
                     summary_arrivals := [O] |}
                  demo_world test_page [] eq_refl Hstop)).
Defined.

Lemma first_occurrences_elem l : forall u, u ∈ first_occurrences l <-> u ∈ l.
Proof.
  induction l as [|x l IH]; intros u; [done|].
  cbn [first_occurrences]. rewrite !elem_of_cons, list_elem_of_filter, IH.
  split.
  - intros [?|[? ?]]; auto.
  - intros [?|?]; [by left|].
    destruct (decide (u = x)); [by left|by right].
Qed.

Lemma first_occurrences_snoc l x :
  first_occurrences (l ++ [x])
  = if decide (x ∈ l) then first_occurrences l
    else first_occurrences l ++ [x].
Proof.
  induction l as [|y l IH].
  - cbn. by rewrite decide_False by apply not_elem_of_nil.
  - cbn [app first_occurrences]. rewrite IH.
    destruct (decide (x = y)) as [->|Hne].
    + rewrite (decide_True (P := y ∈ y :: l)) by apply list_elem_of_here.
      destruct (decide (y ∈ l)); [done|].
      rewrite filter_app, filter_cons_False, filter_nil, app_nil_r; [done|].
      by intros H; apply H.
    + destruct (decide (x ∈ l)) as [Hin|Hout].
      * by rewrite decide_True by (by apply list_elem_of_further).
      * rewrite decide_False by (by rewrite elem_of_cons; intros [?|?]).
        rewrite filter_app, filter_cons_True, filter_nil by done. done.
Qed.

Lemma build_message_groups_keys self pulls :
  dict_keys (ReportGenerator.build_message_groups self pulls)
  = first_occurrences (map pull_url pulls).
Proof.
  induction pulls as [|p pulls IH] using rev_ind; [done|].
  rewrite build_message_groups_snoc, dict_keys_set, map_app.
  cbn [map]. rewrite first_occurrences_snoc, IH.
  destruct (decide (pull_url p ∈ first_occurrences (map pull_url pulls)))
    as [Hin|Hout].
  - by rewrite decide_True by (by apply first_occurrences_elem).
  - by rewrite decide_False by (by rewrite <- first_occurrences_elem).
Qed.

(** Property X11.  The analyses phase 1 returns are in the order in
    which the URLs of the fetched conversations occur for the first time:
    a URL that comes back keeps the place of its first occurrence. *)
Theorem pulls_report_order
    (self : ReportGenerator.t) (env : environment) (w w' : world)
    (analyses : list pull_analysis) :
  ReportGenerator.generate_pulls_report self env w = (w', Returned analyses) ->
  exists conversations w1,
    GitHubProvider.get_pull_request_pulls (github env)
      (fetch_times env)
      (ReportGenerator.github_provider self)
      (search_script env) w
    = (w1, Returned conversations)
    /\ map url analyses = first_occurrences (map pull_url conversations).
Proof.
  unfold ReportGenerator.generate_pulls_report. intros H.
  apply bind_returned_inv in H as (w1 & conversations & Hp & H).
  apply bind_returned_inv in H as (w2 & completions & Hc & H).
  apply bind_returned_inv in H as (w3 & projected & Hl & H).
  injection H as <- <-.
  apply lift_returned_inv in Hl as [Hl ->].
  exists conversations, w1. split; [done|].
  apply get_completions_results in Hc as [_ Hnames].
  rewrite <- (build_message_groups_keys self), <- Hnames.
  apply result_map_forall2 in Hl.
  clear -Hl. induction Hl as [|c a cs al Hca _ IH]; [done|].
  cbn [map]. rewrite IH. f_equal.
  unfold ReportGenerator.project_analysis in Hca.
  destruct (ReportGenerator.first_choice_content (completion c)); [|done].
  cbn in Hca. by injection Hca as <-.
Qed.

Lemma pulls_report_order_witness :
  exists conversations w1,
    GitHubProvider.get_pull_request_pulls (github repeating_env)
      (fetch_times repeating_env)
      (ReportGenerator.github_provider demo_generator)
      (search_script repeating_env) demo_world
    = (w1, Returned conversations)
    /\ map url
         (match snd (ReportGenerator.generate_pulls_report demo_generator
                       repeating_env demo_world) with
          | Returned analyses => analyses
          | _ => []
          end)
       = first_occurrences (map pull_url conversations).
Proof.
  exact (pulls_report_order demo_generator repeating_env demo_world _ _
           eq_refl).
Defined.

(** Property X12.  The text of a completion is read at
    [completion['choices'][0]['message']['content']]: the reading succeeds
    exactly on a dictionary whose [choices] is a list that starts with a
    dictionary whose [message] is a dictionary with a [content], whatever
    the content is.  Without [choices] it raises [KeyError], with an empty
    list of choices [IndexError]. *)
Theorem first_choice_content_shape (completion : json) :
  (forall text,
      ReportGenerator.first_choice_content completion = Ok text
      <-> exists fields choice rest choice_message,
            completion = JObj fields
            /\ dict_get fields "choices" = Some (JArr (JObj choice :: rest))
            /\ dict_get choice "message" = Some (JObj choice_message)
            /\ dict_get choice_message "content" = Some text)
  /\ (forall fields,
        completion = JObj fields ->
        dict_get fields "choices" = None ->
        ReportGenerator.first_choice_content completion
        = Err (KeyError (JStr "choices")))
  /\ (forall fields,
        completion = JObj fields ->
        dict_get fields "choices" = Some (JArr []) ->
        ReportGenerator.first_choice_content completion = Err IndexError).
Proof.
  unfold ReportGenerator.first_choice_content.
  split; [|split].
  - intros text. split.
    + destruct completion as [| | | | |fields]; try done.
      cbn [py_getitem result_bind].
      destruct (dict_get fields "choices") as [choices|] eqn:Hc; [|done].
      cbn [result_bind].
      destruct choices as [| | |[|c s]|[|first rest]|fs]; try done.
      cbn [py_getitem_0 result_bind].
      destruct first as [| | | | |choice]; try done.
      cbn [py_getitem result_bind].
      destruct (dict_get choice "message") as [m|] eqn:Hm; [|done].
      cbn [result_bind].
      destruct m as [| | | | |choice_message]; try done.
      cbn [py_getitem].
      destruct (dict_get choice_message "content") as [x|] eqn:Hx; [|done].
      intros [= <-]. by exists fields, choice, rest, choice_message.
    + intros (fields & choice & rest & choice_message & -> & Hc & Hm & Hx).
      cbn [py_getitem result_bind]. rewrite Hc.
      cbn [py_getitem_0 py_getitem result_bind]. rewrite Hm.
      cbn [py_getitem result_bind]. by rewrite Hx.
  - intros fields -> Hc. cbn [py_getitem result_bind]. by rewrite Hc.
  - intros fields -> Hc. cbn [py_getitem result_bind]. by rewrite Hc.
Qed.

Lemma result_map_first_error {A B} (f : A -> result B) l e :
  result_map f l = Err e ->
  exists good ys bad rest,
    l = good ++ bad :: rest
    /\ Forall2 (fun x y => f x = Ok y) good ys
    /\ f bad = Err e.
Proof.
  induction l as [|x l IH]; [done|].
  cbn [result_map]. destruct (f x) as [y|e'] eqn:Hx.
  - destruct (result_map f l) as [ys|e'] eqn:Hl; [done|].
    intros [= ->].
    destruct (IH eq_refl) as (good & ys & bad & rest & -> & Hg & Hb).
    exists (x :: good), (y :: ys), bad, rest.
    split; [done|]. split; [by constructor|done].
  - intros [= ->]. exists [], [], x, l. split; [done|]. split; [constructor|done].
Qed.

(** Property X13.  When the completions of phase 1 have all come back
    and the text of one of them cannot be read, the run raises the error
    of the first such completion in the order of the groups, whatever the
    texts of the others, and stops there: the summary request is not
    made. *)
Theorem generate_report_unreadable_completion
    (self : ReportGenerator.t) (env : environment) (w w1 w2 : world)
    (conversations : list pull) (completions : list completion_result)
    (e : py_error) :
  GitHubProvider.get_pull_request_pulls (github env)
    (fetch_times env)
    (ReportGenerator.github_provider self)
    (search_script env) w
  = (w1, Returned conversations) ->
  OpenAiProvider.get_completions (ReportGenerator.openai_provider self)
    (pulls_endpoint env) (pulls_arrivals env)
    (ReportGenerator.build_message_groups self conversations) w1
  = (w2, Returned completions) ->
  result_map ReportGenerator.project_analysis completions = Err e ->
  ReportGenerator.generate_report self env w = (w2, Raised e)
  /\ exists good bad rest,
       completions = good ++ bad :: rest
       /\ Forall (fun c =>
                    exists text,
                      ReportGenerator.first_choice_content (completion c)
                      = Ok text) good
       /\ ReportGenerator.first_choice_content (completion bad) = Err e.
Proof.
  intros Hp Hc He. split.
  - unfold ReportGenerator.generate_report,
      ReportGenerator.generate_pulls_report.
    erewrite bind_raised; [done|].
    erewrite bind_returned by exact Hp.
    erewrite bind_returned by exact Hc.
    erewrite bind_raised; [done|]. by rewrite He.
  - apply result_map_first_error in He
      as (good & ys & bad & rest & -> & Hg & Hb).
    exists good, bad, rest. split; [done|]. split.
    + clear -Hg. induction Hg as [|c a cs al Hca _ IH]; [done|].
      apply Forall_cons. split; [|done].
      unfold ReportGenerator.project_analysis in Hca.
      destruct (ReportGenerator.first_choice_content (completion c)) as [x|];
        [by exists x|done].
    + unfold ReportGenerator.project_analysis in Hb.
      destruct (ReportGenerator.first_choice_content (completion bad));
        [done|]. cbn in Hb. by injection Hb as ->.
Qed.

Lemma generate_report_unreadable_completion_witness :
  snd (ReportGenerator.generate_report demo_generator unreadable_env
         demo_world)
  = Raised (KeyError (JStr "choices")).
Proof.
  pose proof (generate_report_unreadable_completion demo_generator
                unreadable_env demo_world _ _ _ _ (KeyError (JStr "choices"))
                eq_refl eq_refl eq_refl) as [H _].
  by rewrite H.
Defined.

(* ===================================================================== *)
(** ** The manifest *)
(* ===================================================================== *)

Lemma github_section_read m :
  match (section <-? py_getitem m "github";
         config.GitHubConfiguration_init section)%result with
  | Ok g =>
      result_map (manifest_value m "github") github_keys
      = Ok (github_values g)
  | Err e => result_map (manifest_value m "github") github_keys = Err e
  end.
Proof.
  unfold config.GitHubConfiguration_init, manifest_value, github_keys.
  cbn [result_map].
  destruct (py_getitem m "github") as [section|e]; cbn [result_bind]; [|done].
  read_keys section. done.
Qed.

Lemma openai_section_read m :
  match (section <-? py_getitem m "openai";
         config.OpenAiConfiguration_init section)%result with
  | Ok o =>
      result_map (manifest_value m "openai") openai_keys
      = Ok (openai_values o)
  | Err e => result_map (manifest_value m "openai") openai_keys = Err e
  end.
Proof.
  unfold config.OpenAiConfiguration_init, manifest_value, openai_keys.
  cbn [result_map].
  destruct (py_getitem m "openai") as [section|e]; cbn [result_bind]; [|done].
  read_keys section. done.
Qed.

Lemma report_section_read m :
  match (section <-? py_getitem m "report";
         config.ReportConfiguration_init section)%result with
  | Ok r =>
      result_map (manifest_value m "report") report_keys
      = Ok (report_values r)
  | Err e => result_map (manifest_value m "report") report_keys = Err e
  end.
Proof.
  unfold config.ReportConfiguration_init, manifest_value, report_keys.
  cbn [result_map].
  destruct (py_getitem m "report") as [section|e]; cbn [result_bind]; [|done].
  read_keys section. done.
Qed.

Lemma Ok_inj {A} (a b : A) : Ok a = Ok b -> a = b.
Proof. by intros [= ->]. Qed.

Lemma github_values_inj g g' : github_values g = github_values g' -> g = g'.
Proof. destruct g, g'. by intros [= -> -> -> -> ->]. Qed.

Lemma openai_values_inj o o' : openai_values o = openai_values o' -> o = o'.
Proof. destruct o, o'. by intros [= -> -> -> -> ->]. Qed.

Lemma report_values_inj r r' : report_values r = report_values r' -> r = r'.
Proof. destruct r, r'. by intros [= -> -> ->]. Qed.

(** Property X14.  [Manifest.load] returns exactly when the decoded
    document has, in its sections [github], [openai] and [report], a value
    under each of the thirteen keys the constructors read, whatever these
    values are and whatever else the document holds.  The three
    attributes are then all set, each to the values found under its keys,
    whatever the attributes were before. *)
Theorem load_reads_required_keys
    (self self' : config.Manifest) (manifest_json : json) :
  config.load self manifest_json = (self', Ok tt)
  <-> exists g o r,
        self' = {| config.github := Some g; config.openai := Some o;
                   config.report := Some r |}
        /\ result_map (manifest_value manifest_json "github") github_keys
           = Ok (github_values g)
        /\ result_map (manifest_value manifest_json "openai") openai_keys
           = Ok (openai_values o)
        /\ result_map (manifest_value manifest_json "report") report_keys
           = Ok (report_values r).
Proof.
  pose proof (github_section_read manifest_json) as Hg.
  pose proof (openai_section_read manifest_json) as Ho.
  pose proof (report_section_read manifest_json) as Hr.
  unfold config.load.
  destruct (section <-? py_getitem manifest_json "github";
            config.GitHubConfiguration_init section)%result as [g1|e1];
    [destruct (section <-? py_getitem manifest_json "openai";
               config.OpenAiConfiguration_init section)%result as [o1|e1];
     [destruct (section <-? py_getitem manifest_json "report";
                config.ReportConfiguration_init section)%result as [r1|e1]|]|];
    cbn [config.github config.openai config.report].
  - split.
    + intros [= <-]. by exists g1, o1, r1.
    + intros (g & o & r & -> & Hg' & Ho' & Hr').
      rewrite Hg in Hg'. rewrite Ho in Ho'. rewrite Hr in Hr'.
      apply Ok_inj in Hg'. apply Ok_inj in Ho'. apply Ok_inj in Hr'.
      apply github_values_inj in Hg' as ->.
      apply openai_values_inj in Ho' as ->.
      by apply report_values_inj in Hr' as ->.
  - split; [done|]. intros (g & o & r & _ & _ & _ & Hr').
    by rewrite Hr in Hr'.
  - split; [done|]. intros (g & o & r & _ & _ & Ho' & _).
    by rewrite Ho in Ho'.
  - split; [done|]. intros (g & o & r & _ & Hg' & _).
    by rewrite Hg in Hg'.
Qed.

Lemma load_reads_required_keys_witness :
  exists g o r,
    fst (config.load config.Manifest_init demo_manifest)
    = {| config.github := Some g; config.openai := Some o;
         config.report := Some r |}
    /\ result_map (manifest_value demo_manifest "github") github_keys
       = Ok (github_values g)
    /\ result_map (manifest_value demo_manifest "openai") openai_keys
       = Ok (openai_values o)
    /\ result_map (manifest_value demo_manifest "report") report_keys
       = Ok (report_values r).
Proof.
  exact (proj1 (load_reads_required_keys config.Manifest_init _ demo_manifest)
           eq_refl).
Defined.

(** Property X15.  [Manifest.load] is not all or nothing.  It raises
    exactly when a key is missing, and then with the error of the first
    missing key in the order [github], [openai], [report] and, inside a
    section, in the order of the constructor; the attributes of the
    sections before the failing one are already replaced, the others are
    as they were. *)
Theorem load_failure_is_partial
    (self self' : config.Manifest) (manifest_json : json) (e : py_error) :
  config.load self manifest_json = (self', Err e)
  <-> (result_map (manifest_value manifest_json "github") github_keys = Err e
       /\ self' = self)
      \/ (exists g,
            result_map (manifest_value manifest_json "github") github_keys
            = Ok (github_values g)
            /\ result_map (manifest_value manifest_json "openai") openai_keys
               = Err e
            /\ self' = {| config.github := Some g;
                          config.openai := config.openai self;
                          config.report := config.report self |})
      \/ (exists g o,
            result_map (manifest_value manifest_json "github") github_keys
            = Ok (github_values g)
            /\ result_map (manifest_value manifest_json "openai") openai_keys
               = Ok (openai_values o)
            /\ result_map (manifest_value manifest_json "report") report_keys
               = Err e
            /\ self' = {| config.github := Some g; config.openai := Some o;
                          config.report := config.report self |}).
Proof.
  pose proof (github_section_read manifest_json) as Hg.
  pose proof (openai_section_read manifest_json) as Ho.
  pose proof (report_section_read manifest_json) as Hr.
  unfold config.load.
  destruct (section <-? py_getitem manifest_json "github";
            config.GitHubConfiguration_init section)%result as [g1|e1];
    [destruct (section <-? py_getitem manifest_json "openai";
               config.OpenAiConfiguration_init section)%result as [o1|e1];
     [destruct (section <-? py_getitem manifest_json "report";
                config.ReportConfiguration_init section)%result as [r1|e1]|]|];
    cbn [config.github config.openai config.report].
  - split; [done|].
    intros [[Hg' _]|[(g & _ & Ho' & _)|(g & o & _ & _ & Hr' & _)]].
    + by rewrite Hg in Hg'.
    + by rewrite Ho in Ho'.
    + by rewrite Hr in Hr'.
  - split.
    + intros [= <- <-]. right. right. by exists g1, o1.
    + intros [[Hg' _]|[(g & _ & Ho' & _)|(g & o & Hg' & Ho' & Hr' & ->)]].
      * by rewrite Hg in Hg'.
      * by rewrite Ho in Ho'.
      * rewrite Hg in Hg'. rewrite Ho in Ho'. rewrite Hr in Hr'.
        apply Ok_inj in Hg'. apply Ok_inj in Ho'. injection Hr' as ->.
        apply github_values_inj in Hg' as ->.
        by apply openai_values_inj in Ho' as ->.
  - split.
    + intros [= <- <-]. right. left. by exists g1.
    + intros [[Hg' _]|[(g & Hg' & Ho' & ->)|(g & o & _ & Ho' & _)]].
      * by rewrite Hg in Hg'.
      * rewrite Hg in Hg'. rewrite Ho in Ho'.
        apply Ok_inj in Hg'. injection Ho' as ->.
        by apply github_values_inj in Hg' as ->.
      * by rewrite Ho in Ho'.
  - split.
    + intros [= <- <-]. by left.
    + intros [[Hg' ->]|[(g & Hg' & _)|(g & o & Hg' & _)]].
      * rewrite Hg in Hg'. by injection Hg' as ->.
      * by rewrite Hg in Hg'.
      * by rewrite Hg in Hg'.
Qed.

Lemma load_failure_is_partial_witness :
  exists g,
    config.load config.Manifest_init partial_manifest
    = ({| config.github := Some g; config.openai := None;
          config.report := None |},
       Err (KeyError (JStr "client_secret"))).
Proof.
  eexists.
  apply (proj2 (load_failure_is_partial config.Manifest_init _
                  partial_manifest _)).
  right. left.
  exists {| config.org_name := JStr "mock-org-name";
            config.repo_name := JStr "mock-repo-name";
            config.api_url := JStr "https://api.mock";
            config.api_token := JStr "mock-api-token";
            config.search_label := JStr "mock-search-label" |}.
  split; [reflexivity|]. split; reflexivity.
Defined.
